(** * digiHousing_apis: the record-mutation-with-audit core and its gates

    A shallow embedding of [src/database/crud.py],
    [src/audit_track/audit_log.py], [src/security.py], the tables of
    [src/database/database_models.py] and the handlers of
    [src/routes/roles_router.py], [src/routes/users.py] and
    [src/routes/amenities.py], together with the parts of the Python
    runtime they lean on ([datetime.isoformat], [json.dumps]/[json.loads],
    the SQLAlchemy session). *)

From Stdlib Require Import ZArith List String Ascii Bool Lia.
Import ListNotations.
Local Open Scope string_scope.
Local Open Scope Z_scope.
Set Warnings "-register-all".

(* ================================================================== *)
(** ** Python's [datetime] and its ISO-8601 rendering *)
(* ================================================================== *)

Module Datetime.

(** A [datetime.datetime] instance.  [utcoffset] is [None] for a naive
    value and [Some off] for an aware one, [off] being the offset east of
    UTC in microseconds (a [timedelta]). *)
Record datetime : Type := mk_datetime
  { year : Z; month : Z; day : Z;
    hour : Z; minute : Z; second : Z; microsecond : Z;
    utcoffset : option Z }.

Definition is_leap (y : Z) : bool :=
  (y mod 4 =? 0) && (negb (y mod 100 =? 0) || (y mod 400 =? 0)).

Definition days_in_month (y m : Z) : Z :=
  if m =? 2 then (if is_leap y then 29 else 28)
  else if (m =? 4) || (m =? 6) || (m =? 9) || (m =? 11) then 30
  else 31.

Definition us_per_second : Z := 1000000.
Definition us_per_minute : Z := 60 * us_per_second.
Definition us_per_hour : Z := 60 * us_per_minute.
Definition us_per_day : Z := 24 * us_per_hour.

Definition in_range (lo x hi : Z) : bool := (lo <=? x) && (x <=? hi).

(** The checks of the [datetime] and [timezone] constructors: the class
    invariant of every instance the program can hold. *)
Definition datetime_valid (d : datetime) : bool :=
  in_range 1 (year d) 9999 &&
  in_range 1 (month d) 12 &&
  in_range 1 (day d) (days_in_month (year d) (month d)) &&
  in_range 0 (hour d) 23 &&
  in_range 0 (minute d) 59 &&
  in_range 0 (second d) 59 &&
  in_range 0 (microsecond d) 999999 &&
  match utcoffset d with
  | None => true
  | Some off => (- us_per_day <? off) && (off <? us_per_day)
  end.

Definition digit_char (d : Z) : ascii := ascii_of_N (Z.to_N (48 + d)).

Definition digit_of_ascii (c : ascii) : option Z :=
  let n := Z.of_N (N_of_ascii c) in
  if in_range 48 n 57 then Some (n - 48) else None.

(** ["%0wd" % n] for a field that fits its width, as every field of a
    valid [datetime] does. *)
Fixpoint pad (w : nat) (n : Z) : string :=
  match w with
  | O => ""
  | S w' => pad w' (n / 10) ++ String (digit_char (n mod 10)) ""
  end.

(** [_format_time(hh, mm, ss, us, timespec='auto')]. *)
Definition format_time (hh mm ss us : Z) : string :=
  pad 2 hh ++ ":" ++ pad 2 mm ++ ":" ++ pad 2 ss ++
  (if us =? 0 then "" else "." ++ pad 6 us).

(** [_format_offset(off)]. *)
Definition format_offset (off : option Z) : string :=
  match off with
  | None => ""
  | Some o =>
      let sign := if o <? 0 then "-" else "+" in
      let a := Z.abs o in
      let hh := a / us_per_hour in
      let r := a mod us_per_hour in
      let mm := r / us_per_minute in
      let ss := r mod us_per_minute in
      sign ++ pad 2 hh ++ ":" ++ pad 2 mm ++
      (if ss =? 0 then ""
       else ":" ++ pad 2 (ss / us_per_second) ++
            (if ss mod us_per_second =? 0 then ""
             else "." ++ pad 6 (ss mod us_per_second)))
  end.

(** [datetime.isoformat(self)] with the default separator and timespec. *)
Definition isoformat (d : datetime) : string :=
  pad 4 (year d) ++ "-" ++ pad 2 (month d) ++ "-" ++ pad 2 (day d) ++ "T" ++
  format_time (hour d) (minute d) (second d) (microsecond d) ++
  format_offset (utcoffset d).

(** *** Reading an ISO-8601 string back *)

Fixpoint take_digits (w : nat) (acc : Z) (s : string) : option (Z * string) :=
  match w with
  | O => Some (acc, s)
  | S w' =>
      match s with
      | String c s' =>
          match digit_of_ascii c with
          | Some d => take_digits w' (acc * 10 + d) s'
          | None => None
          end
      | EmptyString => None
      end
  end.

Definition expect (c : ascii) (s : string) : option string :=
  match s with
  | String c' s' => if Ascii.eqb c c' then Some s' else None
  | EmptyString => None
  end.

Definition bind_opt {A B} (o : option A) (k : A -> option B) : option B :=
  match o with Some a => k a | None => None end.

Local Notation "' p <- o ;; k" := (bind_opt o (fun p => k))
  (at level 61, p pattern, o at next level, right associativity).

(** An optional [.ffffff] group. *)
Definition take_fraction (s : string) : option (Z * string) :=
  match s with
  | String "."%char s' => take_digits 6 0 s'
  | _ => Some (0, s)
  end.

(** The time zone designator: nothing, or [+HH:MM[:SS[.ffffff]]] with
    either sign, up to the end of the string. *)
Definition parse_offset (s : string) : option (option Z) :=
  match s with
  | EmptyString => Some None
  | String c s' =>
      ' sign <- (if Ascii.eqb c "+" then Some 1
                 else if Ascii.eqb c "-" then Some (-1) else None) ;;
      ' (hh, s1) <- take_digits 2 0 s' ;;
      ' s2 <- expect ":" s1 ;;
      ' (mm, s3) <- take_digits 2 0 s2 ;;
      ' (ss, s4) <- match s3 with
                    | String ":"%char s3' => take_digits 2 0 s3'
                    | _ => Some (0, s3)
                    end ;;
      ' (us, s5) <- take_fraction s4 ;;
      match s5 with
      | EmptyString =>
          Some (Some (sign * (hh * us_per_hour + mm * us_per_minute
                              + ss * us_per_second + us)))
      | _ => None
      end
  end.

(** ISO-8601 reader for the extended format
    [YYYY-MM-DDTHH:MM:SS[.ffffff][+HH:MM[:SS[.ffffff]]]]; the result is
    range-checked like any constructed [datetime]. *)
Definition fromisoformat (s : string) : option datetime :=
  ' (y, s) <- take_digits 4 0 s ;;
  ' s <- expect "-" s ;;
  ' (mo, s) <- take_digits 2 0 s ;;
  ' s <- expect "-" s ;;
  ' (d, s) <- take_digits 2 0 s ;;
  ' s <- expect "T" s ;;
  ' (hh, s) <- take_digits 2 0 s ;;
  ' s <- expect ":" s ;;
  ' (mi, s) <- take_digits 2 0 s ;;
  ' s <- expect ":" s ;;
  ' (ss, s) <- take_digits 2 0 s ;;
  ' (us, s) <- take_fraction s ;;
  ' off <- parse_offset s ;;
  let r := mk_datetime y mo d hh mi ss us off in
  if datetime_valid r then Some r else None.

End Datetime.

Import Datetime.

(* ================================================================== *)
(** ** Python values, exceptions and results *)
(* ================================================================== *)

(** The Python objects that travel through the core: column values, the
    [data] payloads of the routes and what [json] reads and writes.
    [PObject] stands for an instance of any other class (a [date], an
    [Enum] member, a [Decimal], ...) and only carries the qualified name
    of its class, as [repr(type(obj))] shows it.  The values are finite
    trees of these kinds: a [float], a [tuple] or a container that holds
    itself is not among them. *)
Inductive pyvalue : Type :=
| PNone
| PBool (b : bool)
| PInt (n : Z)
| PStr (s : string)
| PList (l : list pyvalue)
| PDict (d : list (string * pyvalue))
| PDatetime (d : datetime)
| PObject (type_name : string).

(** A Python [dict] with [str] keys, in insertion order. *)
Definition pydict : Type := list (string * pyvalue).

(** [repr(type(obj))]. *)
Definition type_repr (v : pyvalue) : string :=
  match v with
  | PNone => "<class 'NoneType'>"
  | PBool _ => "<class 'bool'>"
  | PInt _ => "<class 'int'>"
  | PStr _ => "<class 'str'>"
  | PList _ => "<class 'list'>"
  | PDict _ => "<class 'dict'>"
  | PDatetime _ => "<class 'datetime.datetime'>"
  | PObject n => "<class '" ++ n ++ "'>"
  end.

Fixpoint has_char (c : ascii) (s : string) : bool :=
  match s with
  | EmptyString => false
  | String a s' => Ascii.eqb a c || has_char c s'
  end.

(** The part of a qualified name after its last dot. *)
Fixpoint after_last_dot (s : string) : string :=
  match s with
  | EmptyString => EmptyString
  | String a s' =>
      if has_char "." s' then after_last_dot s'
      else if Ascii.eqb a "." then s' else s
  end.

(** [type(obj).__name__]. *)
Definition type_name_of (v : pyvalue) : string :=
  match v with
  | PNone => "NoneType"
  | PBool _ => "bool"
  | PInt _ => "int"
  | PStr _ => "str"
  | PList _ => "list"
  | PDict _ => "dict"
  | PDatetime _ => "datetime"
  | PObject n => after_last_dot n
  end.

Definition option_eqb {A} (eqb : A -> A -> bool) (a b : option A) : bool :=
  match a, b with
  | None, None => true
  | Some x, Some y => eqb x y
  | _, _ => false
  end.

Definition datetime_eqb (a b : datetime) : bool :=
  (year a =? year b) && (month a =? month b) && (day a =? day b) &&
  (hour a =? hour b) && (minute a =? minute b) && (second a =? second b) &&
  (microsecond a =? microsecond b) &&
  option_eqb Z.eqb (utcoffset a) (utcoffset b).

(** [a == b] on values of the same type, as the ORM comparisons and the
    set-membership tests of the gates use it (integers against integers,
    strings against strings). *)
Fixpoint pyvalue_eqb (a b : pyvalue) {struct a} : bool :=
  match a, b with
  | PNone, PNone => true
  | PBool x, PBool y => Bool.eqb x y
  | PInt x, PInt y => x =? y
  | PStr x, PStr y => String.eqb x y
  | PList xs, PList ys =>
      (fix go (xs ys : list pyvalue) {struct xs} : bool :=
         match xs, ys with
         | [], [] => true
         | x :: xs', y :: ys' => pyvalue_eqb x y && go xs' ys'
         | _, _ => false
         end) xs ys
  | PDict xs, PDict ys =>
      (fix go (xs ys : list (string * pyvalue)) {struct xs} : bool :=
         match xs, ys with
         | [], [] => true
         | (k, x) :: xs', (k', y) :: ys' =>
             String.eqb k k' && pyvalue_eqb x y && go xs' ys'
         | _, _ => false
         end) xs ys
  | PDatetime x, PDatetime y => datetime_eqb x y
  | PObject x, PObject y => String.eqb x y
  | _, _ => false
  end.

(** The exceptions the core raises or meets. *)
Inductive exn : Type :=
| HTTPException (status_code : Z) (detail : string)
| TypeError (msg : string)
| AttributeError (msg : string)
| IntegrityError (msg : string)
| InvalidRequestError (msg : string)
| MultipleResultsFound
| JWTError
| ExpiredSignatureError
| ValueError (msg : string)
| ArgumentError (msg : string).

Inductive result (A : Type) : Type :=
| Ok (a : A)
| Raise (e : exn).
Arguments Ok {A} a.
Arguments Raise {A} e.

(** Decimal rendering of a status code as [str(int)] gives it. *)
Definition str_of_status (n : Z) : string := pad 3 n.

(** [str(e)]. *)
Definition str_of_exn (e : exn) : string :=
  match e with
  | HTTPException c d => str_of_status c ++ ": " ++ d
  | TypeError m => m
  | AttributeError m => m
  | IntegrityError m => m
  | InvalidRequestError m => m
  | MultipleResultsFound =>
      "Multiple rows were found when one or none was required"
  | JWTError => ""
  | ExpiredSignatureError => "Signature has expired."
  | ValueError m => m
  | ArgumentError m => m
  end.

(** HTTP status the client receives for an exception that leaves a route,
    after the handlers [main.py] registers: [http_exception_handler]
    answers with [exc.status_code], [sqlalchemy_exception_handler] and
    [generic_exception_handler] with 500. *)
Definition response_status (e : exn) : Z :=
  match e with
  | HTTPException c _ => c
  | _ => 500
  end.

(* ================================================================== *)
(** ** [json.dumps] and [json.loads] *)
(* ================================================================== *)

(** A JSON document, kept as its syntax tree: the text [json.dumps]
    writes and [json.loads] reads back is not spelled out. *)
Inductive json : Type :=
| JNull
| JBool (b : bool)
| JNumber (n : Z)
| JString (s : string)
| JArray (l : list json)
| JObject (m : list (string * json)).

(** The encoder: native values map to their JSON counterpart and every
    other object goes to [fallback]. *)
Fixpoint encode (fallback : pyvalue -> result json) (v : pyvalue)
  : result json :=
  match v with
  | PNone => Ok JNull
  | PBool b => Ok (JBool b)
  | PInt n => Ok (JNumber n)
  | PStr s => Ok (JString s)
  | PList l =>
      match
        (fix go (l : list pyvalue) : result (list json) :=
           match l with
           | [] => Ok []
           | x :: xs =>
               match encode fallback x with
               | Ok j => match go xs with
                         | Ok js => Ok (j :: js)
                         | Raise e => Raise e
                         end
               | Raise e => Raise e
               end
           end) l
      with
      | Ok js => Ok (JArray js)
      | Raise e => Raise e
      end
  | PDict d =>
      match
        (fix go (d : list (string * pyvalue)) : result (list (string * json)) :=
           match d with
           | [] => Ok []
           | (k, x) :: xs =>
               match encode fallback x with
               | Ok j => match go xs with
                         | Ok js => Ok ((k, j) :: js)
                         | Raise e => Raise e
                         end
               | Raise e => Raise e
               end
           end) d
      with
      | Ok m => Ok (JObject m)
      | Raise e => Raise e
      end
  | PDatetime _ | PObject _ => fallback v
  end.

Definition not_json_serializable (v : pyvalue) : exn :=
  TypeError ("Object of type " ++ type_name_of v ++ " is not JSON serializable").

(** [json.dumps(v, default=default)].  Without a hook a foreign object
    raises [TypeError]; with one, the hook's answer is encoded in its
    place (the hook of this program answers with a [str]). *)
Definition json_dumps (default : option (pyvalue -> result pyvalue))
  (v : pyvalue) : result json :=
  encode (fun o =>
            match default with
            | None => Raise (not_json_serializable o)
            | Some f =>
                match f o with
                | Ok o' => encode (fun o'' => Raise (not_json_serializable o'')) o'
                | Raise e => Raise e
                end
            end) v.

(** [json.loads]. *)
Fixpoint json_loads (j : json) : pyvalue :=
  match j with
  | JNull => PNone
  | JBool b => PBool b
  | JNumber n => PInt n
  | JString s => PStr s
  | JArray l => PList (map json_loads l)
  | JObject m => PDict (map (fun kv => (fst kv, json_loads (snd kv))) m)
  end.

(** crud.py, [json_serial]. *)
Definition json_serial (obj : pyvalue) : result pyvalue :=
  match obj with
  | PDatetime d => Ok (PStr (isoformat d))
  | _ => Raise (TypeError ("Type " ++ type_repr obj ++ " not serializable"))
  end.

(** The idiom of [update_record] and [delete_record]:
    [json.loads(json.dumps(v, default=json_serial))]. *)
Definition canonicalize (v : pyvalue) : result pyvalue :=
  match json_dumps (Some json_serial) v with
  | Ok j => Ok (json_loads j)
  | Raise e => Raise e
  end.

(** Values [json] writes without help: no [datetime] and no foreign
    object at any depth. *)
Fixpoint json_representable (v : pyvalue) : bool :=
  match v with
  | PNone | PBool _ | PInt _ | PStr _ => true
  | PList l => forallb json_representable l
  | PDict d =>
      (fix go (d : list (string * pyvalue)) : bool :=
         match d with
         | [] => true
         | (_, x) :: xs => json_representable x && go xs
         end) d
  | PDatetime _ | PObject _ => false
  end.

(* ================================================================== *)
(** ** database_models.py: the declared tables *)
(* ================================================================== *)

(** The [default=] of a column: absent, a constant, or [func.now()]. *)
Inductive column_default : Type :=
| NoDefault
| DefaultValue (v : pyvalue)
| DefaultNow.

(** The column types the tables use. *)
Inductive column_type : Type :=
| TInteger
| TString
| TBoolean
| TTimestamp.

(** [Column(type, ForeignKey("<table>.id"), primary_key=, nullable=,
    unique=, default=, onupdate=)].  Every foreign key of the schema
    points to the [id] of its table. *)
Record Column : Type := mk_column
  { c_name : string;
    c_type : column_type;
    c_primary_key : bool;
    c_nullable : bool;
    c_unique : bool;
    c_foreign_key : option string;
    c_default : column_default;
    c_onupdate_now : bool }.

(** [relationship("<Other>", back_populates=...)], by the table that
    holds the foreign key: this one (the attribute is the one object
    pointed to) or the other one (the attribute is the collection of the
    rows that point here). *)
Inductive relation : Type :=
| ManyToOne (foreign_key : string)
| OneToMany (child_table child_key : string).

(** What a model class carries besides its columns: a method, a
    relationship, an object of the class machinery (the metadata, the
    table, the mapper, ...), which is equal to no value that travels
    through the core, or a plain value. *)
Inductive class_attr : Type :=
| Method
| Relationship (r : relation)
| ClassObject
| ClassValue (v : pyvalue).

Record Model : Type := mk_model
  { classname : string;
    tablename : string;
    columns : list Column;
    class_attrs : list (string * class_attr) }.

(** [id = Column(Integer, primary_key=True)]. *)
Definition id_col : Column :=
  mk_column "id" TInteger true false false None NoDefault false.
(** [Column(type)]: nullable, no default. *)
Definition col (name : string) (t : column_type) : Column :=
  mk_column name t false true false None NoDefault false.
(** [Column(String, unique=True)]. *)
Definition col_unique (name : string) : Column :=
  mk_column name TString false true true None NoDefault false.
(** [Column(Integer, ForeignKey("<table>.id"), nullable=False)]. *)
Definition col_fk (name table : string) : Column :=
  mk_column name TInteger false false false (Some table) NoDefault false.
Definition col_default (name : string) (t : column_type) (v : pyvalue) : Column :=
  mk_column name t false true false None (DefaultValue v) false.
Definition created_at_col : Column :=
  mk_column "created_at" TTimestamp false true false None DefaultNow false.
Definition updated_at_col : Column :=
  mk_column "updated_at" TTimestamp false true false None DefaultNow true.

(** What a mapped class has besides what its body declares: the
    attributes the declarative base gives it (SQLAlchemy 1.4 or later) and
    the ones every Python class has.  Of the names that begin with an
    underscore, only those whose presence does not depend on the version
    of Python or of SQLAlchemy are listed: what rests on a class not
    having a name is stated for names that do not begin with one. *)
Definition inherited_attrs (name : string) : list (string * class_attr) :=
  [("metadata", ClassObject); ("registry", ClassObject);
   ("__table__", ClassObject); ("__mapper__", ClassObject);
   ("_sa_class_manager", ClassObject);
   ("__init__", Method);
   ("__name__", ClassValue (PStr name));
   ("__qualname__", ClassValue (PStr name));
   ("__module__", ClassValue (PStr "database.database_models"));
   ("__doc__", ClassValue PNone);
   ("__dict__", ClassObject); ("__weakref__", ClassObject);
   ("__class__", ClassObject); ("__bases__", ClassObject);
   ("__base__", ClassObject); ("__mro__", ClassObject);
   ("mro", Method); ("__subclasses__", Method); ("__call__", Method);
   ("__new__", Method); ("__init_subclass__", Method);
   ("__subclasshook__", Method);
   ("__repr__", Method); ("__str__", Method); ("__format__", Method);
   ("__hash__", Method); ("__eq__", Method); ("__ne__", Method);
   ("__lt__", Method); ("__le__", Method); ("__gt__", Method);
   ("__ge__", Method);
   ("__getattribute__", Method); ("__setattr__", Method);
   ("__delattr__", Method); ("__dir__", Method); ("__sizeof__", Method);
   ("__reduce__", Method); ("__reduce_ex__", Method)].

Definition RolesDbModel : Model :=
  mk_model "RolesDbModel" "roles"
    [id_col; col_unique "name"; col "description" TString;
     created_at_col; updated_at_col]
    ([("__tablename__", ClassValue (PStr "roles")); ("users", Relationship (OneToMany "users" "role_id"))]
     ++ inherited_attrs "RolesDbModel").

Definition UserDbModel : Model :=
  mk_model "UserDbModel" "users"
    [id_col; col_unique "email_id"; col "password" TString;
     col_default "verification_code" TString PNone;
     col_default "confirmed" TBoolean (PBool false);
     col_fk "role_id" "roles"; created_at_col; updated_at_col]
    ([("__tablename__", ClassValue (PStr "users"));
      ("role", Relationship (ManyToOne "role_id"));
      ("property_types",
       Relationship (OneToMany "property_types" "created_by_user"));
      ("property_config",
       Relationship (OneToMany "property_config" "created_by_user"));
      ("property_address",
       Relationship (OneToMany "property_address" "created_by_user"));
      ("amenities", Relationship (OneToMany "amenities" "created_by_user"));
      ("to_dict_name_role", Method)]
     ++ inherited_attrs "UserDbModel").

Definition PropertyTypesDbModel : Model :=
  mk_model "PropertyTypesDbModel" "property_types"
    [id_col; col_unique "name"; col "description" TString;
     col_fk "created_by_user" "users"; created_at_col; updated_at_col]
    ([("__tablename__", ClassValue (PStr "property_types"));
      ("user", Relationship (ManyToOne "created_by_user"));
      ("to_dict", Method)]
     ++ inherited_attrs "PropertyTypesDbModel").

Definition PropertyConfigDbModel : Model :=
  mk_model "PropertyConfigDbModel" "property_config"
    [id_col; col_unique "name"; col "description" TString;
     col_fk "created_by_user" "users"; created_at_col; updated_at_col]
    ([("__tablename__", ClassValue (PStr "property_config"));
      ("user", Relationship (ManyToOne "created_by_user"));
      ("to_dict", Method)]
     ++ inherited_attrs "PropertyConfigDbModel").

Definition AmenitiesDbModel : Model :=
  mk_model "AmenitiesDbModel" "amenities"
    [id_col; col_unique "name"; col "description" TString;
     col_fk "created_by_user" "users"; created_at_col; updated_at_col]
    ([("__tablename__", ClassValue (PStr "amenities"));
      ("user", Relationship (ManyToOne "created_by_user"));
      ("to_dict", Method)]
     ++ inherited_attrs "AmenitiesDbModel").

(** [Column(String, nullable=False)]. *)
Definition col_required (name : string) : Column :=
  mk_column name TString false false false None NoDefault false.

Definition PropertyAddressDbModel : Model :=
  mk_model "PropertyAddressDbModel" "property_address"
    [id_col; col "house_no" TString; col "building_name" TString;
     col "street" TString; col_required "city"; col_required "state";
     col_required "country"; col_required "zip_code";
     mk_column "created_by_user" TInteger false true false (Some "users")
       NoDefault false;
     created_at_col; updated_at_col]
    ([("__tablename__", ClassValue (PStr "property_address"));
      ("user", Relationship (ManyToOne "created_by_user"));
      ("to_dict", Method)]
     ++ inherited_attrs "PropertyAddressDbModel").

Definition QueriesDbModel : Model :=
  mk_model "QueriesDbModel" "queries"
    [id_col; col_required "user_phonenumber"; col_required "user_name";
     col_required "query_type";
     col_fk "property_type_id" "property_types";
     col_fk "property_config_id" "property_config";
     mk_column "property_address_id" TInteger false true false
       (Some "property_address") NoDefault false;
     mk_column "amenities_id" TInteger false true false (Some "amenities")
       NoDefault false;
     col_default "contacted" TBoolean (PBool false);
     col_default "resolution" TString PNone;
     created_at_col; updated_at_col]
    ([("__tablename__", ClassValue (PStr "queries")); ("to_dict", Method)]
     ++ inherited_attrs "QueriesDbModel").

(** [ImagesDbModel]: the one table whose primary key is not [id]. *)
Definition ImagesDbModel : Model :=
  mk_model "ImagesDbModel" "images"
    [mk_column "key" TString true false false None NoDefault false;
     mk_column "url" TString false false false None NoDefault false;
     created_at_col; updated_at_col]
    ([("__tablename__", ClassValue (PStr "images"))]
     ++ inherited_attrs "ImagesDbModel").

(** The mapped classes whose rows the store keeps in [tables]. *)
Definition declared_models : list Model :=
  [RolesDbModel; UserDbModel; PropertyTypesDbModel; PropertyConfigDbModel;
   PropertyAddressDbModel; AmenitiesDbModel; QueriesDbModel; ImagesDbModel].

(** The mapped class of a table. *)
Definition model_of_table (t : string) : option Model :=
  find (fun m => String.eqb (tablename m) t) declared_models.

(** The collections of a class: its one-to-many relationships, each as
    the other table and the foreign key there. *)
Definition collections (m : Model) : list (string * string) :=
  flat_map (fun a => match snd a with
                     | Relationship (OneToMany child_table child_key) =>
                         [(child_table, child_key)]
                     | _ => []
                     end) (class_attrs m).

Fixpoint lookup {A : Type} (k : string) (d : list (string * A)) : option A :=
  match d with
  | [] => None
  | (k', v) :: d' => if String.eqb k k' then Some v else lookup k d'
  end.

Definition mem (k : string) (l : list string) : bool :=
  existsb (String.eqb k) l.

Definition column_names (m : Model) : list string := map c_name (columns m).

Definition is_column (m : Model) (name : string) : bool :=
  mem name (column_names m).

(** [hasattr(model, attr)]: the columns and whatever else the class
    declares. *)
Definition hasattr (m : Model) (attr : string) : bool :=
  is_column m attr || mem attr (map fst (class_attrs m)).

(** A name that begins with an underscore. *)
Definition private_name (name : string) : bool :=
  match name with
  | String "_"%char _ => true
  | _ => false
  end.

(** The column a name stands for. *)
Definition column_named (m : Model) (name : string) : option Column :=
  find (fun c => String.eqb (c_name c) name) (columns m).

(** A model keyed the way the CRUD helpers expect: its table has the
    column [id = Column(Integer, primary_key=True)], without [default=]
    and without [onupdate=]. *)
Definition keyed (m : Model) : bool :=
  is_column m "id"
  && forallb (fun c =>
                negb (String.eqb (c_name c) "id")
                || (c_primary_key c
                    && match c_type c with TInteger => true | _ => false end
                    && match c_default c with NoDefault => true | _ => false end
                    && negb (c_onupdate_now c)))
       (columns m).

(** The values a column of each type stores and gives back unchanged:
    [None], an [int] the driver can bind (64 bits), a [str], a [bool], a
    naive [datetime]. *)
Definition fits (t : column_type) (v : pyvalue) : bool :=
  match v, t with
  | PNone, _ => true
  | PInt n, TInteger => (- 2 ^ 63 <=? n) && (n <? 2 ^ 63)
  | PStr _, TString => true
  | PBool _, TBoolean => true
  | PDatetime d, TTimestamp =>
      datetime_valid d && match utcoffset d with None => true | Some _ => false end
  | _, _ => false
  end.

(** A mapping of filters: every key names a column and holds [None] or
    a value of the column's type that the database compares as Python
    does, that is an [int], a [str] or a [bool] (how a stored timestamp
    compares with a [datetime] is the database's own affair). *)
Definition typed_filters (m : Model) (filter_params : list (string * pyvalue))
  : bool :=
  forallb (fun kv => match column_named m (fst kv) with
                     | Some c =>
                         fits (c_type c) (snd kv)
                         && match snd kv with PDatetime _ => false | _ => true end
                     | None => false
                     end) filter_params.

(** A mapping of fields: every key names a column and holds a value of
    the column's type, and the primary key, if named, holds a number. *)
Definition well_typed (m : Model) (data : list (string * pyvalue)) : bool :=
  forallb (fun kv => match column_named m (fst kv) with
                     | Some c =>
                         fits (c_type c) (snd kv)
                         && negb (c_primary_key c
                                  && match snd kv with PNone => true | _ => false end)
                     | None => false
                     end) data.

(* ================================================================== *)
(** ** The SQLAlchemy session over the database *)
(* ================================================================== *)

(** A row, column name to value, in column order; also how a loaded ORM
    object is seen. *)
Definition row : Type := list (string * pyvalue).

(** [getattr(record, name)] on a mapped column: [None] when unset. *)
Definition getattr (r : row) (name : string) : pyvalue :=
  match lookup name r with
  | Some v => v
  | None => PNone
  end.

Fixpoint set_attr (name : string) (v : pyvalue) (r : row) : row :=
  match r with
  | [] => [(name, v)]
  | (k, x) :: r' =>
      if String.eqb name k then (k, v) :: r' else (k, x) :: set_attr name v r'
  end.

(** A row of [audit_logs] ([AuditLogsDbModel]); the two [String] columns
    hold the documents [json.dumps] wrote. *)
Record AuditLog : Type := mk_audit
  { audit_id : Z;
    table_name : string;
    record_id : pyvalue;
    changed_by : Z;
    old_values : json;
    new_values : json;
    timestamp : datetime }.

(** The database: the rows of each table by table name, and the rows of
    [audit_logs], which only [add_audit_log] writes, as records of their
    own.  The properties below that speak of [audit_logs] are stated for
    models of the other tables. *)
Record store : Type := mk_store
  { tables : list (string * list row);
    audit_logs : list AuditLog }.

Definition table_rows (st : store) (t : string) : list row :=
  match lookup t (tables st) with
  | Some rs => rs
  | None => []
  end.

Fixpoint set_table (t : string) (rs : list row)
  (ts : list (string * list row)) : list (string * list row) :=
  match ts with
  | [] => [(t, rs)]
  | (t', rs') :: ts' =>
      if String.eqb t t' then (t', rs) :: ts' else (t', rs') :: set_table t rs ts'
  end.

(** What the session holds until the next flush. *)
Inductive pending : Type :=
| Insert (m : Model) (values : pydict)
| Update (m : Model) (pk : pyvalue) (changes : pydict)
| Delete (m : Model) (pk : pyvalue)
| Detach (child_table child_key : string) (pk : pyvalue)
| InsertAudit (table_name : string) (record_id : pyvalue) (changed_by : Z)
    (old_values new_values : json).

(** A session bound to its engine: the constraints the database enforces
    at commit, the database clock behind [func.now()], the committed
    state, and the unit of work not yet flushed. *)
Record Session : Type := mk_session
  { constraints : store -> bool;
    now : datetime;
    database : store;
    unit_of_work : list pending }.

Definition default_value (clock : datetime) (d : column_default) : pyvalue :=
  match d with
  | NoDefault => PNone
  | DefaultValue v => v
  | DefaultNow => PDatetime clock
  end.

(** The next value of an autoincrement primary key. *)
Definition next_id (ids : list pyvalue) : Z :=
  1 + fold_right (fun v acc => match v with PInt n => Z.max n acc | _ => acc end)
        0 ids.

(** INSERT: every column takes the value given, or its default when no
    value or [None] is given (the ORM leaves an attribute that is [None]
    out of the INSERT), and a missing integer primary key [id] is
    generated. *)
Definition insert_row (clock : datetime) (m : Model) (values : pydict)
  (rows : list row) : row :=
  let r := map (fun c => (c_name c,
                          match lookup (c_name c) values with
                          | Some PNone | None => default_value clock (c_default c)
                          | Some v => v
                          end)) (columns m) in
  if is_column m "id" then
    match getattr r "id" with
    | PNone => set_attr "id" (PInt (next_id (map (fun x => getattr x "id") rows))) r
    | _ => r
    end
  else r.

Definition row_eqb (a b : row) : bool := pyvalue_eqb (PDict a) (PDict b).

(** UPDATE of one row: the columns take the values written, in the order
    they were written; when that changes the row at all, the UPDATE sets
    the columns whose value changed, and the [onupdate] columns among the
    others follow the clock. *)
Definition update_row (clock : datetime) (m : Model) (changes : pydict)
  (r : row) : row :=
  let r' := fold_left (fun acc kv =>
                         if is_column m (fst kv)
                         then set_attr (fst kv) (snd kv) acc else acc)
              changes r in
  if row_eqb r r' then r
  else map (fun kv =>
              match find (fun c => String.eqb (c_name c) (fst kv)) (columns m) with
              | Some c =>
                  if c_onupdate_now c && pyvalue_eqb (getattr r (fst kv)) (snd kv)
                  then (fst kv, PDatetime clock) else kv
              | None => kv
              end) r'.

(** The rows of [child_table] that point to the row [pk] through
    [child_key] lose their parent: each is updated with the key set to
    NULL.  This is what the unit of work does for a collection that is
    emptied, and for the collections of an object that is deleted (no
    relationship of the schema declares a cascade). *)
Definition detach (clock : datetime) (pk : pyvalue) (st : store)
  (child : string * string) : store :=
  match lookup (fst child) (tables st) with
  | None => st
  | Some rows =>
      mk_store
        (set_table (fst child)
           (map (fun r =>
                   if pyvalue_eqb (getattr r (snd child)) pk
                   then match model_of_table (fst child) with
                        | Some m => update_row clock m [(snd child, PNone)] r
                        | None => set_attr (snd child) PNone r
                        end
                   else r) rows)
           (tables st))
        (audit_logs st)
  end.

(** One pending operation against the tables; an INSERT also yields the
    primary key the new object is now known by. *)
Definition apply_pending (clock : datetime) (st : store) (op : pending)
  : store * list pyvalue :=
  match op with
  | Insert m values =>
      let rows := table_rows st (tablename m) in
      let r := insert_row clock m values rows in
      (mk_store (set_table (tablename m) (rows ++ [r]) (tables st))
         (audit_logs st),
       [getattr r "id"])
  | Update m pk changes =>
      let rows := table_rows st (tablename m) in
      (mk_store
         (set_table (tablename m)
            (map (fun r => if pyvalue_eqb (getattr r "id") pk
                           then update_row clock m changes r else r) rows)
            (tables st))
         (audit_logs st),
       [])
  | Delete m pk =>
      let st := fold_left (detach clock pk) (collections m) st in
      let rows := table_rows st (tablename m) in
      (mk_store
         (set_table (tablename m)
            (filter (fun r => negb (pyvalue_eqb (getattr r "id") pk)) rows)
            (tables st))
         (audit_logs st),
       [])
  | Detach child_table child_key pk =>
      (detach clock pk st (child_table, child_key), [])
  | InsertAudit t rid by_ old new =>
      let aid := next_id (map (fun a => PInt (audit_id a)) (audit_logs st)) in
      (mk_store (tables st)
         (audit_logs st ++ [mk_audit aid t rid by_ old new clock]),
       [])
  end.

Fixpoint flush (clock : datetime) (ops : list pending) (st : store)
  : store * list pyvalue :=
  match ops with
  | [] => (st, [])
  | op :: ops' =>
      let '(st1, pks1) := apply_pending clock st op in
      let '(st2, pks2) := flush clock ops' st1 in
      (st2, (pks1 ++ pks2)%list)
  end.

(** The operations of the unit of work that write rows of the tables. *)
Definition writes_rows (op : pending) : Prop :=
  match op with
  | InsertAudit _ _ _ _ _ => False
  | _ => True
  end.

(** *** Computations over the session: state and exceptions *)

Definition M (A : Type) : Type := Session -> result A * Session.

Definition ret {A} (a : A) : M A := fun s => (Ok a, s).

Definition raise {A} (e : exn) : M A := fun s => (Raise e, s).

Definition bind {A B} (m : M A) (k : A -> M B) : M B :=
  fun s =>
    match m s with
    | (Ok a, s') => k a s'
    | (Raise e, s') => (Raise e, s')
    end.

Notation "x <- m ;; k" := (bind m (fun x => k))
  (at level 61, m at next level, right associativity).
Notation "m ;; k" := (bind m (fun _ => k))
  (at level 61, right associativity).

(** [try: body  except Exception as e: handler]. *)
Definition try_except {A} (body : M A) (handler : exn -> M A) : M A :=
  fun s =>
    match body s with
    | (Ok a, s') => (Ok a, s')
    | (Raise e, s') => handler e s'
    end.

Definition lift {A} (r : result A) : M A :=
  match r with
  | Ok a => ret a
  | Raise e => raise e
  end.

(** [db.add(obj)] and the attribute writes and deletions the session
    tracks. *)
Definition db_pend (op : pending) : M unit :=
  fun s => (Ok tt, mk_session (constraints s) (now s) (database s)
                     (unit_of_work s ++ [op])).

Definition db_pend_all (ops : list pending) : M unit :=
  fun s => (Ok tt, mk_session (constraints s) (now s) (database s)
                     (unit_of_work s ++ ops)).

(** [db.commit()]: flush the unit of work and commit if the database
    accepts the outcome; the primary keys given to the added objects are
    returned, in the order they were added.  A refusal is raised as
    [IntegrityError]; its text, which is the driver's, is not modelled. *)
Definition db_commit : M (list pyvalue) :=
  fun s =>
    let '(st, pks) := flush (now s) (unit_of_work s) (database s) in
    if constraints s st
    then (Ok pks, mk_session (constraints s) (now s) st [])
    else (Raise (IntegrityError "constraint failed"), s).

(** [db.rollback()]. *)
Definition db_rollback : M unit :=
  fun s => (Ok tt, mk_session (constraints s) (now s) (database s) []).

(** [db.query(model).filter(...)...all()]. *)
Definition query_all (m : Model) (criteria : list (row -> bool))
  : M (list row) :=
  fun s =>
    (Ok (filter (fun r => forallb (fun p => p r) criteria)
           (table_rows (database s) (tablename m))), s).

(** [.first()]. *)
Definition query_first (m : Model) (criteria : list (row -> bool))
  : M (option row) :=
  rows <- query_all m criteria ;; ret (hd_error rows).

(** [.one_or_none()]. *)
Definition query_one_or_none (m : Model) (criteria : list (row -> bool))
  : M (option row) :=
  rows <- query_all m criteria ;;
  match rows with
  | [] => ret None
  | [r] => ret (Some r)
  | _ => raise MultipleResultsFound
  end.

(** [model.<column> == value] as a WHERE clause, for a value of the
    column's type ([fits]); [None] reads IS NULL. *)
Definition col_eq (name : string) (value : pyvalue) : row -> bool :=
  fun r => pyvalue_eqb (getattr r name) value.

(** [db.refresh(obj)]: reload the object from its row. *)
Definition db_refresh (m : Model) (pk : pyvalue) : M row :=
  r <- query_first m [col_eq "id" pk] ;;
  match r with
  | Some x => ret x
  | None => raise (InvalidRequestError "Could not refresh instance")
  end.

(* ================================================================== *)
(** ** audit_track/audit_log.py *)
(* ================================================================== *)

(** [add_audit_log]: both payloads go through a plain [json.dumps], the
    entry is added and committed. *)
Definition add_audit_log (table_name : string) (record_id : pyvalue)
  (changed_by : Z) (old_values new_values : pyvalue) : M unit :=
  old <- lift (json_dumps None old_values) ;;
  new <- lift (json_dumps None new_values) ;;
  db_pend (InsertAudit table_name record_id changed_by old new) ;;
  _ <- db_commit ;;
  ret tt.

(* ================================================================== *)
(** ** database/crud.py *)
(* ================================================================== *)

(** A [str] that [repr] shows as it is between single quotes: printable
    ASCII characters, the single quote and the backslash apart. *)
Fixpoint plain_text (s : string) : bool :=
  match s with
  | EmptyString => true
  | String c s' =>
      let n := Z.of_N (N_of_ascii c) in
      in_range 32 n 126 && negb (n =? 39) && negb (n =? 92) && plain_text s'
  end.

(** The model class called on the keyword arguments [data]: the
    declarative constructor refuses a keyword the class does not have,
    naming it by its [repr] (written out here for a [plain_text] name).
    The keywords it accepts are assigned to the new object, of which
    [insert_row] keeps the columns: the properties of [create_record]
    below are stated for keywords that name columns. *)
Definition construct (m : Model) (data : pydict) : M pydict :=
  match find (fun kv => negb (hasattr m (fst kv))) data with
  | Some kv =>
      raise (TypeError ("'" ++ fst kv ++ "' is an invalid keyword argument for "
                        ++ classname m))
  | None => ret data
  end.

(** [record.name] on an instance of [model]. *)
Definition read_attr (model : Model) (record : row) (name : string)
  : M pyvalue :=
  if hasattr model name then ret (getattr record name)
  else raise (AttributeError ("'" ++ classname model
                              ++ "' object has no attribute '" ++ name ++ "'")).

Definition create_record (model : Model) (data : pydict)
  (current_user_id : Z) : M row :=
  try_except
    (new_record <- construct model data ;;
     db_pend (Insert model new_record) ;;
     pks <- db_commit ;;
     new_record <- db_refresh model (last pks PNone) ;;
     new_record_id <- read_attr model new_record "id" ;;
     add_audit_log (tablename model) new_record_id
       current_user_id (PDict []) (PDict data) ;;
     ret new_record)
    (fun e =>
       db_rollback ;;
       raise (HTTPException 500 ("Error creating record: " ++ str_of_exn e))).

(** [{c.name: getattr(record, c.name) for c in record.__table__.columns}]. *)
Definition snapshot (m : Model) (record : row) : pydict :=
  map (fun c => (c_name c, getattr record (c_name c))) (columns m).

(** What [setattr(record, key, value)] leaves for the flush. *)
Inductive assignment : Type :=
| ToColumn (name : string) (value : pyvalue)
| ClearKey (foreign_key : string)
| EmptyCollection (child_table child_key : string)
| PlainAttribute.

(** [setattr(record, key, value)] on a loaded object: a column takes the
    value; a relationship to one object takes [None] only, which clears
    its foreign key; a collection takes the empty list only, which
    detaches its members; any other name becomes a plain attribute of the
    Python object, of no effect on the row (the names Python or the ORM
    reserve on an instance, such as [__class__] or [_sa_instance_state],
    are not told apart). *)
Definition setattr (m : Model) (key : string) (value : pyvalue)
  : result assignment :=
  if is_column m key then Ok (ToColumn key value)
  else match lookup key (class_attrs m) with
       | Some (Relationship (ManyToOne foreign_key)) =>
           match value with
           | PNone => Ok (ClearKey foreign_key)
           | _ => Raise (AttributeError
                           ("'" ++ type_name_of value
                            ++ "' object has no attribute '_sa_instance_state'"))
           end
       | Some (Relationship (OneToMany child_table child_key)) =>
           match value with
           | PList [] => Ok (EmptyCollection child_table child_key)
           | PList (x :: _) =>
               Raise (AttributeError
                        ("'" ++ type_name_of x
                         ++ "' object has no attribute '_sa_instance_state'"))
           | _ => Raise (TypeError
                           ("Incompatible collection type: "
                            ++ match value with
                               | PNone => "None"
                               | _ => type_name_of value
                               end ++ " is not list-like"))
           end
       | _ => Ok PlainAttribute
       end.

(** [for key, value in data.items(): setattr(record, key, value)]. *)
Fixpoint assign (m : Model) (data : pydict) : result (list assignment) :=
  match data with
  | [] => Ok []
  | (key, value) :: rest =>
      match setattr m key value with
      | Ok a =>
          match assign m rest with
          | Ok l => Ok (a :: l)
          | Raise e => Raise e
          end
      | Raise e => Raise e
      end
  end.

(** The columns the flush writes: those assigned, in order, and then the
    foreign keys of the relationships that were cleared. *)
Definition column_writes (l : list assignment) : pydict :=
  (flat_map (fun a => match a with ToColumn k v => [(k, v)] | _ => [] end) l
   ++ flat_map (fun a => match a with ClearKey k => [(k, PNone)] | _ => [] end) l)%list.

Definition emptied (l : list assignment) : list (string * string) :=
  flat_map (fun a => match a with
                     | EmptyCollection t k => [(t, k)]
                     | _ => []
                     end) l.

(** The primary key an object answers to once [changes] are flushed. *)
Definition pk_after (record_id : Z) (changes : pydict) : pyvalue :=
  match lookup "id" changes with
  | Some v => v
  | None => PInt record_id
  end.

Definition update_record (model : Model) (record_id : Z) (data : pydict)
  (current_user_id : Z) : M row :=
  try_except
    (record <- query_first model [col_eq "id" (PInt record_id)] ;;
     match record with
     | None => raise (HTTPException 404 (classname model ++ " not found"))
     | Some record =>
         let old_values := snapshot model record in
         old_values_serializable <- lift (canonicalize (PDict old_values)) ;;
         written <- lift (assign model data) ;;
         db_pend (Update model (getattr record "id") (column_writes written)) ;;
         db_pend_all (map (fun c => Detach (fst c) (snd c) (getattr record "id"))
                        (emptied written)) ;;
         _ <- db_commit ;;
         record <- db_refresh model (pk_after record_id (column_writes written)) ;;
         new_values_serializable <- lift (canonicalize (PDict data)) ;;
         add_audit_log (tablename model) (PInt record_id) current_user_id
           old_values_serializable new_values_serializable ;;
         ret record
     end)
    (fun e =>
       db_rollback ;;
       raise (HTTPException 500 ("Error updating record: " ++ str_of_exn e))).

Definition delete_record (model : Model) (record_id : Z)
  (current_user_id : Z) : M pyvalue :=
  try_except
    (record <- query_first model [col_eq "id" (PInt record_id)] ;;
     match record with
     | None => raise (HTTPException 404 (classname model ++ " not found"))
     | Some record =>
         let old_values := snapshot model record in
         old_values_serializable <- lift (canonicalize (PDict old_values)) ;;
         db_pend (Delete model (getattr record "id")) ;;
         _ <- db_commit ;;
         add_audit_log (tablename model) (PInt record_id) current_user_id
           old_values_serializable (PDict []) ;;
         ret (PDict [("message", PStr "record deleted successfully")])
     end)
    (fun e =>
       db_rollback ;;
       raise (HTTPException 500 ("Error deleting record: " ++ str_of_exn e))).

Definition fetch_all_records (model : Model) : M (list row) :=
  query_all model [].

(** [model.<relationship> == None]: on the side that holds the foreign
    key, the key IS NULL; on the other side, NOT EXISTS a row of the other
    table that points to this one. *)
Definition relation_is_none (db : store) (r : relation) : row -> bool :=
  match r with
  | ManyToOne foreign_key => col_eq foreign_key PNone
  | OneToMany child_table child_key =>
      fun x => negb (existsb (fun y => pyvalue_eqb (getattr y child_key)
                                         (getattr x "id"))
                       (table_rows db child_table))
  end.

(** [getattr(model, attr) == value] handed to [query.filter]: a column
    compares row by row (the comparison the database makes is [col_eq]
    for a value of the column's type, see [fits]); a method, an object of
    the class or a plain class value compares as a Python object and
    leaves a constant; a
    relationship compares with [None] only, anything else is refused while
    the clause is built (SQLAlchemy 2: [ArgumentError] for the one object,
    [InvalidRequestError] for the collection).  [db] is the database the
    clause will be run against. *)
Definition filter_clause (db : store) (m : Model) (attr : string)
  (value : pyvalue) : result (row -> bool) :=
  if is_column m attr then Ok (col_eq attr value)
  else match lookup attr (class_attrs m) with
       | Some Method | Some ClassObject => Ok (fun _ => false)
       | Some (ClassValue c) => Ok (fun _ => pyvalue_eqb c value)
       | Some (Relationship r) =>
           match value, r with
           | PNone, _ => Ok (relation_is_none db r)
           | _, ManyToOne _ =>
               Raise (ArgumentError
                        ("Mapped instance expected for relationship "
                         ++ "comparison to object.   Classes, queries and "
                         ++ "other SQL elements are not accepted in this "
                         ++ "context; for comparison with a subquery, use "
                         ++ classname m ++ "." ++ attr ++ ".has(" ++ "**criteria)."))
           | _, OneToMany _ _ =>
               Raise (InvalidRequestError
                        ("Can't compare a collection to an object or "
                         ++ "collection; use contains() to test for "
                         ++ "membership."))
           end
       | None =>
           Raise (AttributeError
                    ("type object '" ++ classname m ++ "' has no attribute '"
                     ++ attr ++ "'"))
       end.

(** The loop of [fetch_record] that narrows the query key by key. *)
Fixpoint build_filters (db : store) (m : Model) (filter_params : pydict)
  : result (list (row -> bool)) :=
  match filter_params with
  | [] => Ok []
  | (attr, value) :: rest =>
      if hasattr m attr then
        match filter_clause db m attr value with
        | Ok p =>
            match build_filters db m rest with
            | Ok ps => Ok (p :: ps)
            | Raise e => Raise e
            end
        | Raise e => Raise e
        end
      else Raise (HTTPException 400 ("Invalid filter parameter: " ++ attr))
  end.

(** The clauses are run by [.all()] against the database of the session,
    which the loop does not touch. *)
Definition fetch_record (model : Model) (filter_params : pydict) : M row :=
  try_except
    (fun s =>
       (criteria <- lift (build_filters (database s) model filter_params) ;;
        records <- query_all model criteria ;;
        match records with
        | [] => raise (HTTPException 404 "Record not found")
        | [r] => ret r
        | _ => raise (HTTPException 300 "Multiple records found")
        end) s)
    (fun e =>
       match e with
       | HTTPException _ _ => raise e
       | _ => raise (HTTPException 500 ("Error fetching record: " ++ str_of_exn e))
       end).

(* ================================================================== *)
(** ** security.py *)
(* ================================================================== *)

(** A bearer token as [jwt.decode] sees it: whether it parses, whether
    its signature verifies under the configured key, and its claims. *)
Record Token : Type := mk_token
  { well_formed : bool;
    signature_valid : bool;
    claim_sub : option string;
    claim_exp : option Z }.

(** [jwt.decode(token, key, algorithms)] at time [utcnow] (seconds): the
    signature is verified first, then the [exp] claim. *)
Definition jwt_decode (utcnow : Z) (t : Token) : result Token :=
  if negb (well_formed t) || negb (signature_valid t) then Raise JWTError
  else match claim_exp t with
       | Some e => if e <? utcnow then Raise ExpiredSignatureError else Ok t
       | None => Ok t
       end.

Definition credentials_exception : exn :=
  HTTPException 401 "Could not validate credentials".

Definition token_expired_exception : exn :=
  HTTPException 401 "Token has expired".

(** pydantic [UserUpdate]. *)
Record UserUpdate : Type := mk_user
  { user_email : pyvalue;
    user_id : pyvalue }.

Definition get_user (email : string) : M (option row) :=
  query_first UserDbModel [col_eq "email_id" (PStr email)].

Definition get_current_user_from_token (utcnow : Z) (token : Token)
  : M UserUpdate :=
  email <- try_except
             (payload <- lift (jwt_decode utcnow token) ;;
              match claim_sub payload with
              | None => raise credentials_exception
              | Some email => ret email
              end)
             (fun error =>
                match error with
                | ExpiredSignatureError => raise token_expired_exception
                | JWTError => raise credentials_exception
                | _ => raise error
                end) ;;
  user <- get_user email ;;
  match user with
  | None => raise credentials_exception
  | Some user => ret (mk_user (getattr user "email_id") (getattr user "id"))
  end.

(** [obj.name] on the outcome of [one_or_none()]. *)
Definition attr_of (o : option row) (name : string) : M pyvalue :=
  match o with
  | Some r => ret (getattr r name)
  | None =>
      raise (AttributeError
               ("'NoneType' object has no attribute '" ++ name ++ "'"))
  end.

Definition get_role_ids : M (pyvalue * pyvalue * pyvalue) :=
  admin_role <- query_one_or_none RolesDbModel [col_eq "name" (PStr "admin")] ;;
  match admin_role with
  | None => raise (HTTPException 500 "Admin role not found in the database")
  | Some admin_role =>
      super_admin_role <-
        query_one_or_none RolesDbModel [col_eq "name" (PStr "superAdmin")] ;;
      match super_admin_role with
      | None =>
          raise (HTTPException 500 "Super Admin role not found in the database")
      | Some super_admin_role =>
          end_user_role <-
            query_one_or_none RolesDbModel [col_eq "name" (PStr "endUser")] ;;
          match end_user_role with
          | None =>
              raise (HTTPException 500 "End User role not found in the database")
          | Some end_user_role =>
              ret (getattr admin_role "id", getattr super_admin_role "id",
                   getattr end_user_role "id")
          end
      end
  end.

Definition super_admin_required (current_user : UserUpdate) : M UserUpdate :=
  super_admin_role <-
    query_one_or_none RolesDbModel [col_eq "name" (PStr "superAdmin")] ;;
  user_in_db <-
    query_one_or_none UserDbModel [col_eq "id" (user_id current_user)] ;;
  role_id <- attr_of user_in_db "role_id" ;;
  wanted <- attr_of super_admin_role "id" ;;
  if negb (pyvalue_eqb role_id wanted)
  then raise (HTTPException 403 "Forbidden - Super Admin access required.")
  else ret current_user.

Definition admin_required (current_user : UserUpdate) : M UserUpdate :=
  admin_role <-
    query_one_or_none RolesDbModel [col_eq "name" (PStr "admin")] ;;
  user_in_db <-
    query_one_or_none UserDbModel [col_eq "id" (user_id current_user)] ;;
  role_id <- attr_of user_in_db "role_id" ;;
  wanted <- attr_of admin_role "id" ;;
  if negb (pyvalue_eqb role_id wanted)
  then raise (HTTPException 403 "Forbidden - Admin access required.")
  else ret current_user.

(** [x in {a, b}]. *)
Definition in_set (x : pyvalue) (s : list pyvalue) : bool :=
  existsb (fun k => pyvalue_eqb k x) s.

Definition super_admin_or_admin_required (current_user : UserUpdate)
  : M UserUpdate :=
  ids <- get_role_ids ;;
  let '(admin_role_id, super_admin_role_id, _) := ids in
  user_in_db <-
    query_one_or_none UserDbModel [col_eq "id" (user_id current_user)] ;;
  role_id <- attr_of user_in_db "role_id" ;;
  if in_set role_id [admin_role_id; super_admin_role_id]
  then ret current_user
  else raise (HTTPException 403 "Access denied.").

Definition is_super_admin (current_user : UserUpdate) : M bool :=
  super_admin_role <-
    query_one_or_none RolesDbModel [col_eq "name" (PStr "superAdmin")] ;;
  user_in_db <-
    query_one_or_none UserDbModel [col_eq "id" (user_id current_user)] ;;
  role_id <- attr_of user_in_db "role_id" ;;
  wanted <- attr_of super_admin_role "id" ;;
  if pyvalue_eqb role_id wanted then ret true else ret false.

(** [self.role.name] of [UserDbModel.to_dict_name_role]: the name of the
    role a user row points to right now. *)
Definition live_role_name (uid : pyvalue) : M pyvalue :=
  user_in_db <- query_one_or_none UserDbModel [col_eq "id" uid] ;;
  role_id <- attr_of user_in_db "role_id" ;;
  role <- query_one_or_none RolesDbModel [col_eq "id" role_id] ;;
  attr_of role "name".

(* ================================================================== *)
(** ** routes/roles_router.py *)
(* ================================================================== *)

(** Binding a required parameter of a call: leaving it out is a
    [TypeError] before the callee runs. *)
Definition required {A} (fname pname : string) (arg : option A) : M A :=
  match arg with
  | Some a => ret a
  | None =>
      raise (TypeError (fname ++ "() missing 1 required positional argument: '"
                        ++ pname ++ "'"))
  end.

(** The body of the [delete_role] handler. *)
Definition delete_role_handler (role_id : Z) : M pyvalue :=
  existing_role <- query_one_or_none RolesDbModel [col_eq "id" (PInt role_id)] ;;
  match existing_role with
  | None => raise (HTTPException 404 "Role not found")
  | Some _ =>
      current_user_id <- required "delete_record" "current_user_id" None ;;
      delete_record RolesDbModel role_id current_user_id ;;
      ret PNone
  end.

(** [DELETE /roles/] with [dependencies=[Depends(is_super_admin)]]: the
    dependency runs on the resolved caller and its value is dropped. *)
Definition delete_role (utcnow : Z) (token : Token) (role_id : Z) : M pyvalue :=
  current_user <- get_current_user_from_token utcnow token ;;
  _ <- is_super_admin current_user ;;
  delete_role_handler role_id.

(** A route guarded by [dependencies=[Depends(gate)]]. *)
Definition guarded {A} (gate : UserUpdate -> M UserUpdate) (handler : M A)
  (utcnow : Z) (token : Token) : M A :=
  current_user <- get_current_user_from_token utcnow token ;;
  _ <- gate current_user ;;
  handler.

(* ================================================================== *)
(** ** A small database for the worked examples *)
(* ================================================================== *)

Definition epoch : datetime := mk_datetime 2024 1 1 0 0 0 0 None.
Definition noon : datetime := mk_datetime 2024 6 1 12 30 0 0 None.

Definition role_row (i : Z) (name : string) : row :=
  [("id", PInt i); ("name", PStr name); ("description", PNone);
   ("created_at", PDatetime epoch); ("updated_at", PDatetime epoch)].

Definition user_row (i : Z) (email : string) (role : Z) : row :=
  [("id", PInt i); ("email_id", PStr email); ("password", PStr "$2b$12$h");
   ("verification_code", PNone); ("confirmed", PBool false);
   ("role_id", PInt role);
   ("created_at", PDatetime epoch); ("updated_at", PDatetime epoch)].

Definition amenity_row (i : Z) (name description : string) (by_ : Z) : row :=
  [("id", PInt i); ("name", PStr name); ("description", PStr description);
   ("created_by_user", PInt by_);
   ("created_at", PDatetime epoch); ("updated_at", PDatetime epoch)].

Definition sample_users : list row :=
  [user_row 7 "root@x" 1; user_row 8 "adm@x" 2; user_row 9 "eve@x" 3].

Definition sample_store : store :=
  mk_store
    [("roles", [role_row 1 "superAdmin"; role_row 2 "admin"; role_row 3 "endUser"]);
     ("users", sample_users);
     ("amenities", [amenity_row 1 "Pool" "Outdoor" 8])]
    [].

(** The same database with only the "superAdmin" role configured. *)
Definition super_admin_only_store : store :=
  mk_store
    [("roles", [role_row 1 "superAdmin"]);
     ("users", [user_row 7 "root@x" 1]);
     ("amenities", [])]
    [].

(** An engine that accepts every commit. *)
Definition accept_all : store -> bool := fun _ => true.

(** An engine that enforces the declared foreign key
    [audit_logs.changed_by -> users.id]. *)
Definition changed_by_fk : store -> bool :=
  fun st =>
    forallb (fun a =>
               existsb (fun u => pyvalue_eqb (getattr u "id") (PInt (changed_by a)))
                 (table_rows st "users"))
      (audit_logs st).

(** No value twice. *)
Fixpoint distinct (vs : list pyvalue) : bool :=
  match vs with
  | [] => true
  | v :: vs' => negb (existsb (pyvalue_eqb v) vs') && distinct vs'
  end.

Definition is_null (v : pyvalue) : bool :=
  match v with PNone => true | _ => false end.

(** What the declaration of one column asks of the rows of its table:
    no NULL unless nullable, no value twice if unique or primary key, and
    every foreign key the [id] of a row of the table it points to. *)
Definition column_holds (st : store) (m : Model) (c : Column) : bool :=
  let vs := map (fun r => getattr r (c_name c)) (table_rows st (tablename m)) in
  let given := filter (fun v => negb (is_null v)) vs in
  ((c_nullable c && negb (c_primary_key c)) || forallb (fun v => negb (is_null v)) vs)
  && (negb (c_unique c || c_primary_key c) || distinct given)
  && match c_foreign_key c with
     | Some t =>
         forallb (fun v => existsb (fun r => pyvalue_eqb (getattr r "id") v)
                             (table_rows st t)) given
     | None => true
     end.

(** An engine that enforces what database_models.py declares: primary
    keys, [nullable=False], [unique=True] and the foreign keys of the
    tables above, and of [audit_logs] the foreign key of [changed_by] and
    the [record_id] that may not be null. *)
Definition declared_constraints : store -> bool :=
  fun st =>
    forallb (fun m => forallb (column_holds st m) (columns m)) declared_models
    && forallb (fun a => negb (is_null (record_id a))) (audit_logs st)
    && changed_by_fk st.

Definition sample_session : Session := mk_session accept_all noon sample_store [].
Definition declared_session : Session :=
  mk_session declared_constraints noon sample_store [].
Definition strict_session : Session := mk_session changed_by_fk noon sample_store [].
Definition super_admin_only_session : Session :=
  mk_session accept_all noon super_admin_only_store [].

Definition root_user : UserUpdate := mk_user (PStr "root@x") (PInt 7).
Definition admin_user : UserUpdate := mk_user (PStr "adm@x") (PInt 8).
Definition end_user : UserUpdate := mk_user (PStr "eve@x") (PInt 9).

(** A well-formed, correctly signed token for [email] expiring at [exp]. *)
Definition token_for (email : string) (exp : Z) : Token :=
  mk_token true true (Some email) (Some exp).

(* ================================================================== *)
(** ** security.py: issuing tokens, passwords *)
(* ================================================================== *)

Definition access_token_expiry_minutes : Z := 30.

(** [create_access_token]: the claims are [sub], the e-mail, and [exp],
    thirty minutes after [utcnow] (seconds); [jwt.encode] signs them with
    the configured key.  A subject that is not a [str] does not survive
    [jwt.decode] as a subject. *)
Definition create_access_token (utcnow : Z) (email : pyvalue) : Token :=
  mk_token true true
    (match email with PStr e => Some e | _ => None end)
    (Some (utcnow + access_token_expiry_minutes * 60)).

(** [pwd_context], the passlib [CryptContext]: hashing draws a salt,
    verifying compares a plain text with a stored hash and raises (a
    [ValueError] or a [TypeError]) on a stored value it cannot read as a
    hash of its schemes. *)
Record CryptContext : Type := mk_pwd_context
  { pwd_hash : Z -> string -> string;
    pwd_verify : string -> pyvalue -> result bool }.

Definition get_password_hash (pwd_context : CryptContext) (salt : Z)
  (password : string) : string :=
  pwd_hash pwd_context salt password.

Definition verify_password (pwd_context : CryptContext)
  (plain_text_password : string) (hashed_password : pyvalue) : result bool :=
  pwd_verify pwd_context plain_text_password hashed_password.

Definition authenticate_user (pwd_context : CryptContext)
  (email password : string) : M row :=
  user <- get_user email ;;
  match user with
  | None => raise credentials_exception
  | Some user =>
      verified <- lift (verify_password pwd_context password
                          (getattr user "password")) ;;
      if negb verified then raise credentials_exception else ret user
  end.

(* ================================================================== *)
(** ** routes/users.py *)
(* ================================================================== *)


Definition register_user (pwd_context : CryptContext) (salt : Z)
  (email password : string) (role_id : pyvalue) : M pyvalue :=
  existing <- get_user email ;;
  match existing with
  | Some _ => raise (HTTPException 400 "User with this email already exists")
  | None =>
      new_user <- construct UserDbModel
                    [("email_id", PStr email);
                     ("password", PStr (get_password_hash pwd_context salt password));
                     ("role_id", role_id)] ;;
      db_pend (Insert UserDbModel new_user) ;;
      _ <- db_commit ;;
      ret (PDict [("detail", PStr "User created")])
  end.


(** [POST /user/token]; the answer carries the token under
    ["access_token"]. *)
Definition login (pwd_context : CryptContext) (utcnow : Z)
  (email password : string) : M Token :=
  user <- authenticate_user pwd_context email password ;;
  ret (create_access_token utcnow (getattr user "email_id")).

(* ================================================================== *)
(** ** routes/roles_router.py and routes/amenities.py: the handlers *)
(* ================================================================== *)

(** In the handlers below [current_user_id] is [current_user.id]. *)

Definition add_a_new_role (role_name : string) (current_user_id : Z)
  : M pyvalue :=
  existing_role <-
    query_one_or_none RolesDbModel [col_eq "name" (PStr role_name)] ;;
  match existing_role with
  | Some _ => raise (HTTPException 409 "Role already exists")
  | None =>
      _ <- create_record RolesDbModel [("name", PStr role_name)] current_user_id ;;
      ret (PDict [("message",
                   PStr ("Role " ++ role_name ++ " added successfully"))])
  end.

Definition get_all_the_roles : M (list pyvalue) :=
  roles <- fetch_all_records RolesDbModel ;;
  ret (map (fun role => PDict [("id", getattr role "id");
                               ("name", getattr role "name")]) roles).

(** [saved_role.id], passed on as [record_id], is the [role.id] the row
    was selected by. *)
Definition update_role (role_id : Z) (role_name : string)
  (current_user_id : Z) : M pyvalue :=
  saved_role <- query_one_or_none RolesDbModel [col_eq "id" (PInt role_id)] ;;
  match saved_role with
  | None => raise (HTTPException 404 "Role not found")
  | Some saved_role =>
      if pyvalue_eqb (getattr saved_role "name") (PStr role_name)
      then raise (HTTPException 409 "Role already exists")
      else
        updated_role <- update_record RolesDbModel role_id
                          [("name", PStr role_name)] current_user_id ;;
        ret (PDict [("message", PStr "Role updated successfully");
                    ("id", getattr updated_role "id")])
  end.

Definition check_if_amenity_already_exists (name : string) : M bool :=
  existing_amenity <-
    query_one_or_none AmenitiesDbModel [col_eq "name" (PStr name)] ;;
  match existing_amenity with
  | Some _ => raise (HTTPException 400 "This amenity already exists")
  | None => ret false
  end.

Definition create_amenity (name description : string) (current_user_id : Z)
  : M pyvalue :=
  exists_ <- check_if_amenity_already_exists name ;;
  if negb exists_ then
    new_amenity <- create_record AmenitiesDbModel
                     [("name", PStr name); ("description", PStr description);
                      ("created_by_user", PInt current_user_id)]
                     current_user_id ;;
    ret (PDict [("message", PStr "Amenity added successfully");
                ("id", getattr new_amenity "id")])
  else ret PNone.

Definition update_amenity (amenity_id : Z) (name description : string)
  (current_user_id : Z) : M pyvalue :=
  existing_amenity <-
    query_one_or_none AmenitiesDbModel [col_eq "id" (PInt amenity_id)] ;;
  match existing_amenity with
  | None => raise (HTTPException 404 "Amenity not found")
  | Some _ =>
      updated_amenity <- update_record AmenitiesDbModel amenity_id
                           [("name", PStr name); ("description", PStr description)]
                           current_user_id ;;
      ret (PDict [("message", PStr "Amenity updated successfully");
                  ("id", getattr updated_amenity "id")])
  end.

Definition delete_amenity (amenity_id : Z) (current_user_id : Z) : M pyvalue :=
  existing_amenity <-
    query_one_or_none AmenitiesDbModel [col_eq "id" (PInt amenity_id)] ;;
  match existing_amenity with
  | None => raise (HTTPException 404 "Amenity not found")
  | Some _ =>
      _ <- delete_record AmenitiesDbModel amenity_id current_user_id ;;
      ret (PDict [("message", PStr "Amenity deleted successfully")])
  end.

(* ================================================================== *)
(** * Properties *)
(* ================================================================== *)

(** ** ISO-8601 rendering and reading *)

Section IsoFormat.

Lemma string_app_assoc (a b c : string) : ((a ++ b) ++ c = a ++ (b ++ c))%string.
Proof.
  induction a as [| ch a IH]; simpl; [reflexivity | now rewrite IH].
Qed.

Lemma digit_roundtrip (d : Z) :
  0 <= d <= 9 -> digit_of_ascii (digit_char d) = Some d.
Proof.
  intros Hd.
  assert (Hcases : d = 0 \/ d = 1 \/ d = 2 \/ d = 3 \/ d = 4 \/
                   d = 5 \/ d = 6 \/ d = 7 \/ d = 8 \/ d = 9) by lia.
  repeat (destruct Hcases as [-> | Hcases]; [reflexivity |]).
  now subst.
Qed.

(** Reading [w] digits consumes exactly what [pad w] wrote. *)
Lemma take_digits_pad (w : nat) :
  forall (v : nat) (acc n : Z) (rest : string),
    0 <= n < 10 ^ Z.of_nat w ->
    take_digits (w + v) acc (pad w n ++ rest)
    = take_digits v (acc * 10 ^ Z.of_nat w + n) rest.
Proof.
  induction w as [| w IH]; intros v acc n rest Hn.
  - simpl in *. f_equal. lia.
  - rewrite Nat2Z.inj_succ, Z.pow_succ_r in Hn by lia.
    cbn [pad]. rewrite string_app_assoc.
    replace (S w + v)%nat with (w + S v)%nat by lia.
    rewrite IH by (split; [apply Z.div_pos; lia
                          | apply Z.div_lt_upper_bound; lia]).
    cbn [append take_digits].
    rewrite digit_roundtrip by (pose proof (Z.mod_pos_bound n 10 ltac:(lia)); lia).
    f_equal.
    rewrite Nat2Z.inj_succ, Z.pow_succ_r by lia.
    pose proof (Z.div_mod n 10 ltac:(lia)). lia.
Qed.

Lemma take_digits_exact (w : nat) (n : Z) (rest : string) :
  0 <= n < 10 ^ Z.of_nat w ->
  take_digits w 0 (pad w n ++ rest) = Some (n, rest).
Proof.
  intros Hn.
  replace w with (w + 0)%nat at 1 by lia.
  rewrite take_digits_pad by exact Hn.
  reflexivity.
Qed.

Lemma string_app_nil_r (a : string) : (a ++ "" = a)%string.
Proof.
  induction a as [| ch a IH]; simpl; [reflexivity | now rewrite IH].
Qed.

Lemma take_digits_end (w : nat) (n : Z) :
  0 <= n < 10 ^ Z.of_nat w ->
  take_digits w 0 (pad w n) = Some (n, "").
Proof.
  intros Hn. rewrite <- (string_app_nil_r (pad w n)).
  now apply take_digits_exact.
Qed.

Lemma take_fraction_written (us : Z) (rest : string) :
  0 <= us <= 999999 ->
  (forall s, rest <> String "."%char s) ->
  take_fraction ((if us =? 0 then "" else "." ++ pad 6 us) ++ rest)
  = Some (us, rest).
Proof.
  intros Hus Hrest.
  destruct (Z.eqb_spec us 0) as [-> | Hnz].
  - cbn [append]. unfold take_fraction.
    destruct rest as [| c rest']; [reflexivity |].
    destruct (Ascii.eqb_spec c "."%char) as [-> | Hc].
    + exfalso. now apply (Hrest rest').
    + destruct c as [[] [] [] [] [] [] [] []]; try reflexivity.
      now exfalso.
  - rewrite string_app_assoc. cbn [append take_fraction].
    apply (take_digits_exact 6). simpl. lia.
Qed.

Lemma parse_offset_written (off : option Z) :
  match off with
  | None => True
  | Some o => - us_per_day < o < us_per_day
  end ->
  parse_offset (format_offset off) = Some off.
Proof.
  destruct off as [o |]; [| reflexivity].
  unfold us_per_day, us_per_hour, us_per_minute, us_per_second.
  intros Ho. unfold format_offset.
  set (a := Z.abs o).
  assert (Ha : 0 <= a < 86400000000) by (unfold a; lia).
  unfold us_per_hour, us_per_minute, us_per_second.
  set (hh := a / (60 * (60 * 1000000))).
  set (r := a mod (60 * (60 * 1000000))).
  set (mm := r / (60 * 1000000)).
  set (ss := r mod (60 * 1000000)).
  assert (Hhh : 0 <= hh < 10 ^ Z.of_nat 2) by
    (unfold hh; simpl; split;
     [apply Z.div_pos; lia | apply Z.div_lt_upper_bound; lia]).
  assert (Hr : 0 <= r < 3600000000) by (unfold r; apply Z.mod_pos_bound; lia).
  assert (Hmm : 0 <= mm < 10 ^ Z.of_nat 2) by
    (unfold mm; simpl; split;
     [apply Z.div_pos; lia | apply Z.div_lt_upper_bound; lia]).
  assert (Hss : 0 <= ss < 60000000) by (unfold ss; apply Z.mod_pos_bound; lia).
  assert (Hsec : 0 <= ss / 1000000 < 10 ^ Z.of_nat 2) by
    (simpl; split; [apply Z.div_pos; lia | apply Z.div_lt_upper_bound; lia]).
  assert (Hus : 0 <= ss mod 1000000 <= 999999) by
    (pose proof (Z.mod_pos_bound ss 1000000 ltac:(lia)); lia).
  assert (Ea : a = 3600000000 * hh + r) by
    (unfold hh, r; apply (Z.div_mod a (60 * (60 * 1000000))); lia).
  assert (Er : r = 60000000 * mm + ss) by
    (unfold mm, ss; apply (Z.div_mod r (60 * 1000000)); lia).
  assert (Es : ss = 1000000 * (ss / 1000000) + ss mod 1000000) by
    (apply Z.div_mod; lia).
  assert (Esign : (if o <? 0 then -1 else 1) * a = o) by
    (unfold a; destruct (Z.ltb_spec o 0); lia).
  assert (Hparse :
    forall sign sc,
      (if Ascii.eqb sc "+" then Some 1
       else if Ascii.eqb sc "-" then Some (-1) else None) = Some sign ->
      sign * a = o ->
      parse_offset
        (String sc
           (pad 2 hh ++ ":" ++ pad 2 mm ++
            (if ss =? 0 then ""
             else ":" ++ pad 2 (ss / 1000000) ++
                  (if ss mod 1000000 =? 0 then ""
                   else "." ++ pad 6 (ss mod 1000000)))))
      = Some (Some o)).
  { intros sign sc Hsc Hsa. unfold parse_offset. rewrite Hsc.
    cbn [bind_opt].
    rewrite (take_digits_exact 2 hh) by exact Hhh.
    cbn [bind_opt append expect Ascii.eqb Bool.eqb].
    cbn [bind_opt].
    rewrite (take_digits_exact 2 mm) by exact Hmm. cbn [bind_opt].
    unfold us_per_hour, us_per_minute, us_per_second.
    destruct (Z.eqb_spec ss 0) as [Hz | Hnz].
    - cbn. do 2 f_equal. lia.
    - cbn [bind_opt].
      destruct (Z.eqb_spec (ss mod 1000000) 0) as [Hz' | Hnz'].
      + rewrite (take_digits_exact 2 (ss / 1000000)) by exact Hsec.
        cbn. do 2 f_equal. lia.
      + rewrite (take_digits_exact 2 (ss / 1000000)) by exact Hsec.
        cbn [bind_opt take_fraction].
        rewrite (take_digits_end 6 (ss mod 1000000)) by (simpl; lia).
        cbn [bind_opt]. do 2 f_equal. lia. }
  destruct (Z.ltb_spec o 0) as [Hneg | Hpos]; cbn [append];
    apply Hparse with (sign := (if o <? 0 then -1 else 1));
    try (destruct (Z.ltb_spec o 0); (reflexivity || lia)); exact Esign.
Qed.

Lemma datetime_valid_fields (d : datetime) :
  datetime_valid d = true ->
  0 <= year d < 10 ^ Z.of_nat 4 /\ 0 <= month d < 10 ^ Z.of_nat 2 /\
  0 <= day d < 10 ^ Z.of_nat 2 /\ 0 <= hour d < 10 ^ Z.of_nat 2 /\
  0 <= minute d < 10 ^ Z.of_nat 2 /\ 0 <= second d < 10 ^ Z.of_nat 2 /\
  0 <= microsecond d <= 999999 /\
  match utcoffset d with
  | None => True
  | Some o => - us_per_day < o < us_per_day
  end.
Proof.
  unfold datetime_valid, in_range. intros H.
  repeat (apply andb_prop in H; destruct H as [H ?]).
  assert (Hdim : days_in_month (year d) (month d) <= 31).
  { unfold days_in_month.
    repeat match goal with |- context [if ?b then _ else _] => destruct b end;
      lia. }
  change (10 ^ Z.of_nat 4) with 10000. change (10 ^ Z.of_nat 2) with 100.
  repeat match goal with
         | H : (_ <=? _) = true |- _ => apply Z.leb_le in H
         end.
  repeat split; try lia.
  destruct (utcoffset d) as [o |]; [| exact I].
  match goal with
  | H : (_ && _) = true |- _ =>
      apply andb_prop in H; destruct H as [Hlo Hhi];
      apply Z.ltb_lt in Hlo; apply Z.ltb_lt in Hhi; lia
  end.
Qed.

(** Reading back what [isoformat] wrote gives the same [datetime]. *)
Lemma fromisoformat_isoformat (d : datetime) :
  datetime_valid d = true -> fromisoformat (isoformat d) = Some d.
Proof.
  intros Hv.
  destruct (datetime_valid_fields d Hv)
    as (Hy & Hmo & Hd & Hh & Hmi & Hs & Hus & Hoff).
  unfold fromisoformat, isoformat, format_time.
  rewrite !string_app_assoc.
  rewrite (take_digits_exact 4 (year d)) by exact Hy.
  cbn [bind_opt append expect Ascii.eqb Bool.eqb]. cbn [bind_opt].
  rewrite (take_digits_exact 2 (month d)) by exact Hmo.
  cbn [bind_opt append expect Ascii.eqb Bool.eqb]. cbn [bind_opt].
  rewrite (take_digits_exact 2 (day d)) by exact Hd.
  cbn [bind_opt append expect Ascii.eqb Bool.eqb]. cbn [bind_opt].
  rewrite (take_digits_exact 2 (hour d)) by exact Hh.
  cbn [bind_opt append expect Ascii.eqb Bool.eqb]. cbn [bind_opt].
  rewrite (take_digits_exact 2 (minute d)) by exact Hmi.
  cbn [bind_opt append expect Ascii.eqb Bool.eqb]. cbn [bind_opt].
  rewrite (take_digits_exact 2 (second d)) by exact Hs.
  cbn [bind_opt].
  rewrite (take_fraction_written (microsecond d)); [| exact Hus |].
  2:{ intros s. destruct (utcoffset d) as [o |]; [| discriminate].
      unfold format_offset. destruct (o <? 0); discriminate. }
  cbn [bind_opt].
  rewrite parse_offset_written by exact Hoff.
  cbn [bind_opt].
  replace (mk_datetime (year d) (month d) (day d) (hour d) (minute d)
             (second d) (microsecond d) (utcoffset d)) with d
    by (destruct d; reflexivity).
  now rewrite Hv.
Qed.

End IsoFormat.

(** ** [json.dumps] and [json.loads] *)

Section Json.

Lemma pyvalue_nested_ind (P : pyvalue -> Prop) :
  P PNone ->
  (forall b, P (PBool b)) ->
  (forall n, P (PInt n)) ->
  (forall s, P (PStr s)) ->
  (forall l, Forall P l -> P (PList l)) ->
  (forall d, Forall (fun kv => P (snd kv)) d -> P (PDict d)) ->
  (forall d, P (PDatetime d)) ->
  (forall n, P (PObject n)) ->
  forall v, P v.
Proof.
  intros HNone HBool HInt HStr HList HDict HDt HObj.
  fix IH 1. intros [| b | n | s | l | d | d | n].
  - exact HNone.
  - apply HBool.
  - apply HInt.
  - apply HStr.
  - apply HList. induction l as [| x xs IHl]; constructor; [apply IH | exact IHl].
  - apply HDict. induction d as [| [k x] xs IHd]; constructor;
      [apply IH | exact IHd].
  - apply HDt.
  - apply HObj.
Qed.

Lemma json_nested_ind (P : json -> Prop) :
  P JNull ->
  (forall b, P (JBool b)) ->
  (forall n, P (JNumber n)) ->
  (forall s, P (JString s)) ->
  (forall l, Forall P l -> P (JArray l)) ->
  (forall m, Forall (fun kv => P (snd kv)) m -> P (JObject m)) ->
  forall j, P j.
Proof.
  intros HNull HBool HNum HStr HArr HObj.
  fix IH 1. intros [| b | n | s | l | m].
  - exact HNull.
  - apply HBool.
  - apply HNum.
  - apply HStr.
  - apply HArr. induction l as [| x xs IHl]; constructor; [apply IH | exact IHl].
  - apply HObj. induction m as [| [k x] xs IHm]; constructor;
      [apply IH | exact IHm].
Qed.

(** Whatever the fallback, a value [json] knows is written as itself. *)
Lemma encode_json_representable (fb : pyvalue -> result json) :
  forall v, json_representable v = true ->
            exists j, encode fb v = Ok j /\ json_loads j = v.
Proof.
  induction v as [| b | n | s | l IHl | d IHd | d | n] using pyvalue_nested_ind;
    intros Hr; try discriminate Hr.
  - now exists JNull.
  - now exists (JBool b).
  - now exists (JNumber n).
  - now exists (JString s).
  - assert (Hgo : exists js,
               (fix go (l : list pyvalue) : result (list json) :=
                  match l with
                  | [] => Ok []
                  | x :: xs =>
                      match encode fb x with
                      | Ok j => match go xs with
                                | Ok js => Ok (j :: js)
                                | Raise e => Raise e
                                end
                      | Raise e => Raise e
                      end
                  end) l = Ok js /\ map json_loads js = l).
    { cbn [json_representable] in Hr.
      induction IHl as [| x xs Hx _ IHxs].
      - now exists [].
      - cbn [forallb] in Hr. apply andb_prop in Hr. destruct Hr as [Hrx Hrxs].
        destruct (Hx Hrx) as (j & Ej & Lj).
        destruct (IHxs Hrxs) as (js & Ejs & Ljs).
        exists (j :: js). rewrite Ej, Ejs. cbn [map]. now rewrite Lj, Ljs. }
    destruct Hgo as (js & Ejs & Ljs).
    exists (JArray js). cbn [encode]. rewrite Ejs. cbn [json_loads].
    now rewrite Ljs.
  - assert (Hgo : exists m,
               (fix go (d : list (string * pyvalue))
                  : result (list (string * json)) :=
                  match d with
                  | [] => Ok []
                  | (k, x) :: xs =>
                      match encode fb x with
                      | Ok j => match go xs with
                                | Ok js => Ok ((k, j) :: js)
                                | Raise e => Raise e
                                end
                      | Raise e => Raise e
                      end
                  end) d = Ok m
               /\ map (fun kv => (fst kv, json_loads (snd kv))) m = d).
    { cbn [json_representable] in Hr.
      induction IHd as [| [k x] xs Hx _ IHxs].
      - now exists [].
      - apply andb_prop in Hr. destruct Hr as [Hrx Hrxs].
        destruct (Hx Hrx) as (j & Ej & Lj).
        destruct (IHxs Hrxs) as (m & Em & Lm).
        exists ((k, j) :: m). cbn [snd] in Ej. rewrite Ej, Em.
        cbn [map fst snd]. now rewrite Lj, Lm. }
    destruct Hgo as (m & Em & Lm).
    exists (JObject m). cbn [encode]. rewrite Em. cbn [json_loads].
    now rewrite Lm.
Qed.

(** A parsed document is written back as the document it came from. *)
Lemma encode_json_loads (fb : pyvalue -> result json) :
  forall j, encode fb (json_loads j) = Ok j.
Proof.
  induction j as [| b | n | s | l IHl | m IHm] using json_nested_ind;
    try reflexivity.
  - cbn [json_loads encode].
    assert (Hgo :
      (fix go (l : list pyvalue) : result (list json) :=
         match l with
         | [] => Ok []
         | x :: xs =>
             match encode fb x with
             | Ok j => match go xs with
                       | Ok js => Ok (j :: js)
                       | Raise e => Raise e
                       end
             | Raise e => Raise e
             end
         end) (map json_loads l) = Ok l).
    { induction IHl as [| x xs Hx _ IHxs]; [reflexivity |].
      cbn [map]. now rewrite Hx, IHxs. }
    now rewrite Hgo.
  - cbn [json_loads encode].
    assert (Hgo :
      (fix go (d : list (string * pyvalue)) : result (list (string * json)) :=
         match d with
         | [] => Ok []
         | (k, x) :: xs =>
             match encode fb x with
             | Ok j => match go xs with
                       | Ok js => Ok ((k, j) :: js)
                       | Raise e => Raise e
                       end
             | Raise e => Raise e
             end
         end) (map (fun kv => (fst kv, json_loads (snd kv))) m) = Ok m).
    { induction IHm as [| [k x] xs Hx _ IHxs]; [reflexivity |].
      cbn [map fst snd] in *. now rewrite Hx, IHxs. }
    now rewrite Hgo.
Qed.

Lemma json_dumps_loads (default : option (pyvalue -> result pyvalue)) (j : json) :
  json_dumps default (json_loads j) = Ok j.
Proof. apply encode_json_loads. Qed.

(** [json.dumps] of a [dict] writes an object with the same keys in the
    same order. *)
Lemma encode_dict_keys (fb : pyvalue -> result json) (d : pydict) (j : json) :
  encode fb (PDict d) = Ok j ->
  exists m, j = JObject m /\ map fst m = map fst d.
Proof.
  cbn [encode].
  set (go := fix go (d : list (string * pyvalue))
               : result (list (string * json)) :=
               match d with
               | [] => Ok []
               | (k, x) :: xs =>
                   match encode fb x with
                   | Ok j => match go xs with
                             | Ok js => Ok ((k, j) :: js)
                             | Raise e => Raise e
                             end
                   | Raise e => Raise e
                   end
               end).
  assert (Hgo : forall d m, go d = Ok m -> map fst m = map fst d).
  { clear. induction d as [| [k x] xs IH]; intros m Hm.
    - cbn in Hm. now inversion Hm.
    - cbn in Hm. destruct (encode fb x) as [jx | e]; [| discriminate].
      fold go in Hm.
      destruct (go xs) as [js | e] eqn:Ejs; [| discriminate].
      inversion Hm; subst. cbn. f_equal. now apply IH. }
  destruct (go d) as [m | e] eqn:Em; [| discriminate].
  intros H. inversion H; subst. exists m. split; [reflexivity |].
  now apply Hgo.
Qed.

Lemma canonicalize_identity (v : pyvalue) :
  json_representable v = true -> canonicalize v = Ok v.
Proof.
  intros Hr. unfold canonicalize, json_dumps.
  destruct (encode_json_representable
              (fun o =>
                 match json_serial o with
                 | Ok o' => encode (fun o'' => Raise (not_json_serializable o'')) o'
                 | Raise e => Raise e
                 end) v Hr) as (j & Ej & Lj).
  rewrite Ej. now rewrite Lj.
Qed.

End Json.



(** ** The session: queries *)

Section Queries.

Lemma filter_single {A} (p : A -> bool) (l : list A) :
  filter (fun r => forallb (fun q => q r) [p]) l = filter p l.
Proof.
  apply filter_ext. intros a. cbn. now rewrite andb_true_r.
Qed.

Lemma query_all_single (m : Model) (p : row -> bool) (s : Session) :
  query_all m [p] s = (Ok (filter p (table_rows (database s) (tablename m))), s).
Proof. unfold query_all. now rewrite filter_single. Qed.

Lemma query_first_single (m : Model) (p : row -> bool) (s : Session) :
  query_first m [p] s
  = (Ok (hd_error (filter p (table_rows (database s) (tablename m)))), s).
Proof. unfold query_first, bind. now rewrite query_all_single. Qed.

Lemma query_one_or_none_single (m : Model) (p : row -> bool) (s : Session) :
  query_one_or_none m [p] s
  = match filter p (table_rows (database s) (tablename m)) with
    | [] => (Ok None, s)
    | [r] => (Ok (Some r), s)
    | _ => (Raise MultipleResultsFound, s)
    end.
Proof.
  unfold query_one_or_none, bind. rewrite query_all_single.
  destruct (filter p _) as [| r [| r' l]]; reflexivity.
Qed.

End Queries.

(** ** Missing records *)

(** C3.  When no row of the table carries the id, [update_record] and
    [delete_record] both raise the 404 inside their own [try] block, catch
    it in [except Exception], and leave with a 500 whose message quotes
    the 404; the database is untouched. *)
Theorem update_delete_missing_record :
  forall (s : Session) (model : Model) (record_id : Z) (data : pydict)
         (current_user_id : Z),
    filter (col_eq "id" (PInt record_id))
      (table_rows (database s) (tablename model)) = [] ->
    (fst (update_record model record_id data current_user_id s)
     = Raise (HTTPException 500
                ("Error updating record: 404: " ++ classname model ++ " not found"))
     /\ database (snd (update_record model record_id data current_user_id s))
        = database s)
    /\
    (fst (delete_record model record_id current_user_id s)
     = Raise (HTTPException 500
                ("Error deleting record: 404: " ++ classname model ++ " not found"))
     /\ database (snd (delete_record model record_id current_user_id s))
        = database s).
Proof.
  intros s model record_id data u Hnone.
  unfold update_record, delete_record, try_except, bind.
  rewrite query_first_single, Hnone. cbn. auto.
Qed.

Lemma update_delete_missing_record_witness :
  fst (update_record AmenitiesDbModel 5 [("description", PStr "Heated")] 8
         (mk_session (fun _ => true) (mk_datetime 2024 6 1 12 30 0 0 None)
            (mk_store [] []) []))
  = Raise (HTTPException 500
             "Error updating record: 404: AmenitiesDbModel not found")
  /\
  fst (delete_record AmenitiesDbModel 5 8
         (mk_session (fun _ => true) (mk_datetime 2024 6 1 12 30 0 0 None)
            (mk_store [] []) []))
  = Raise (HTTPException 500
             "Error deleting record: 404: AmenitiesDbModel not found").
Proof.
  pose proof (update_delete_missing_record
                (mk_session (fun _ => true) (mk_datetime 2024 6 1 12 30 0 0 None)
                   (mk_store [] []) [])
                AmenitiesDbModel 5 [("description", PStr "Heated")] 8
                eq_refl) as [[Hu _] [Hd _]].
  split; [exact Hu | exact Hd].
Defined.

(** ** Credentials *)

(** C7.  A well-formed credential with a valid signature whose [exp]
    lies before the current time is refused with the "Token has expired"
    error, which is not the plain "Could not validate credentials" one. *)
Theorem expired_token_rejected :
  forall (s : Session) (utcnow : Z) (token : Token) (e : Z),
    well_formed token = true ->
    signature_valid token = true ->
    claim_exp token = Some e ->
    e < utcnow ->
    get_current_user_from_token utcnow token s
    = (Raise token_expired_exception, s)
    /\ token_expired_exception <> credentials_exception.
Proof.
  intros s utcnow token e Hwf Hsig Hexp Hlt.
  split; [| discriminate].
  unfold get_current_user_from_token, try_except, bind, lift, jwt_decode.
  rewrite Hwf, Hsig, Hexp. cbn [negb orb].
  apply Z.ltb_lt in Hlt. rewrite Hlt. reflexivity.
Qed.

Lemma expired_token_rejected_witness :
  get_current_user_from_token 100 (mk_token true true (Some "eve@x") (Some 50))
    (mk_session (fun _ => true) (mk_datetime 2024 6 1 12 30 0 0 None)
       (mk_store [] []) [])
  = (Raise token_expired_exception,
     mk_session (fun _ => true) (mk_datetime 2024 6 1 12 30 0 0 None)
       (mk_store [] []) [])
  /\ token_expired_exception <> credentials_exception.
Proof.
  apply (expired_token_rejected _ 100 (mk_token true true (Some "eve@x") (Some 50)) 50);
    reflexivity.
Defined.

(** ** The gates *)

Section Gates.

Lemma singleton_filter_in {A} (p : A -> bool) (l : list A) (x y : A) :
  filter p l = [x] -> In y l -> p y = true -> y = x.
Proof.
  intros Hf Hin Hp.
  assert (Hy : In y (filter p l)) by (apply filter_In; auto).
  rewrite Hf in Hy. destruct Hy as [-> | []]. reflexivity.
Qed.

Lemma singleton_filter_elim {A} (p : A -> bool) (l : list A) (x : A) :
  filter p l = [x] -> In x l /\ p x = true.
Proof.
  intros Hf. apply filter_In. rewrite Hf. now left.
Qed.

(** What a successful [get_role_ids] says about the role table. *)
Lemma get_role_ids_ok (s : Session) (ids : pyvalue * pyvalue * pyvalue) :
  fst (get_role_ids s) = Ok ids ->
  exists admin_role super_admin_role end_user_role,
    filter (col_eq "name" (PStr "admin")) (table_rows (database s) "roles")
    = [admin_role] /\
    filter (col_eq "name" (PStr "superAdmin")) (table_rows (database s) "roles")
    = [super_admin_role] /\
    filter (col_eq "name" (PStr "endUser")) (table_rows (database s) "roles")
    = [end_user_role] /\
    get_role_ids s = (Ok ids, s) /\
    ids = (getattr admin_role "id", getattr super_admin_role "id",
           getattr end_user_role "id").
Proof.
  unfold get_role_ids, bind. rewrite !query_one_or_none_single.
  change (tablename RolesDbModel) with "roles".
  destruct (filter (col_eq "name" (PStr "admin")) _) as [| ra [| ? ?]];
    try discriminate.
  rewrite !query_one_or_none_single. change (tablename RolesDbModel) with "roles".
  destruct (filter (col_eq "name" (PStr "superAdmin")) _) as [| rs [| ? ?]];
    try discriminate.
  rewrite !query_one_or_none_single. change (tablename RolesDbModel) with "roles".
  destruct (filter (col_eq "name" (PStr "endUser")) _) as [| re [| ? ?]];
    try discriminate.
  cbn. intros H. inversion H; subst. exists ra, rs, re. auto.
Qed.

(** What a resolved live role says about the user and role tables. *)
Lemma live_role_name_ok (s : Session) (uid v : pyvalue) :
  fst (live_role_name uid s) = Ok v ->
  exists user role,
    filter (col_eq "id" uid) (table_rows (database s) "users") = [user] /\
    filter (col_eq "id" (getattr user "role_id"))
      (table_rows (database s) "roles") = [role] /\
    getattr role "name" = v.
Proof.
  unfold live_role_name, bind. rewrite query_one_or_none_single.
  change (tablename UserDbModel) with "users".
  destruct (filter (col_eq "id" uid) _) as [| u [| ? ?]];
    cbn [attr_of ret raise fst]; try discriminate.
  rewrite query_one_or_none_single.
  change (tablename RolesDbModel) with "roles".
  destruct (filter (col_eq "id" (getattr u "role_id")) _) as [| r [| ? ?]] eqn:Er;
    cbn [attr_of ret raise fst]; try discriminate.
  intros H. inversion H; subst. exists u, r. auto.
Qed.

(** Resolving the caller only reads the database. *)
Lemma get_current_user_reads_only (utcnow : Z) (token : Token) (s : Session) :
  snd (get_current_user_from_token utcnow token s) = s.
Proof.
  unfold get_current_user_from_token, try_except, bind, lift, jwt_decode, get_user.
  destruct (negb (well_formed token) || negb (signature_valid token));
    [reflexivity |].
  destruct (claim_exp token) as [e |].
  - destruct (e <? utcnow); [reflexivity |].
    cbn [ret]. destruct (claim_sub token); cbn [ret raise]; [| reflexivity].
    rewrite query_first_single. destruct (hd_error _); reflexivity.
  - cbn [ret]. destruct (claim_sub token); cbn [ret raise]; [| reflexivity].
    rewrite query_first_single. destruct (hd_error _); reflexivity.
Qed.

End Gates.

(** C6.  With the three well-known roles configured ([get_role_ids]
    succeeds), the gate [super_admin_or_admin_required] refuses a caller
    whose live role is "endUser" with 403, and a route guarded by it then
    fails the same way without running its handler; it admits, returning
    the caller, one whose live role is "admin", and the guarded route then
    does what its handler does. *)
Theorem admin_gate_by_live_role :
  forall (s : Session) (current_user : UserUpdate),
    (exists ids, fst (get_role_ids s) = Ok ids) ->
    (fst (live_role_name (user_id current_user) s) = Ok (PStr "endUser") ->
     super_admin_or_admin_required current_user s
     = (Raise (HTTPException 403 "Access denied."), s)
     /\
     forall (A : Type) (handler : M A) (utcnow : Z) (token : Token),
       fst (get_current_user_from_token utcnow token s) = Ok current_user ->
       guarded super_admin_or_admin_required handler utcnow token s
       = (Raise (HTTPException 403 "Access denied."), s))
    /\
    (fst (live_role_name (user_id current_user) s) = Ok (PStr "admin") ->
     super_admin_or_admin_required current_user s = (Ok current_user, s)
     /\
     forall (A : Type) (handler : M A) (utcnow : Z) (token : Token),
       fst (get_current_user_from_token utcnow token s) = Ok current_user ->
       guarded super_admin_or_admin_required handler utcnow token s
       = handler s).
Proof.
  intros s cu [ids Hids].
  destruct (get_role_ids_ok s ids Hids)
    as (ra & rs & re & Hfa & Hfs & Hfe & Hrun & ->).
  destruct (singleton_filter_elim _ _ _ Hfa) as [Hina Hna].
  destruct (singleton_filter_elim _ _ _ Hfs) as [Hins Hns].
  assert (Hguard :
    forall (A : Type) (handler : M A) (utcnow : Z) (token : Token)
           (out : result UserUpdate),
      super_admin_or_admin_required cu s = (out, s) ->
      fst (get_current_user_from_token utcnow token s) = Ok cu ->
      guarded super_admin_or_admin_required handler utcnow token s
      = match out with
        | Ok _ => handler s
        | Raise e => (Raise e, s)
        end).
  { intros A handler utcnow token out Hgate Hres.
    unfold guarded, bind.
    pose proof (get_current_user_reads_only utcnow token s) as Hs.
    destruct (get_current_user_from_token utcnow token s) as [r s'].
    cbn [fst snd] in Hres, Hs. subst r s'. now rewrite Hgate. }
  split; intros Hlive;
    destruct (live_role_name_ok s _ _ Hlive) as (u & r & Hfu & Hfr & Hname);
    destruct (singleton_filter_elim _ _ _ Hfr) as [Hinr Hidr].
  - assert (Hgate : super_admin_or_admin_required cu s
                    = (Raise (HTTPException 403 "Access denied."), s)).
    { unfold super_admin_or_admin_required, bind. rewrite Hrun.
      rewrite query_one_or_none_single.
      change (tablename UserDbModel) with "users". rewrite Hfu.
      cbn [attr_of ret in_set existsb].
      assert (Ha : pyvalue_eqb (getattr ra "id") (getattr u "role_id") = false).
      { destruct (pyvalue_eqb (getattr ra "id") (getattr u "role_id")) eqn:E;
          [| reflexivity].
        assert (ra = r) by (eapply singleton_filter_in; eauto).
        subst ra. unfold col_eq in Hna. rewrite Hname in Hna. discriminate Hna. }
      assert (Hs : pyvalue_eqb (getattr rs "id") (getattr u "role_id") = false).
      { destruct (pyvalue_eqb (getattr rs "id") (getattr u "role_id")) eqn:E;
          [| reflexivity].
        assert (rs = r) by (eapply singleton_filter_in; eauto).
        subst rs. unfold col_eq in Hns. rewrite Hname in Hns. discriminate Hns. }
      rewrite Ha, Hs. reflexivity. }
    split; [exact Hgate |].
    intros A handler utcnow token Hres.
    exact (Hguard A handler utcnow token _ Hgate Hres).
  - assert (Hgate : super_admin_or_admin_required cu s = (Ok cu, s)).
    { unfold super_admin_or_admin_required, bind. rewrite Hrun.
      rewrite query_one_or_none_single.
      change (tablename UserDbModel) with "users". rewrite Hfu.
      cbn [attr_of ret in_set existsb].
      assert (r = ra).
      { eapply singleton_filter_in; eauto. unfold col_eq. now rewrite Hname. }
      subst r. unfold col_eq in Hidr. rewrite Hidr. reflexivity. }
    split; [exact Hgate |].
    intros A handler utcnow token Hres.
    exact (Hguard A handler utcnow token _ Hgate Hres).
Qed.

Lemma admin_gate_by_live_role_witness :
  guarded super_admin_or_admin_required
    (create_record AmenitiesDbModel
       [("name", PStr "Gym"); ("description", PStr "Indoor");
        ("created_by_user", PInt 9)] 9)
    100 (token_for "eve@x" 200) sample_session
  = (Raise (HTTPException 403 "Access denied."), sample_session)
  /\
  guarded super_admin_or_admin_required
    (create_record AmenitiesDbModel
       [("name", PStr "Gym"); ("description", PStr "Indoor");
        ("created_by_user", PInt 8)] 8)
    100 (token_for "adm@x" 200) sample_session
  = create_record AmenitiesDbModel
      [("name", PStr "Gym"); ("description", PStr "Indoor");
       ("created_by_user", PInt 8)] 8 sample_session.
Proof.
  split.
  - apply (proj1 (admin_gate_by_live_role sample_session end_user
                    (ex_intro _ (PInt 2, PInt 1, PInt 3) eq_refl)));
      reflexivity.
  - apply (proj2 (admin_gate_by_live_role sample_session admin_user
                    (ex_intro _ (PInt 2, PInt 1, PInt 3) eq_refl)));
      reflexivity.
Defined.

(** The claim of C8 as worded fails: with the "admin" and "endUser" role
    records missing, [super_admin_required] still admits a super admin. *)
Lemma super_admin_gate_ignores_other_roles :
  filter (col_eq "name" (PStr "admin"))
    (table_rows (database super_admin_only_session) "roles") = []
  /\
  filter (col_eq "name" (PStr "endUser"))
    (table_rows (database super_admin_only_session) "roles") = []
  /\
  super_admin_required root_user super_admin_only_session
  = (Ok root_user, super_admin_only_session).
Proof. repeat split. Qed.

(** C8 (amended).  Every gate fails closed on the role records it looks
    up itself, and the failure reaches the client as a 500:
    [super_admin_or_admin_required], through [get_role_ids], when any of
    "admin", "superAdmin", "endUser" is missing; [super_admin_required]
    when "superAdmin" is missing; [admin_required] when "admin" is
    missing.  In none of these cases is the caller admitted. *)
Theorem gates_fail_closed :
  forall (s : Session) (current_user : UserUpdate),
    let roles := table_rows (database s) "roles" in
    (filter (col_eq "name" (PStr "admin")) roles = [] \/
     filter (col_eq "name" (PStr "superAdmin")) roles = [] \/
     filter (col_eq "name" (PStr "endUser")) roles = [] ->
     exists e, super_admin_or_admin_required current_user s = (Raise e, s)
               /\ response_status e = 500)
    /\
    (filter (col_eq "name" (PStr "superAdmin")) roles = [] ->
     exists e, super_admin_required current_user s = (Raise e, s)
               /\ response_status e = 500)
    /\
    (filter (col_eq "name" (PStr "admin")) roles = [] ->
     exists e, admin_required current_user s = (Raise e, s)
               /\ response_status e = 500).
Proof.
  intros s cu roles. subst roles. repeat split.
  - intros Hmiss.
    unfold super_admin_or_admin_required, get_role_ids, bind.
    rewrite query_one_or_none_single. change (tablename RolesDbModel) with "roles".
    destruct (filter (col_eq "name" (PStr "admin")) _) as [| ra [| ? ?]] eqn:Ea;
      try (eexists; split; reflexivity).
    rewrite query_one_or_none_single. change (tablename RolesDbModel) with "roles".
    destruct (filter (col_eq "name" (PStr "superAdmin")) _) as [| rs [| ? ?]] eqn:Es;
      try (eexists; split; reflexivity).
    rewrite query_one_or_none_single. change (tablename RolesDbModel) with "roles".
    destruct (filter (col_eq "name" (PStr "endUser")) _) as [| re [| ? ?]] eqn:Ee;
      try (eexists; split; reflexivity).
    destruct Hmiss as [H | [H | H]]; discriminate H.
  - intros Hmiss.
    unfold super_admin_required, bind.
    rewrite query_one_or_none_single. change (tablename RolesDbModel) with "roles".
    rewrite Hmiss.
    rewrite query_one_or_none_single.
    destruct (filter _ (table_rows (database s) (tablename UserDbModel)))
      as [| u [| ? ?]]; eexists; split; reflexivity.
  - intros Hmiss.
    unfold admin_required, bind.
    rewrite query_one_or_none_single. change (tablename RolesDbModel) with "roles".
    rewrite Hmiss.
    rewrite query_one_or_none_single.
    destruct (filter _ (table_rows (database s) (tablename UserDbModel)))
      as [| u [| ? ?]]; eexists; split; reflexivity.
Qed.

Lemma gates_fail_closed_witness :
  (exists e, super_admin_or_admin_required root_user super_admin_only_session
             = (Raise e, super_admin_only_session)
             /\ response_status e = 500)
  /\
  (exists e, super_admin_required root_user
               (mk_session accept_all noon (mk_store [("users", sample_users)] []) [])
             = (Raise e,
                mk_session accept_all noon (mk_store [("users", sample_users)] []) [])
             /\ response_status e = 500)
  /\
  (exists e, admin_required root_user super_admin_only_session
             = (Raise e, super_admin_only_session)
             /\ response_status e = 500).
Proof.
  repeat split.
  - apply (proj1 (gates_fail_closed super_admin_only_session root_user)).
    left. reflexivity.
  - apply (proj1 (proj2 (gates_fail_closed
                           (mk_session accept_all noon
                              (mk_store [("users", sample_users)] []) [])
                           root_user))).
    reflexivity.
  - apply (proj2 (proj2 (gates_fail_closed super_admin_only_session root_user))).
    reflexivity.
Defined.

(** ** The role-deletion route *)

(** The claim of C10 as worded fails: no caller, super admin or not, can
    delete a role through the route, because the handler calls
    [delete_record] without its [current_user_id] argument; the call is a
    [TypeError] and the role table is left as it was. *)
Lemma delete_role_deletes_nothing :
  (fst (delete_role 100 (token_for "eve@x" 200) 2 sample_session)
   = Raise (TypeError
              "delete_record() missing 1 required positional argument: 'current_user_id'")
   /\ database (snd (delete_role 100 (token_for "eve@x" 200) 2 sample_session))
      = sample_store)
  /\
  (fst (delete_role 100 (token_for "root@x" 200) 2 sample_session)
   = Raise (TypeError
              "delete_record() missing 1 required positional argument: 'current_user_id'")
   /\ database (snd (delete_role 100 (token_for "root@x" 200) 2 sample_session))
      = sample_store).
Proof. repeat split. Qed.

(** C10 (amended).  [is_super_admin] never raises an [HTTPException], so
    in particular never Forbidden; for an authenticated caller, with the
    "superAdmin" role record and the caller's user row in place, it returns
    a boolean, which the route drops: the request then behaves exactly as
    the handler body does, whatever the caller's live role. *)
Theorem is_super_admin_never_forbids :
  forall (s : Session) (utcnow : Z) (token : Token) (role_id : Z)
         (current_user : UserUpdate),
    (forall c d, fst (is_super_admin current_user s) <> Raise (HTTPException c d))
    /\
    (forall super_admin_role user_in_db : row,
        fst (get_current_user_from_token utcnow token s) = Ok current_user ->
        filter (col_eq "name" (PStr "superAdmin"))
          (table_rows (database s) "roles") = [super_admin_role] ->
        filter (col_eq "id" (user_id current_user))
          (table_rows (database s) "users") = [user_in_db] ->
        is_super_admin current_user s
        = (Ok (pyvalue_eqb (getattr user_in_db "role_id")
                 (getattr super_admin_role "id")), s)
        /\ delete_role utcnow token role_id s = delete_role_handler role_id s).
Proof.
  intros s utcnow token role_id cu. split.
  - intros c d. unfold is_super_admin, bind.
    rewrite query_one_or_none_single.
    destruct (filter _ (table_rows (database s) (tablename RolesDbModel)))
      as [| sa [| ? ?]]; cbn [fst]; try discriminate;
      rewrite query_one_or_none_single;
      destruct (filter _ (table_rows (database s) (tablename UserDbModel)))
        as [| u [| ? ?]]; cbn [fst attr_of raise ret]; try discriminate.
    destruct (pyvalue_eqb _ _); discriminate.
  - intros sa u Hres Hsa Hu.
    assert (Hgate : is_super_admin cu s
                    = (Ok (pyvalue_eqb (getattr u "role_id") (getattr sa "id")), s)).
    { unfold is_super_admin, bind. rewrite query_one_or_none_single.
      change (tablename RolesDbModel) with "roles". rewrite Hsa.
      rewrite query_one_or_none_single.
      change (tablename UserDbModel) with "users". rewrite Hu.
      cbn [attr_of ret]. destruct (pyvalue_eqb _ _); reflexivity. }
    split; [exact Hgate |].
    unfold delete_role, bind.
    pose proof (get_current_user_reads_only utcnow token s) as Hs.
    destruct (get_current_user_from_token utcnow token s) as [r s'].
    cbn [fst snd] in Hres, Hs. subst r s'.
    now rewrite Hgate.
Qed.

Lemma is_super_admin_never_forbids_witness :
  is_super_admin end_user sample_session = (Ok false, sample_session)
  /\
  delete_role 100 (token_for "eve@x" 200) 2 sample_session
  = delete_role_handler 2 sample_session.
Proof.
  apply (proj2 (is_super_admin_never_forbids sample_session 100
                  (token_for "eve@x" 200) 2 end_user)
           (role_row 1 "superAdmin") (user_row 9 "eve@x" 3));
    reflexivity.
Defined.

(** ** Typed field mappings *)

Section Typing.

Lemma is_column_hasattr (m : Model) (attr : string) :
  is_column m attr = true -> hasattr m attr = true.
Proof. intros H. unfold hasattr. now rewrite H. Qed.

(** What [keyed] says of the column [id]. *)
Lemma keyed_facts (m : Model) :
  keyed m = true ->
  is_column m "id" = true /\
  (forall c, In c (columns m) -> c_name c = "id" -> c_default c = NoDefault) /\
  (forall c, In c (columns m) -> c_name c = "id" -> c_onupdate_now c = false).
Proof.
  unfold keyed. intros H. apply andb_prop in H. destruct H as [Hcol Hall].
  rewrite forallb_forall in Hall.
  split; [exact Hcol |]. split; intros c Hin Hname; specialize (Hall c Hin);
    rewrite Hname in Hall; cbn [String.eqb Ascii.eqb Bool.eqb negb orb] in Hall;
    repeat (apply andb_prop in Hall; destruct Hall as [Hall ?]).
  - destruct (c_default c); [reflexivity | discriminate | discriminate].
  - now destruct (c_onupdate_now c).
Qed.

Lemma column_named_is_column (m : Model) (name : string) (c : Column) :
  column_named m name = Some c -> is_column m name = true.
Proof.
  unfold column_named, is_column, column_names, mem. intros H.
  apply find_some in H. destruct H as [Hin Hname].
  apply String.eqb_eq in Hname. subst name.
  apply existsb_exists. exists (c_name c). split.
  - now apply in_map.
  - apply String.eqb_refl.
Qed.

(** The keys of a typed mapping are columns. *)
Lemma well_typed_columns (m : Model) (data : pydict) :
  well_typed m data = true ->
  forallb (fun kv => is_column m (fst kv)) data = true.
Proof.
  unfold well_typed. intros H. apply forallb_forall. intros kv Hin.
  rewrite forallb_forall in H. specialize (H kv Hin).
  destruct (column_named m (fst kv)) as [c |] eqn:E; [| discriminate].
  exact (column_named_is_column _ _ _ E).
Qed.

Lemma typed_filters_columns (m : Model) (filter_params : pydict) :
  typed_filters m filter_params = true ->
  forallb (fun kv => is_column m (fst kv)) filter_params = true.
Proof.
  unfold typed_filters. intros H. apply forallb_forall. intros kv Hin.
  rewrite forallb_forall in H. specialize (H kv Hin).
  destruct (column_named m (fst kv)) as [c |] eqn:E; [| discriminate].
  exact (column_named_is_column _ _ _ E).
Qed.

Lemma columns_hasattr (m : Model) (data : pydict) :
  forallb (fun kv => is_column m (fst kv)) data = true ->
  forallb (fun kv => hasattr m (fst kv)) data = true.
Proof.
  intros H. apply forallb_forall. intros kv Hin.
  rewrite forallb_forall in H. apply is_column_hasattr. now apply H.
Qed.

Lemma well_typed_hasattr (m : Model) (data : pydict) :
  well_typed m data = true ->
  forallb (fun kv => hasattr m (fst kv)) data = true.
Proof.
  intros H. apply columns_hasattr. now apply well_typed_columns.
Qed.

End Typing.

(** ** Lookup by filters *)

Section Lookup.

(** Column filters are all accepted, one equality clause per key. *)
Lemma build_filters_columns (db : store) (m : Model) (filter_params : pydict) :
  forallb (fun kv => is_column m (fst kv)) filter_params = true ->
  build_filters db m filter_params
  = Ok (map (fun kv => col_eq (fst kv) (snd kv)) filter_params).
Proof.
  induction filter_params as [| [attr value] rest IH]; intros Hall.
  - reflexivity.
  - cbn [forallb fst] in Hall. apply andb_prop in Hall. destruct Hall as [Hc Hrest].
    cbn [build_filters]. rewrite (is_column_hasattr _ _ Hc).
    unfold filter_clause. rewrite Hc. now rewrite (IH Hrest).
Qed.

Lemma forallb_clauses (filter_params : pydict) (r : row) :
  forallb (fun p => p r) (map (fun kv => col_eq (fst kv) (snd kv)) filter_params)
  = forallb (fun kv => col_eq (fst kv) (snd kv) r) filter_params.
Proof.
  induction filter_params as [| kv rest IH]; [reflexivity |].
  cbn [map forallb]. now rewrite IH.
Qed.

(** A key the class does not have stops the loop with a 400 once the keys
    before it, all columns, have given their clauses; the keys after it
    are not looked at. *)
Lemma build_filters_invalid (db : store) (m : Model) (pre post : pydict)
  (attr : string) (value : pyvalue) :
  forallb (fun kv => is_column m (fst kv)) pre = true ->
  hasattr m attr = false ->
  build_filters db m (pre ++ (attr, value) :: post)%list
  = Raise (HTTPException 400 ("Invalid filter parameter: " ++ attr)).
Proof.
  induction pre as [| [a v] rest IH]; intros Hall Hno.
  - cbn [app build_filters]. now rewrite Hno.
  - cbn [forallb fst] in Hall. apply andb_prop in Hall. destruct Hall as [Ha Hrest].
    cbn [app build_filters]. rewrite (is_column_hasattr _ _ Ha).
    unfold filter_clause. rewrite Ha. now rewrite (IH Hrest Hno).
Qed.

(** When the class has every key, whatever stops the loop is no
    [HTTPException]. *)
Lemma build_filters_attributes (db : store) (m : Model) (filter_params : pydict)
  (e : exn) :
  forallb (fun kv => hasattr m (fst kv)) filter_params = true ->
  build_filters db m filter_params = Raise e ->
  forall status detail, e <> HTTPException status detail.
Proof.
  induction filter_params as [| [a v] rest IH]; intros Hall Hraise.
  - discriminate Hraise.
  - cbn [forallb fst] in Hall. apply andb_prop in Hall. destruct Hall as [Ha Hrest].
    cbn [build_filters] in Hraise. rewrite Ha in Hraise.
    destruct (filter_clause db m a v) as [p | e0] eqn:Hclause.
    + destruct (build_filters db m rest) as [ps | e1]; [discriminate Hraise |].
      inversion Hraise; subst e1. now apply IH.
    + inversion Hraise; subst e0. clear Hraise.
      unfold filter_clause in Hclause.
      destruct (is_column m a); [discriminate Hclause |].
      destruct (lookup a (class_attrs m)) as [[| r | | c] |];
        try discriminate Hclause.
      * destruct v, r; try discriminate Hclause;
          inversion Hclause; intros status detail; discriminate.
      * inversion Hclause; intros status detail; discriminate.
Qed.

End Lookup.

(** The last sentence of C4 as worded fails: "to_dict" names no column
    of the amenities table, yet [fetch_record] does not answer 400 for
    it, because [hasattr] finds the method of that name on the class. *)
Lemma fetch_record_method_key_not_invalid :
  is_column AmenitiesDbModel "to_dict" = false
  /\
  fst (fetch_record AmenitiesDbModel [("to_dict", PInt 1)] sample_session)
  <> Raise (HTTPException 400 "Invalid filter parameter: to_dict").
Proof. split; [reflexivity | discriminate]. Qed.

(** C4 (amended).  When every filter key names a column and holds a value
    of the column's type, [fetch_record] answers by the number of rows
    that satisfy all the equalities: 404 for none, the row itself for
    exactly one, 300 for two or more.  A key that names no attribute of
    the model class at all ([hasattr] is false, for a name that does not
    begin with an underscore) is refused with 400 when the keys before it
    are such column filters, whatever comes after it.
    A mapping whose keys are all attributes of the class is never refused
    with 400, whether or not they name columns. *)
Theorem fetch_record_outcomes :
  forall (s : Session) (model : Model) (filter_params : pydict),
    (typed_filters model filter_params = true ->
     fetch_record model filter_params s
     = (match filter (fun r => forallb (fun kv => col_eq (fst kv) (snd kv) r)
                                 filter_params)
                (table_rows (database s) (tablename model)) with
        | [] => Raise (HTTPException 404 "Record not found")
        | [r] => Ok r
        | _ :: _ :: _ => Raise (HTTPException 300 "Multiple records found")
        end, s))
    /\
    (forall (pre post : pydict) (attr : string) (value : pyvalue),
        filter_params = (pre ++ (attr, value) :: post)%list ->
        typed_filters model pre = true ->
        hasattr model attr = false ->
        private_name attr = false ->
        fetch_record model filter_params s
        = (Raise (HTTPException 400 ("Invalid filter parameter: " ++ attr)), s))
    /\
    (forallb (fun kv => hasattr model (fst kv)) filter_params = true ->
     forall detail : string,
       fst (fetch_record model filter_params s)
       <> Raise (HTTPException 400 detail)).
Proof.
  intros s model filter_params. split; [| split].
  - intros Htyped. pose proof (typed_filters_columns _ _ Htyped) as Hcols.
    unfold fetch_record, try_except, bind, lift.
    rewrite (build_filters_columns _ _ _ Hcols).
    unfold ret, query_all.
    rewrite (filter_ext _ _ (forallb_clauses filter_params)).
    destruct (filter _ _) as [| r [| r' l]]; reflexivity.
  - intros pre post attr value -> Htyped Hno _.
    pose proof (typed_filters_columns _ _ Htyped) as Hcols.
    unfold fetch_record, try_except, bind, lift.
    now rewrite (build_filters_invalid _ _ _ post _ value Hcols Hno).
  - intros Hall detail.
    unfold fetch_record, try_except, bind, lift.
    destruct (build_filters (database s) model filter_params) as [ps | e] eqn:E.
    + unfold ret, query_all.
      destruct (filter _ _) as [| r [| r' l]]; cbn; discriminate.
    + pose proof (build_filters_attributes _ _ _ _ Hall E) as Hne.
      destruct e; cbn; try discriminate.
      exfalso. now apply (Hne status_code detail0).
Qed.

Lemma fetch_record_outcomes_witness :
  fetch_record AmenitiesDbModel [("id", PInt 1); ("name", PStr "Pool")]
    declared_session
  = (Ok (amenity_row 1 "Pool" "Outdoor" 8), declared_session)
  /\
  fetch_record AmenitiesDbModel
    [("id", PInt 1); ("colour", PStr "blue"); ("user", PInt 3)] declared_session
  = (Raise (HTTPException 400 "Invalid filter parameter: colour"),
     declared_session)
  /\
  fst (fetch_record AmenitiesDbModel [("user", PNone); ("to_dict", PInt 1)]
         declared_session)
  <> Raise (HTTPException 400 "Invalid filter parameter: to_dict").
Proof.
  split; [| split].
  - apply (proj1 (fetch_record_outcomes declared_session AmenitiesDbModel
                    [("id", PInt 1); ("name", PStr "Pool")])).
    reflexivity.
  - apply (proj1 (proj2 (fetch_record_outcomes declared_session AmenitiesDbModel
                    [("id", PInt 1); ("colour", PStr "blue"); ("user", PInt 3)]))
             [("id", PInt 1)] [("user", PInt 3)] "colour" (PStr "blue"));
      reflexivity.
  - apply (proj2 (proj2 (fetch_record_outcomes declared_session AmenitiesDbModel
                    [("user", PNone); ("to_dict", PInt 1)]))).
    reflexivity.
Defined.

(** ** Rows, tables and the flush *)

Section Store.

Lemma pyvalue_eqb_int_r (x : pyvalue) (n : Z) :
  pyvalue_eqb x (PInt n) = true -> x = PInt n.
Proof.
  destruct x; cbn; try discriminate.
  intros H. apply Z.eqb_eq in H. now subst.
Qed.

Lemma datetime_eqb_refl (d : datetime) : datetime_eqb d d = true.
Proof.
  unfold datetime_eqb. rewrite !Z.eqb_refl. cbn.
  destruct (utcoffset d); cbn; [apply Z.eqb_refl | reflexivity].
Qed.

Lemma pyvalue_eqb_refl : forall v, pyvalue_eqb v v = true.
Proof.
  induction v as [| b | n | s | l IHl | d IHd | d | n] using pyvalue_nested_ind;
    cbn [pyvalue_eqb].
  - reflexivity.
  - apply Bool.eqb_reflx.
  - apply Z.eqb_refl.
  - apply String.eqb_refl.
  - induction IHl as [| x xs Hx _ IHxs]; [reflexivity |].
    now rewrite Hx, IHxs.
  - induction IHd as [| [k x] xs Hx _ IHxs]; [reflexivity |].
    cbn [snd] in Hx. now rewrite String.eqb_refl, Hx, IHxs.
  - apply datetime_eqb_refl.
  - apply String.eqb_refl.
Qed.

Lemma lookup_set_table (t : string) (rs : list row) (ts : list (string * list row)) :
  lookup t (set_table t rs ts) = Some rs.
Proof.
  induction ts as [| [t' rs'] ts IH]; cbn [set_table lookup].
  - now rewrite String.eqb_refl.
  - destruct (String.eqb t t') eqn:E; cbn [lookup]; rewrite E; [reflexivity | exact IH].
Qed.

Lemma table_rows_set_table (t : string) (rs : list row) (st : store)
  (logs : list AuditLog) :
  table_rows (mk_store (set_table t rs (tables st)) logs) t = rs.
Proof. unfold table_rows. cbn [tables]. now rewrite lookup_set_table. Qed.

Lemma getattr_set_attr_other (k name : string) (v : pyvalue) (r : row) :
  String.eqb name k = false ->
  getattr (set_attr k v r) name = getattr r name.
Proof.
  intros Hne. unfold getattr.
  induction r as [| [k' x] r IH]; cbn [set_attr lookup].
  - now rewrite Hne.
  - destruct (String.eqb k k') eqn:E.
    + apply String.eqb_eq in E. subst k'. cbn [lookup]. now rewrite Hne.
    + cbn [lookup]. destruct (String.eqb name k'); [reflexivity | exact IH].
Qed.

Lemma lookup_none_key (name : string) (d : pydict) (k : string) (v : pyvalue) :
  lookup name d = None -> In (k, v) d -> String.eqb name k = false.
Proof.
  induction d as [| [k' x] d IH]; intros Hl Hin; [destruct Hin |].
  cbn [lookup] in Hl. destruct (String.eqb name k') eqn:E; [discriminate |].
  destruct Hin as [Heq | Hin]; [inversion Heq; now subst | now apply IH].
Qed.

(** Writing other columns leaves an attribute alone. *)
Lemma getattr_fold_set_attr (m : Model) (name : string) (changes : pydict) :
  lookup name changes = None ->
  forall r,
    getattr (fold_left (fun acc kv =>
                          if is_column m (fst kv)
                          then set_attr (fst kv) (snd kv) acc else acc)
               changes r) name
    = getattr r name.
Proof.
  induction changes as [| [k v] rest IH]; intros Hl r; [reflexivity |].
  cbn [lookup] in Hl. destruct (String.eqb name k) eqn:E; [discriminate |].
  cbn [fold_left fst snd]. rewrite (IH Hl).
  destruct (is_column m k); [now apply getattr_set_attr_other | reflexivity].
Qed.

Lemma getattr_map_values (name : string) (g : string * pyvalue -> string * pyvalue)
  (r : row) :
  (forall kv, fst (g kv) = fst kv) ->
  (forall kv, String.eqb name (fst kv) = true -> g kv = kv) ->
  getattr (map g r) name = getattr r name.
Proof.
  intros Hkey Hsame. unfold getattr.
  induction r as [| [k x] r IH]; [reflexivity |].
  cbn [map]. destruct (g (k, x)) as [k' x'] eqn:Eg.
  pose proof (Hkey (k, x)) as Hk. rewrite Eg in Hk. cbn [fst] in Hk. subst k'.
  cbn [lookup]. destruct (String.eqb name k) eqn:E.
  - pose proof (Hsame (k, x) E) as Hs. rewrite Eg in Hs. now inversion Hs.
  - exact IH.
Qed.

(** An UPDATE that does not write the primary key keeps it, as long as
    the key column carries no [onupdate]. *)
Lemma update_row_keeps_id (clock : datetime) (m : Model) (changes : pydict)
  (r : row) :
  lookup "id" changes = None ->
  (forall c, In c (columns m) -> c_name c = "id" -> c_onupdate_now c = false) ->
  getattr (update_row clock m changes r) "id" = getattr r "id".
Proof.
  intros Hl Hplain. unfold update_row.
  destruct (row_eqb r _); [reflexivity |].
  rewrite getattr_map_values.
  - now apply getattr_fold_set_attr.
  - intros kv. destruct (find _ (columns m)) as [c |]; [| reflexivity].
    destruct (c_onupdate_now c && _); reflexivity.
  - intros kv Hk. apply String.eqb_eq in Hk.
    destruct (find (fun c => String.eqb (c_name c) (fst kv)) (columns m))
      as [c |] eqn:Ef; [| reflexivity].
    apply find_some in Ef. destruct Ef as [Hin Hname].
    apply String.eqb_eq in Hname.
    rewrite (Hplain c Hin) by congruence. reflexivity.
Qed.

Lemma hd_error_filter_map {A} (p : A -> bool) (f : A -> A) (l : list A) :
  (forall x, p (f x) = p x) ->
  hd_error (filter p (map f l)) = option_map f (hd_error (filter p l)).
Proof.
  intros Hp. induction l as [| x l IH]; [reflexivity |].
  cbn [map filter]. rewrite Hp. destruct (p x); [reflexivity | exact IH].
Qed.

Lemma hd_error_filter_holds {A} (p : A -> bool) (l : list A) (x : A) :
  hd_error (filter p l) = Some x -> p x = true.
Proof.
  intros H. destruct (filter p l) as [| y l'] eqn:E; [discriminate |].
  cbn in H. inversion H; subst y.
  assert (Hin : In x (filter p l)) by (rewrite E; now left).
  apply filter_In in Hin. tauto.
Qed.

End Store.

(** ** Values and rows *)

Section Values.

Lemma datetime_eqb_eq (a b : datetime) : datetime_eqb a b = true -> a = b.
Proof.
  destruct a as [y mo d h mi se us off], b as [y' mo' d' h' mi' se' us' off'].
  unfold datetime_eqb. cbn [year month day hour minute second microsecond utcoffset].
  intros H. repeat (apply andb_prop in H; destruct H as [H ?]).
  repeat match goal with
         | E : (_ =? _) = true |- _ => apply Z.eqb_eq in E
         end.
  subst. f_equal.
  destruct off as [o |], off' as [o' |]; cbn in *; try discriminate;
    [| reflexivity].
  f_equal. now apply Z.eqb_eq.
Qed.

(** [==] as modelled decides equality of values. *)
Lemma pyvalue_eqb_eq : forall a b, pyvalue_eqb a b = true -> a = b.
Proof.
  induction a as [| x | x | x | l IHl | d IHd | d | n] using pyvalue_nested_ind;
    intros [| y | y | y | l' | d' | d' | n']; cbn [pyvalue_eqb];
    try discriminate; intros H.
  - reflexivity.
  - f_equal. now apply Bool.eqb_prop.
  - f_equal. now apply Z.eqb_eq.
  - f_equal. now apply String.eqb_eq.
  - f_equal. revert l' H.
    induction IHl as [| x xs Hx _ IHxs]; intros [| y ys] H;
      try discriminate; [reflexivity |].
    apply andb_prop in H. destruct H as [Hxy Hrest].
    f_equal; [now apply Hx | now apply IHxs].
  - f_equal. revert d' H.
    induction IHd as [| [k x] xs Hx _ IHxs]; intros [| [k' y] ys] H;
      try discriminate; [reflexivity |].
    apply andb_prop in H. destruct H as [H Hrest].
    apply andb_prop in H. destruct H as [Hk Hxy].
    apply String.eqb_eq in Hk. subst k'. cbn [snd] in Hx.
    f_equal; [f_equal; now apply Hx | now apply IHxs].
  - f_equal. now apply datetime_eqb_eq.
  - f_equal. now apply String.eqb_eq.
Qed.

Lemma getattr_set_attr_same (k : string) (v : pyvalue) (r : row) :
  getattr (set_attr k v r) k = v.
Proof.
  unfold getattr. induction r as [| [k' x] r IH]; cbn [set_attr lookup].
  - now rewrite String.eqb_refl.
  - destruct (String.eqb k k') eqn:E; cbn [lookup]; rewrite E;
      [reflexivity | exact IH].
Qed.

Lemma lookup_none_not_in (k : string) (d : pydict) :
  ~ In k (map fst d) -> lookup k d = None.
Proof.
  induction d as [| [k' x] d IH]; intros Hn; [reflexivity |].
  cbn [lookup]. destruct (String.eqb_spec k k') as [-> | Hne].
  - exfalso. apply Hn. now left.
  - apply IH. intros Hin. apply Hn. now right.
Qed.

Lemma mem_in (k : string) (l : list string) : In k l -> mem k l = true.
Proof.
  intros Hin. unfold mem. apply existsb_exists. exists k.
  split; [exact Hin | apply String.eqb_refl].
Qed.

(** The attribute writes of an update, key by key. *)
Lemma getattr_fold_written (m : Model) (changes : pydict) (k : string)
  (v : pyvalue) :
  NoDup (map fst changes) ->
  In (k, v) changes ->
  is_column m k = true ->
  forall r,
    getattr (fold_left (fun acc kv =>
                          if is_column m (fst kv)
                          then set_attr (fst kv) (snd kv) acc else acc)
               changes r) k = v.
Proof.
  induction changes as [| [k0 v0] rest IH]; intros Hnd Hin Hcol r;
    [destruct Hin |].
  cbn [map fst] in Hnd. inversion Hnd as [| ? ? Hnotin Hnd']; subst.
  cbn [fold_left fst snd].
  destruct Hin as [Heq | Hin].
  - inversion Heq; subst k0 v0. rewrite Hcol.
    rewrite getattr_fold_set_attr by now apply lookup_none_not_in.
    apply getattr_set_attr_same.
  - now apply IH.
Qed.

(** A column that is not written and carries no [onupdate] keeps its
    value through an UPDATE. *)
Lemma update_row_untouched (clock : datetime) (m : Model) (changes : pydict)
  (r : row) (name : string) :
  lookup name changes = None ->
  (forall c, In c (columns m) -> c_name c = name -> c_onupdate_now c = false) ->
  getattr (update_row clock m changes r) name = getattr r name.
Proof.
  intros Hl Hplain. unfold update_row.
  destruct (row_eqb r _); [reflexivity |].
  rewrite getattr_map_values.
  - now apply getattr_fold_set_attr.
  - intros kv. destruct (find _ (columns m)) as [c |]; [| reflexivity].
    destruct (c_onupdate_now c && _); reflexivity.
  - intros kv Hk. apply String.eqb_eq in Hk.
    destruct (find (fun c => String.eqb (c_name c) (fst kv)) (columns m))
      as [c |] eqn:Ef; [| reflexivity].
    apply find_some in Ef. destruct Ef as [Hin Hname].
    apply String.eqb_eq in Hname.
    rewrite (Hplain c Hin) by congruence. reflexivity.
Qed.

(** A written column that carries no [onupdate] holds the value
    written. *)
Lemma update_row_written (clock : datetime) (m : Model) (changes : pydict)
  (r : row) (k : string) (v : pyvalue) :
  NoDup (map fst changes) ->
  In (k, v) changes ->
  is_column m k = true ->
  (forall c, In c (columns m) -> c_name c = k -> c_onupdate_now c = false) ->
  getattr (update_row clock m changes r) k = v.
Proof.
  intros Hnd Hin Hcol Hplain. unfold update_row.
  pose proof (getattr_fold_written m changes k v Hnd Hin Hcol r) as Hw.
  destruct (row_eqb r _) eqn:E.
  - apply pyvalue_eqb_eq in E. injection E as E'. rewrite E'. exact Hw.
  - rewrite getattr_map_values; [exact Hw | |].
    + intros kv. destruct (find _ (columns m)) as [c |]; [| reflexivity].
      destruct (c_onupdate_now c && _); reflexivity.
    + intros kv Hk. apply String.eqb_eq in Hk.
      destruct (find (fun c => String.eqb (c_name c) (fst kv)) (columns m))
        as [c |] eqn:Ef; [| reflexivity].
      apply find_some in Ef. destruct Ef as [Hinc Hname].
      apply String.eqb_eq in Hname.
      rewrite (Hplain c Hinc) by congruence. reflexivity.
Qed.

End Values.

Section Refresh.

Lemma lookup_in (k : string) (d : pydict) (v : pyvalue) :
  lookup k d = Some v -> In (k, v) d.
Proof.
  induction d as [| [k' x] d IH]; [discriminate |].
  cbn [lookup]. destruct (String.eqb_spec k k') as [-> | Hne].
  - intros H. inversion H. now left.
  - intros H. right. now apply IH.
Qed.

Lemma hd_error_in {A} (l : list A) (x : A) : hd_error l = Some x -> In x l.
Proof. destruct l; [discriminate |]. intros H. inversion H. now left. Qed.

Lemma hd_error_filter_found {A} (p : A -> bool) (l : list A) (x : A) :
  In x l -> p x = true -> exists y, hd_error (filter p l) = Some y.
Proof.
  intros Hin Hp.
  assert (Hf : In x (filter p l)) by (apply filter_In; auto).
  destruct (filter p l) as [| y l']; [destruct Hf | now exists y].
Qed.

(** After the UPDATE, the row answers to the key [db.refresh] asks for:
    the one written, or the old one. *)
Lemma updated_row_answers (clock : datetime) (m : Model) (record_id : Z)
  (data : pydict) (record : row) :
  is_column m "id" = true ->
  (forall c, In c (columns m) -> c_name c = "id" -> c_onupdate_now c = false) ->
  NoDup (map fst data) ->
  getattr record "id" = PInt record_id ->
  col_eq "id" (pk_after record_id data) (update_row clock m data record) = true.
Proof.
  intros Hidcol Hplain Hnd Hid. unfold col_eq, pk_after.
  destruct (lookup "id" data) as [v |] eqn:El.
  - rewrite (update_row_written clock m data record "id" v Hnd
               (lookup_in _ _ _ El) Hidcol Hplain).
    apply pyvalue_eqb_refl.
  - rewrite update_row_keeps_id by assumption. rewrite Hid.
    apply pyvalue_eqb_refl.
Qed.

End Refresh.

(** ** Assignments to columns *)

Section Assignment.

(** A mapping whose keys are columns is assigned as it stands. *)
Lemma assign_columns (m : Model) (data : pydict) :
  forallb (fun kv => is_column m (fst kv)) data = true ->
  assign m data = Ok (map (fun kv => ToColumn (fst kv) (snd kv)) data).
Proof.
  induction data as [| [k v] rest IH]; intros Hall; [reflexivity |].
  cbn [forallb fst] in Hall. apply andb_prop in Hall. destruct Hall as [Hk Hrest].
  cbn [assign]. unfold setattr. rewrite Hk. now rewrite (IH Hrest).
Qed.

Lemma column_writes_columns (data : pydict) :
  column_writes (map (fun kv => ToColumn (fst kv) (snd kv)) data) = data.
Proof.
  unfold column_writes.
  assert (H2 : flat_map (fun a => match a with
                                  | ClearKey k => [(k, PNone)]
                                  | _ => []
                                  end)
                 (map (fun kv : string * pyvalue => ToColumn (fst kv) (snd kv)) data)
               = []).
  { induction data as [| kv rest IH]; [reflexivity | exact IH]. }
  rewrite H2, app_nil_r.
  induction data as [| [k v] rest IH]; [reflexivity |].
  cbn [map flat_map fst snd app]. now rewrite IH.
Qed.

Lemma emptied_columns (data : pydict) :
  emptied (map (fun kv => ToColumn (fst kv) (snd kv)) data) = [].
Proof. induction data as [| kv rest IH]; [reflexivity | exact IH]. Qed.

(** [update_record] up to the commit, for a mapping of columns. *)
Lemma assign_columns_run (m : Model) (data : pydict) :
  forallb (fun kv => is_column m (fst kv)) data = true ->
  exists written,
    assign m data = Ok written /\ column_writes written = data /\
    emptied written = [].
Proof.
  intros H. eexists. split; [exact (assign_columns _ _ H) |].
  split; [apply column_writes_columns | apply emptied_columns].
Qed.

End Assignment.

(** ** Updates and their audit entry *)

(** C2.  For an existing record of a model keyed by [id] and a mapping
    of fields (every key a column, each key once),
    once both payloads serialize and the database accepts the two
    commits, [update_record] succeeds and appends exactly one audit entry:
    its [old_values] is the document written for the snapshot of all the
    columns of the row before the update (one key per column), its
    [new_values] the document written for the [data] mapping as supplied
    (the keys of [data] and nothing else), which reads back as [data]
    itself when [data] is plain JSON. *)
Theorem update_record_audit_entry :
  forall (s : Session) (model : Model) (record_id : Z) (data : pydict)
         (current_user_id : Z) (record : row) (old_json new_json : json),
    unit_of_work s = [] ->
    tablename model <> "audit_logs" ->
    keyed model = true ->
    hd_error (filter (col_eq "id" (PInt record_id))
                (table_rows (database s) (tablename model))) = Some record ->
    forallb (fun kv => is_column model (fst kv)) data = true ->
    NoDup (map fst data) ->
    json_dumps (Some json_serial) (PDict (snapshot model record)) = Ok old_json ->
    json_dumps (Some json_serial) (PDict data) = Ok new_json ->
    let st1 :=
      fst (flush (now s) [Update model (PInt record_id) data] (database s)) in
    let entry :=
      mk_audit (next_id (map (fun a => PInt (audit_id a))
                           (audit_logs (database s))))
        (tablename model) (PInt record_id) current_user_id
        old_json new_json (now s) in
    let st2 := mk_store (tables st1) (audit_logs (database s) ++ [entry]) in
    constraints s st1 = true ->
    constraints s st2 = true ->
    (exists (updated : row) (s' : Session),
        update_record model record_id data current_user_id s = (Ok updated, s')
        /\ audit_logs (database s') = (audit_logs (database s) ++ [entry])%list
        /\ unit_of_work s' = [])
    /\
    (exists old_obj new_obj,
        old_json = JObject old_obj /\ map fst old_obj = column_names model /\
        new_json = JObject new_obj /\ map fst new_obj = map fst data)
    /\
    (json_representable (PDict data) = true -> json_loads new_json = PDict data).
Proof.
  intros s model record_id data u record old_json new_json
         Hclean _ Hkeyed Hrec Hcols Hnd Hold Hnew st1 entry st2 Hc1 Hc2.
  destruct (keyed_facts _ Hkeyed) as (Hidcol & _ & Hplain).
  destruct (assign_columns_run _ _ Hcols) as (written & Hassign & Hwrites & Hnone).
  assert (Hid : getattr record "id" = PInt record_id).
  { apply pyvalue_eqb_int_r. apply (hd_error_filter_holds _ _ _ Hrec). }
  pose proof (hd_error_in _ _ Hrec) as Hin. apply filter_In in Hin.
  destruct Hin as [Hin _].
  set (rows := table_rows (database s) (tablename model)) in *.
  set (f := fun r : row =>
              if pyvalue_eqb (getattr r "id") (PInt record_id)
              then update_row (now s) model data r else r).
  destruct (hd_error_filter_found (col_eq "id" (pk_after record_id data))
              (map f rows) (f record)) as [updated Hupd].
  { now apply in_map. }
  { unfold f. rewrite Hid, pyvalue_eqb_refl.
    now apply updated_row_answers. }
  split; [| split].
  - exists updated. eexists. split; [| split].
    + unfold update_record, try_except, bind.
      rewrite query_first_single. fold rows. rewrite Hrec.
      unfold canonicalize. rewrite Hold, Hnew, Hassign. cbn [lift ret].
      rewrite Hwrites, Hnone. cbn [map].
      unfold db_pend, db_pend_all.
      cbn [now constraints database unit_of_work].
      rewrite Hclean, Hid. cbn [app].
      unfold db_commit.
      cbn [now constraints database unit_of_work flush apply_pending].
      subst st1. cbn [flush apply_pending fst] in Hc1.
      fold rows in Hc1. fold f in Hc1. fold rows. fold f. rewrite Hc1.
      unfold db_refresh, bind.
      rewrite query_first_single. cbn [database].
      rewrite table_rows_set_table. rewrite Hupd. cbn [ret].
      unfold add_audit_log, bind. rewrite !json_dumps_loads. cbn [lift ret].
      unfold db_pend, db_commit.
      cbn [now constraints database unit_of_work app flush apply_pending
             audit_logs tables].
      subst st2 entry. cbn [flush apply_pending fst tables audit_logs] in Hc2.
      fold rows in Hc2. fold f in Hc2. rewrite Hc2. reflexivity.
    + reflexivity.
    + reflexivity.
  - destruct (encode_dict_keys _ _ _ Hold) as (om & -> & Hko).
    destruct (encode_dict_keys _ _ _ Hnew) as (nm & -> & Hkn).
    exists om, nm. repeat split; try assumption.
    rewrite Hko. unfold snapshot, column_names. rewrite map_map. reflexivity.
  - intros Hrep. pose proof (canonicalize_identity _ Hrep) as Hcan.
    unfold canonicalize in Hcan. rewrite Hnew in Hcan. now inversion Hcan.
Qed.

Lemma update_record_audit_entry_witness :
  (exists (updated : row) (s' : Session),
      update_record AmenitiesDbModel 1 [("description", PStr "Heated")] 8
        declared_session = (Ok updated, s')
      /\
      map (fun a => (record_id a, changed_by a, old_values a, new_values a))
        (audit_logs (database s'))
      = [(PInt 1, 8,
          JObject [("id", JNumber 1); ("name", JString "Pool");
                   ("description", JString "Outdoor");
                   ("created_by_user", JNumber 8);
                   ("created_at", JString "2024-01-01T00:00:00");
                   ("updated_at", JString "2024-01-01T00:00:00")],
          JObject [("description", JString "Heated")])]).
Proof.
  destruct (update_record_audit_entry declared_session AmenitiesDbModel 1
              [("description", PStr "Heated")] 8
              (amenity_row 1 "Pool" "Outdoor" 8)
              (JObject [("id", JNumber 1); ("name", JString "Pool");
                        ("description", JString "Outdoor");
                        ("created_by_user", JNumber 8);
                        ("created_at", JString "2024-01-01T00:00:00");
                        ("updated_at", JString "2024-01-01T00:00:00")])
              (JObject [("description", JString "Heated")])
              eq_refl ltac:(discriminate) eq_refl eq_refl eq_refl
              (NoDup_cons _ (fun H : In "description" [] => H) (NoDup_nil _))
              eq_refl eq_refl eq_refl eq_refl)
    as [(updated & s' & Hrun & Hlog & _) _].
  exists updated, s'. split; [exact Hrun |]. rewrite Hlog. reflexivity.
Defined.

(** ** Mutation and audit entry are committed apart *)

Section Atomicity.

Lemma find_none_forallb {A} (p : A -> bool) (l : list A) :
  forallb p l = true -> find (fun x => negb (p x)) l = None.
Proof.
  induction l as [| x l IH]; [reflexivity |].
  cbn [forallb find]. intros H. apply andb_prop in H. destruct H as [Hx Hl].
  rewrite Hx. cbn [negb]. now apply IH.
Qed.

Lemma hd_error_filter_app_last {A} (p : A -> bool) (l : list A) (x : A) :
  p x = true -> exists y, hd_error (filter p (l ++ [x])) = Some y.
Proof.
  intros Hx. rewrite filter_app. cbn [filter]. rewrite Hx.
  destruct (filter p l) as [| y l']; [now exists x | now exists y].
Qed.

(** What [create_record] does once the row itself is committed: the
    outcome is decided by the plain [json.dumps] of [add_audit_log] and by
    the second commit, and every failure there leaves the database as the
    first commit made it. *)
Lemma create_record_after_row_commit (s : Session) (model : Model)
  (data : pydict) (current_user_id : Z) :
  unit_of_work s = [] ->
  forallb (fun kv => hasattr model (fst kv)) data = true ->
  let st1 := fst (flush (now s) [Insert model data] (database s)) in
  constraints s st1 = true ->
  exists new_record : row,
    In new_record (table_rows st1 (tablename model)) /\
    create_record model data current_user_id s
    = if hasattr model "id" then
        match json_dumps None (PDict data) with
        | Raise e =>
            (Raise (HTTPException 500 ("Error creating record: " ++ str_of_exn e)),
             mk_session (constraints s) (now s) st1 [])
        | Ok j =>
            let st2 :=
              mk_store (tables st1)
                (audit_logs (database s)
                 ++ [mk_audit (next_id (map (fun a => PInt (audit_id a))
                                          (audit_logs (database s))))
                       (tablename model) (getattr new_record "id")
                       current_user_id (JObject []) j (now s)]) in
            if constraints s st2
            then (Ok new_record, mk_session (constraints s) (now s) st2 [])
            else (Raise (HTTPException 500
                           "Error creating record: constraint failed"),
                  mk_session (constraints s) (now s) st1 [])
        end
      else
        (Raise (HTTPException 500
                  ("Error creating record: '" ++ classname model
                   ++ "' object has no attribute 'id'")),
         mk_session (constraints s) (now s) st1 []).
Proof.
  intros Hclean Hattrs st1 Hc1.
  subst st1. cbn [flush apply_pending fst tables] in *.
  set (rows := table_rows (database s) (tablename model)) in *.
  set (r := insert_row (now s) model data rows) in *.
  destruct (hd_error_filter_app_last (col_eq "id" (getattr r "id")) rows r
              (pyvalue_eqb_refl _)) as [new_record Hnew].
  exists new_record. split.
  { rewrite table_rows_set_table.
    destruct (filter (col_eq "id" (getattr r "id")) (rows ++ [r]))
      as [| y l] eqn:Ef; [discriminate Hnew |].
    cbn in Hnew. inversion Hnew; subst y.
    assert (Hin : In new_record (filter (col_eq "id" (getattr r "id")) (rows ++ [r])))
      by (rewrite Ef; now left).
    apply filter_In in Hin. tauto. }
  unfold create_record, try_except, bind, construct.
  rewrite (find_none_forallb _ _ Hattrs). cbn [ret].
  unfold db_pend. rewrite Hclean. cbn [app].
  unfold db_commit.
  cbn [now constraints database unit_of_work flush apply_pending app].
  fold rows. fold r. rewrite Hc1. cbn [last].
  unfold db_refresh, bind. rewrite query_first_single. cbn [database].
  rewrite table_rows_set_table. rewrite Hnew. cbn [ret].
  unfold read_attr. destruct (hasattr model "id"); [| reflexivity].
  cbn [ret].
  unfold add_audit_log, bind.
  change (json_dumps None (PDict [])) with (@Ok json (JObject [])).
  cbn [lift ret].
  destruct (json_dumps None (PDict data)) as [j | e] eqn:Ej.
  - cbn [lift ret]. unfold db_pend, db_commit.
    cbn [now constraints database unit_of_work app flush apply_pending
           audit_logs tables].
    match goal with
    | |- context [if constraints s ?st then _ else _] =>
        destruct (constraints s st)
    end; reflexivity.
  - reflexivity.
Qed.

End Atomicity.

(** C1.  The row and its audit entry are not one transaction:
    [create_record] commits the new row first and appends the audit entry
    in a second commit.  Whenever that second step fails, because the
    payload is refused by the plain [json.dumps] of [add_audit_log] or
    because the database rejects the entry, the call ends in a 500 after a
    rollback that has nothing left to undo: the new row stays in the table
    and no audit entry exists for it. *)
Theorem create_record_not_atomic :
  forall (s : Session) (model : Model) (data : pydict) (current_user_id : Z),
    unit_of_work s = [] ->
    forallb (fun kv => hasattr model (fst kv)) data = true ->
    let rows := table_rows (database s) (tablename model) in
    let st1 := fst (flush (now s) [Insert model data] (database s)) in
    constraints s st1 = true ->
    (forall (j : json) (rid : pyvalue),
        json_dumps None (PDict data) = Ok j ->
        constraints s
          (mk_store (tables st1)
             (audit_logs (database s)
              ++ [mk_audit (next_id (map (fun a => PInt (audit_id a))
                                       (audit_logs (database s))))
                    (tablename model) rid current_user_id (JObject []) j (now s)]))
        = false) ->
    (exists msg,
        create_record model data current_user_id s
        = (Raise (HTTPException 500 msg),
           mk_session (constraints s) (now s) st1 []))
    /\ table_rows st1 (tablename model)
       = (rows ++ [insert_row (now s) model data rows])%list
    /\ audit_logs st1 = audit_logs (database s).
Proof.
  intros s model data u Hclean Hattrs rows st1 Hc1 Hfail.
  destruct (create_record_after_row_commit s model data u Hclean Hattrs Hc1)
    as (new_record & _ & Hrun).
  fold st1 in Hrun. repeat split.
  - rewrite Hrun. destruct (hasattr model "id"); [| eexists; reflexivity].
    destruct (json_dumps None (PDict data)) as [j | e] eqn:Ej.
    + cbn zeta. rewrite (Hfail j (getattr new_record "id") eq_refl).
      eexists. reflexivity.
    + eexists. reflexivity.
  - subst st1 rows. cbn [flush apply_pending fst]. apply table_rows_set_table.
Qed.

Lemma create_record_not_atomic_witness :
  (exists msg,
      create_record AmenitiesDbModel
        [("name", PStr "Gym"); ("description", PStr "Indoor");
         ("created_by_user", PInt 8)] 99 strict_session
      = (Raise (HTTPException 500 msg),
         mk_session changed_by_fk noon
           (fst (flush noon
                   [Insert AmenitiesDbModel
                      [("name", PStr "Gym"); ("description", PStr "Indoor");
                       ("created_by_user", PInt 8)]] sample_store)) []))
  /\
  map (fun r => getattr r "name")
    (table_rows
       (fst (flush noon
               [Insert AmenitiesDbModel
                  [("name", PStr "Gym"); ("description", PStr "Indoor");
                   ("created_by_user", PInt 8)]] sample_store)) "amenities")
  = [PStr "Pool"; PStr "Gym"].
Proof.
  destruct (create_record_not_atomic strict_session AmenitiesDbModel
              [("name", PStr "Gym"); ("description", PStr "Indoor");
               ("created_by_user", PInt 8)] 99
              eq_refl eq_refl eq_refl (fun j rid _ => eq_refl))
    as [Hrun _].
  split; [exact Hrun | reflexivity].
Defined.


(** C5.  Only [update_record] and [delete_record] pass their payloads
    through [json_serial]; [create_record] hands [data] to
    [add_audit_log] as it is.  So a typed field mapping that the adapter
    would render (here a [datetime] under any key, written as its
    ISO-8601 string by the idiom of [update_record]) but that the plain
    [json.dumps] refuses makes [create_record] answer 500 with the
    [TypeError] of [json.dumps], after the row was committed and with no
    audit entry written. *)
Theorem create_record_skips_json_serial :
  forall (s : Session) (model : Model) (data : pydict) (current_user_id : Z)
         (e : exn),
    unit_of_work s = [] ->
    tablename model <> "audit_logs" ->
    is_column model "id" = true ->
    well_typed model data = true ->
    let st1 := fst (flush (now s) [Insert model data] (database s)) in
    constraints s st1 = true ->
    json_dumps None (PDict data) = Raise e ->
    (create_record model data current_user_id s
     = (Raise (HTTPException 500 ("Error creating record: " ++ str_of_exn e)),
        mk_session (constraints s) (now s) st1 [])
     /\ audit_logs st1 = audit_logs (database s))
    /\
    (forall (key : string) (d : datetime),
        json_dumps None (PDict [(key, PDatetime d)])
        = Raise (TypeError "Object of type datetime is not JSON serializable")
        /\ canonicalize (PDict [(key, PDatetime d)])
           = Ok (PDict [(key, PStr (isoformat d))])).
Proof.
  intros s model data u e Hclean _ Hid Htyped st1 Hc1 Hdump.
  destruct (create_record_after_row_commit s model data u Hclean
              (well_typed_hasattr _ _ Htyped) Hc1)
    as (new_record & _ & Hrun).
  fold st1 in Hrun. rewrite Hdump, (is_column_hasattr _ _ Hid) in Hrun.
  repeat split; [exact Hrun].
Qed.

Lemma create_record_skips_json_serial_witness :
  fst (create_record AmenitiesDbModel
         [("name", PStr "Gym"); ("created_by_user", PInt 8);
          ("created_at", PDatetime epoch)] 8 declared_session)
  = Raise (HTTPException 500
             "Error creating record: Object of type datetime is not JSON serializable")
  /\
  audit_logs
    (database
       (snd (create_record AmenitiesDbModel
               [("name", PStr "Gym"); ("created_by_user", PInt 8);
                ("created_at", PDatetime epoch)] 8 declared_session)))
  = []
  /\
  map (fun r => getattr r "name")
    (table_rows
       (database
          (snd (create_record AmenitiesDbModel
                  [("name", PStr "Gym"); ("created_by_user", PInt 8);
                   ("created_at", PDatetime epoch)] 8 declared_session)))
       "amenities")
  = [PStr "Pool"; PStr "Gym"]
  /\
  map new_values
    (audit_logs
       (database
          (snd (update_record AmenitiesDbModel 1
                  [("name", PStr "Gym"); ("created_by_user", PInt 8);
                   ("created_at", PDatetime epoch)] 8 declared_session))))
  = [JObject [("name", JString "Gym"); ("created_by_user", JNumber 8);
              ("created_at", JString "2024-01-01T00:00:00")]].
Proof.
  destruct (create_record_skips_json_serial declared_session AmenitiesDbModel
              [("name", PStr "Gym"); ("created_by_user", PInt 8);
               ("created_at", PDatetime epoch)] 8
              (TypeError "Object of type datetime is not JSON serializable")
              eq_refl ltac:(discriminate) eq_refl eq_refl eq_refl eq_refl)
    as [[Hrun _] _].
  rewrite Hrun. repeat split.
Defined.

(* ================================================================== *)
(** * Further properties of the code *)
(* ================================================================== *)


(** ** Inserting: generated keys *)

Section Insert.

Lemma max_id_bound (ids : list pyvalue) (n : Z) :
  In (PInt n) ids ->
  n <= fold_right (fun v acc => match v with PInt k => Z.max k acc | _ => acc end)
         0 ids.
Proof.
  induction ids as [| v ids IH]; intros Hin; [destruct Hin |].
  cbn [fold_right]. destruct Hin as [-> | Hin].
  - lia.
  - specialize (IH Hin). destruct v; lia.
Qed.

(** The generated key is carried by no row already in the table. *)
Lemma next_id_fresh (rows : list row) (r : row) :
  In r rows ->
  pyvalue_eqb (getattr r "id")
    (PInt (next_id (map (fun x => getattr x "id") rows))) = false.
Proof.
  intros Hin.
  destruct (getattr r "id") as [| b | n | s | l | d | d | n] eqn:E;
    try reflexivity.
  cbn [pyvalue_eqb]. apply Z.eqb_neq. unfold next_id.
  assert (Hn : In (PInt n) (map (fun x => getattr x "id") rows)).
  { apply in_map_iff. exists r. auto. }
  pose proof (max_id_bound _ _ Hn). lia.
Qed.

Lemma filter_none {A} (p : A -> bool) (l : list A) :
  (forall x, In x l -> p x = false) -> filter p l = [].
Proof.
  induction l as [| x l IH]; intros H; [reflexivity |].
  cbn [filter]. rewrite (H x) by now left.
  apply IH. intros y Hy. apply H. now right.
Qed.

Lemma insert_row_generated_id (clock : datetime) (m : Model) (data : pydict)
  (rows : list row) :
  keyed m = true ->
  lookup "id" data = None ->
  getattr (insert_row clock m data rows) "id"
  = PInt (next_id (map (fun x => getattr x "id") rows)).
Proof.
  intros Hkeyed Hnoid. destruct (keyed_facts _ Hkeyed) as (Hcol & Hplain & _).
  unfold insert_row. rewrite Hcol.
  assert (Hnone :
    getattr (map (fun c => (c_name c,
                            match lookup (c_name c) data with
                            | Some PNone | None => default_value clock (c_default c)
                            | Some v => v
                            end)) (columns m)) "id" = PNone).
  { unfold getattr. clear Hcol.
    induction (columns m) as [| c cs IH]; [reflexivity |].
    cbn [map lookup].
    destruct (String.eqb_spec "id" (c_name c)) as [E | E].
    - rewrite <- E, Hnoid.
      rewrite (Hplain c) by (now left || now symmetry). reflexivity.
    - apply IH. intros c' Hin. apply Hplain. now right. }
  rewrite Hnone. apply getattr_set_attr_same.
Qed.

(** Reloading the row just inserted under a generated key finds that
    row and no other. *)
Lemma filter_inserted (rows : list row) (r : row) :
  getattr r "id" = PInt (next_id (map (fun x => getattr x "id") rows)) ->
  filter (col_eq "id" (getattr r "id")) (rows ++ [r]) = [r].
Proof.
  intros Hid. rewrite filter_app.
  rewrite (filter_none (col_eq "id" (getattr r "id")) rows).
  - cbn [filter app]. unfold col_eq. now rewrite pyvalue_eqb_refl.
  - intros x Hx. unfold col_eq. rewrite Hid. now apply next_id_fresh.
Qed.

(** [create_record] on a payload without a key, step by step: the
    outcome follows the two commits. *)
Lemma create_record_run (s : Session) (model : Model) (data : pydict)
  (current_user_id : Z) (j : json) :
  unit_of_work s = [] ->
  forallb (fun kv => hasattr model (fst kv)) data = true ->
  keyed model = true ->
  lookup "id" data = None ->
  json_dumps None (PDict data) = Ok j ->
  let rows := table_rows (database s) (tablename model) in
  let new_record := insert_row (now s) model data rows in
  let st1 := fst (flush (now s) [Insert model data] (database s)) in
  let st2 :=
    mk_store (tables st1)
      (audit_logs (database s)
       ++ [mk_audit (next_id (map (fun a => PInt (audit_id a))
                                (audit_logs (database s))))
             (tablename model) (getattr new_record "id")
             current_user_id (JObject []) j (now s)]) in
  create_record model data current_user_id s
  = if constraints s st1
    then if constraints s st2
         then (Ok new_record, mk_session (constraints s) (now s) st2 [])
         else (Raise (HTTPException 500 "Error creating record: constraint failed"),
               mk_session (constraints s) (now s) st1 [])
    else (Raise (HTTPException 500 "Error creating record: constraint failed"),
          mk_session (constraints s) (now s) (database s) []).
Proof.
  intros Hclean Hattrs Hkeyed Hnoid Hdump rows new_record st1 st2.
  pose proof (insert_row_generated_id (now s) model data rows Hkeyed Hnoid) as Hid.
  destruct (keyed_facts _ Hkeyed) as (Hcol & _ & _).
  fold new_record in Hid. subst st2 st1. cbn [flush apply_pending fst tables].
  unfold create_record, try_except, bind, construct.
  rewrite (find_none_forallb _ _ Hattrs). cbn [ret].
  unfold db_pend. rewrite Hclean. cbn [app].
  unfold db_commit.
  cbn [now constraints database unit_of_work flush apply_pending app].
  fold rows. fold new_record.
  match goal with
  | |- context [if constraints s ?st then _ else _] =>
      destruct (constraints s st) eqn:Hc1
  end; [| reflexivity].
  cbn [last].
  unfold db_refresh, bind. rewrite query_first_single. cbn [database].
  rewrite table_rows_set_table.
  rewrite (filter_inserted rows new_record Hid). cbn [hd_error ret].
  unfold read_attr. rewrite (is_column_hasattr _ _ Hcol). cbn [ret].
  unfold add_audit_log, bind.
  change (json_dumps None (PDict [])) with (@Ok json (JObject [])).
  rewrite Hdump. cbn [lift ret].
  unfold db_pend, db_commit.
  cbn [now constraints database unit_of_work app flush apply_pending
         audit_logs tables].
  match goal with
  | |- context [if constraints s ?st then _ else _] =>
      destruct (constraints s st)
  end; reflexivity.
Qed.

End Insert.

(** ** Updating and deleting, step by step *)

Section Runs.

(** [update_record] on a mapping of columns, step by step: the outcome
    follows the two commits. *)
Lemma update_record_run (s : Session) (model : Model) (record_id : Z)
  (data : pydict) (current_user_id : Z) (record : row)
  (old_json new_json : json) :
  unit_of_work s = [] ->
  keyed model = true ->
  hd_error (filter (col_eq "id" (PInt record_id))
              (table_rows (database s) (tablename model))) = Some record ->
  forallb (fun kv => is_column model (fst kv)) data = true ->
  NoDup (map fst data) ->
  json_dumps (Some json_serial) (PDict (snapshot model record)) = Ok old_json ->
  json_dumps (Some json_serial) (PDict data) = Ok new_json ->
  let st1 :=
    fst (flush (now s) [Update model (PInt record_id) data] (database s)) in
  let st2 :=
    mk_store (tables st1)
      (audit_logs (database s)
       ++ [mk_audit (next_id (map (fun a => PInt (audit_id a))
                                (audit_logs (database s))))
             (tablename model) (PInt record_id) current_user_id
             old_json new_json (now s)]) in
  exists updated : row,
    In updated (table_rows st1 (tablename model)) /\
    (lookup "id" data = None ->
     updated = update_row (now s) model data record) /\
    update_record model record_id data current_user_id s
    = if constraints s st1
      then if constraints s st2
           then (Ok updated, mk_session (constraints s) (now s) st2 [])
           else (Raise (HTTPException 500
                          "Error updating record: constraint failed"),
                 mk_session (constraints s) (now s) st1 [])
      else (Raise (HTTPException 500 "Error updating record: constraint failed"),
            mk_session (constraints s) (now s) (database s) []).
Proof.
  intros Hclean Hkeyed Hrec Hcols Hnd Hold Hnew st1 st2.
  destruct (keyed_facts _ Hkeyed) as (Hidcol & _ & Hplain).
  destruct (assign_columns_run _ _ Hcols) as (written & Hassign & Hwrites & Hnone).
  assert (Hid : getattr record "id" = PInt record_id).
  { apply pyvalue_eqb_int_r. apply (hd_error_filter_holds _ _ _ Hrec). }
  pose proof (hd_error_in _ _ Hrec) as Hin. apply filter_In in Hin.
  destruct Hin as [Hin _].
  subst st2 st1. cbn [flush apply_pending fst tables].
  set (rows := table_rows (database s) (tablename model)) in *.
  set (f := fun r : row =>
              if pyvalue_eqb (getattr r "id") (PInt record_id)
              then update_row (now s) model data r else r).
  destruct (hd_error_filter_found (col_eq "id" (pk_after record_id data))
              (map f rows) (f record)) as [updated Hupd].
  { now apply in_map. }
  { unfold f. rewrite Hid, pyvalue_eqb_refl.
    now apply updated_row_answers. }
  exists updated. split; [| split].
  - rewrite table_rows_set_table.
    pose proof (hd_error_in _ _ Hupd) as Hu. apply filter_In in Hu. tauto.
  - intros Hnoid. unfold pk_after in Hupd. rewrite Hnoid in Hupd.
    rewrite hd_error_filter_map in Hupd.
    + fold rows in Hrec. rewrite Hrec in Hupd. cbn [option_map] in Hupd.
      inversion Hupd as [Hf]. unfold f. now rewrite Hid, pyvalue_eqb_refl.
    + intros x. unfold col_eq, f.
      destruct (pyvalue_eqb (getattr x "id") (PInt record_id)) eqn:E;
        [| exact E].
      now rewrite update_row_keeps_id.
  - unfold update_record, try_except, bind.
    rewrite query_first_single. fold rows. rewrite Hrec.
    unfold canonicalize. rewrite Hold, Hnew, Hassign. cbn [lift ret].
    rewrite Hwrites, Hnone. cbn [map].
    unfold db_pend, db_pend_all.
    cbn [now constraints database unit_of_work].
    rewrite Hclean, Hid. cbn [app].
    unfold db_commit.
    cbn [now constraints database unit_of_work flush apply_pending].
    fold rows. fold f.
    match goal with
    | |- context [if constraints s ?st then _ else _] =>
        destruct (constraints s st) eqn:Hc1
    end; [| reflexivity].
    unfold db_refresh, bind.
    rewrite query_first_single. cbn [database].
    rewrite table_rows_set_table. rewrite Hupd. cbn [ret].
    unfold add_audit_log, bind. rewrite !json_dumps_loads. cbn [lift ret].
    unfold db_pend, db_commit.
    cbn [now constraints database unit_of_work app flush apply_pending
           audit_logs tables].
    match goal with
    | |- context [if constraints s ?st then _ else _] =>
        destruct (constraints s st)
    end; reflexivity.
Qed.

(** The unit of work leaves the audit log to [add_audit_log]. *)
Lemma detach_audit_logs (clock : datetime) (pk : pyvalue)
  (children : list (string * string)) (st : store) :
  audit_logs (fold_left (detach clock pk) children st) = audit_logs st.
Proof.
  revert st. induction children as [| c cs IH]; intros st; [reflexivity |].
  cbn [fold_left]. rewrite IH. unfold detach.
  now destruct (lookup (fst c) (tables st)).
Qed.

(** [delete_record], step by step: the outcome follows the two commits. *)
Lemma delete_record_run (s : Session) (model : Model) (record_id : Z)
  (current_user_id : Z) (record : row) (old_json : json) :
  unit_of_work s = [] ->
  hd_error (filter (col_eq "id" (PInt record_id))
              (table_rows (database s) (tablename model))) = Some record ->
  json_dumps (Some json_serial) (PDict (snapshot model record)) = Ok old_json ->
  let st1 := fst (flush (now s) [Delete model (PInt record_id)] (database s)) in
  let st2 :=
    mk_store (tables st1)
      (audit_logs (database s)
       ++ [mk_audit (next_id (map (fun a => PInt (audit_id a))
                                (audit_logs (database s))))
             (tablename model) (PInt record_id) current_user_id
             old_json (JObject []) (now s)]) in
  delete_record model record_id current_user_id s
  = if constraints s st1
    then if constraints s st2
         then (Ok (PDict [("message", PStr "record deleted successfully")]),
               mk_session (constraints s) (now s) st2 [])
         else (Raise (HTTPException 500 "Error deleting record: constraint failed"),
               mk_session (constraints s) (now s) st1 [])
    else (Raise (HTTPException 500 "Error deleting record: constraint failed"),
          mk_session (constraints s) (now s) (database s) []).
Proof.
  intros Hclean Hrec Hold st1 st2.
  assert (Hid : getattr record "id" = PInt record_id).
  { apply pyvalue_eqb_int_r. apply (hd_error_filter_holds _ _ _ Hrec). }
  subst st2 st1. cbn [flush apply_pending fst tables].
  unfold delete_record, try_except, bind.
  rewrite query_first_single, Hrec.
  unfold canonicalize. rewrite Hold. cbn [lift ret].
  unfold db_pend. rewrite Hclean, Hid. cbn [app].
  unfold db_commit.
  cbn [now constraints database unit_of_work flush apply_pending].
  match goal with
  | |- context [if constraints s ?st then _ else _] =>
      destruct (constraints s st) eqn:Hc1
  end; [| reflexivity].
  unfold add_audit_log, bind. rewrite json_dumps_loads.
  change (json_dumps None (PDict [])) with (@Ok json (JObject [])).
  cbn [lift ret].
  unfold db_pend, db_commit.
  cbn [now constraints database unit_of_work app flush apply_pending
         audit_logs tables].
  rewrite detach_audit_logs.
  match goal with
  | |- context [if constraints s ?st then _ else _] =>
      destruct (constraints s st)
  end; reflexivity.
Qed.

End Runs.

(** ** What [create_record] leaves behind *)

Section Tables.

Lemma lookup_set_table_other (t t' : string) (rs : list row)
  (ts : list (string * list row)) :
  t <> t' -> lookup t (set_table t' rs ts) = lookup t ts.
Proof.
  intros Hne. apply String.eqb_neq in Hne.
  induction ts as [| [t0 rs0] ts IH]; cbn [set_table lookup].
  - now rewrite Hne.
  - destruct (String.eqb t' t0) eqn:E; cbn [lookup].
    + apply String.eqb_eq in E. subst t0. now rewrite Hne.
    + now rewrite IH.
Qed.

(** Writing one table leaves the others alone. *)
Lemma table_rows_set_table_other (t t' : string) (rs : list row) (st : store)
  (logs : list AuditLog) :
  t <> t' ->
  table_rows (mk_store (set_table t' rs (tables st)) logs) t = table_rows st t.
Proof.
  intros Hne. unfold table_rows. cbn [tables].
  now rewrite lookup_set_table_other.
Qed.

(** An inserted row holds, in every column the payload names, the value
    given, unless that is [None]. *)
Lemma getattr_insert_row (clock : datetime) (m : Model) (data : pydict)
  (rows : list row) (k : string) (v : pyvalue) :
  lookup k data = Some v ->
  v <> PNone ->
  is_column m k = true ->
  k <> "id" ->
  getattr (insert_row clock m data rows) k = v.
Proof.
  intros Hl Hv Hcol Hne. unfold insert_row.
  assert (Hr :
    getattr (map (fun c => (c_name c,
                            match lookup (c_name c) data with
                            | Some PNone | None => default_value clock (c_default c)
                            | Some v => v
                            end)) (columns m)) k = v).
  { unfold is_column, column_names, mem in Hcol. unfold getattr.
    induction (columns m) as [| c cs IH]; [discriminate Hcol |].
    cbn [map existsb] in Hcol. cbn [map lookup].
    destruct (String.eqb_spec k (c_name c)) as [E | E].
    - rewrite <- E, Hl. destruct v; congruence.
    - cbn [orb] in Hcol. now apply IH. }
  apply String.eqb_neq in Hne.
  destruct (is_column m "id"); [| exact Hr].
  destruct (getattr _ "id"); try exact Hr.
  now rewrite getattr_set_attr_other.
Qed.

Lemma filter_true {A} (l : list A) : filter (fun _ => true) l = l.
Proof.
  induction l as [| x l IH]; [reflexivity |]. cbn [filter]. now rewrite IH.
Qed.

(** The keys of a typed mapping, one by one. *)
Lemma well_typed_lookup (m : Model) (data : pydict) (k : string) (v : pyvalue) :
  well_typed m data = true -> lookup k data = Some v -> is_column m k = true.
Proof.
  intros Htyped Hl. pose proof (well_typed_columns _ _ Htyped) as Hcols.
  rewrite forallb_forall in Hcols.
  apply (Hcols (k, v)). now apply lookup_in.
Qed.

End Tables.

(** X1.  A successful [create_record] for a model keyed by [id], on a
    typed payload without the key: once the plain [json.dumps] accepts the
    payload and the database accepts the two commits, the row returned is
    the row inserted; it carries a generated key that no row of the table
    had and holds in every column the payload names the value given ([None]
    apart, which leaves the column to its default); it is appended to its
    table and no other table changes; the audit log grows
    by exactly one entry, with an empty [old_values], the payload as
    [new_values], the new key as [record_id] and the caller as
    [changed_by]. *)
Theorem create_record_success :
  forall (s : Session) (model : Model) (data : pydict) (current_user_id : Z)
         (j : json),
    unit_of_work s = [] ->
    tablename model <> "audit_logs" ->
    keyed model = true ->
    well_typed model data = true ->
    lookup "id" data = None ->
    json_dumps None (PDict data) = Ok j ->
    let rows := table_rows (database s) (tablename model) in
    let new_record := insert_row (now s) model data rows in
    let st1 := fst (flush (now s) [Insert model data] (database s)) in
    let entry :=
      mk_audit (next_id (map (fun a => PInt (audit_id a))
                           (audit_logs (database s))))
        (tablename model) (getattr new_record "id") current_user_id
        (JObject []) j (now s) in
    let st2 := mk_store (tables st1) (audit_logs (database s) ++ [entry]) in
    constraints s st1 = true ->
    constraints s st2 = true ->
    exists s' : Session,
      create_record model data current_user_id s = (Ok new_record, s') /\
      (forall r, In r rows ->
                 pyvalue_eqb (getattr r "id") (getattr new_record "id") = false) /\
      (forall k v, lookup k data = Some v -> v <> PNone ->
                   getattr new_record k = v) /\
      table_rows (database s') (tablename model) = (rows ++ [new_record])%list /\
      (forall t, t <> tablename model ->
                 table_rows (database s') t = table_rows (database s) t) /\
      audit_logs (database s') = (audit_logs (database s) ++ [entry])%list /\
      unit_of_work s' = [].
Proof.
  intros s model data u j Hclean _ Hkeyed Htyped Hnoid Hdump
         rows new_record st1 entry st2 Hc1 Hc2.
  pose proof (create_record_run s model data u j Hclean
                (well_typed_hasattr _ _ Htyped) Hkeyed Hnoid Hdump) as Hrun.
  cbv zeta in Hrun. fold rows in Hrun. fold new_record in Hrun.
  fold st1 in Hrun. fold entry in Hrun. fold st2 in Hrun.
  rewrite Hc1, Hc2 in Hrun.
  eexists. split; [exact Hrun |].
  cbn [database unit_of_work audit_logs tables].
  pose proof (insert_row_generated_id (now s) model data rows Hkeyed Hnoid) as Hid.
  fold new_record in Hid.
  subst st2 st1. cbn [flush apply_pending fst tables].
  fold rows. fold new_record.
  split; [| split; [| split; [| split; [| split]]]].
  - intros r Hin. rewrite Hid. now apply next_id_fresh.
  - intros k v Hl Hv. apply getattr_insert_row.
    + exact Hl.
    + exact Hv.
    + exact (well_typed_lookup _ _ _ _ Htyped Hl).
    + intros ->. congruence.
  - apply table_rows_set_table.
  - intros t Hne. now apply table_rows_set_table_other.
  - reflexivity.
  - reflexivity.
Qed.

Lemma create_record_success_witness :
  exists (new_record : row) (s' : Session),
    create_record AmenitiesDbModel
      [("name", PStr "Gym"); ("description", PStr "Indoor");
       ("created_by_user", PInt 8)] 8 declared_session
    = (Ok new_record, s') /\
    getattr new_record "id" = PInt 2 /\
    getattr new_record "name" = PStr "Gym" /\
    table_rows (database s') "amenities"
    = [amenity_row 1 "Pool" "Outdoor" 8; new_record] /\
    map (fun a => (record_id a, changed_by a, old_values a, new_values a))
      (audit_logs (database s'))
    = [(PInt 2, 8, JObject [],
        JObject [("name", JString "Gym"); ("description", JString "Indoor");
                 ("created_by_user", JNumber 8)])].
Proof.
  destruct (create_record_success declared_session AmenitiesDbModel
              [("name", PStr "Gym"); ("description", PStr "Indoor");
               ("created_by_user", PInt 8)] 8
              (JObject [("name", JString "Gym"); ("description", JString "Indoor");
                        ("created_by_user", JNumber 8)])
              eq_refl ltac:(discriminate) eq_refl eq_refl eq_refl eq_refl
              eq_refl eq_refl)
    as (s' & Hrun & _ & Hval & Hrows & _ & Hlog & _).
  eexists. exists s'. split; [exact Hrun |].
  split; [reflexivity |]. split; [apply Hval; [reflexivity | discriminate] |].
  split; [exact Hrows |]. rewrite Hlog. reflexivity.
Defined.

(** X2.  A payload key the model class does not have (a name of printable
    characters without quote or backslash that does not begin with an
    underscore), after keys that name columns,
    is refused by the constructor; [create_record] turns that into a 500
    naming the key, writes nothing and leaves no pending work in the
    session, whatever the keys after it. *)
Theorem create_record_unknown_keyword :
  forall (s : Session) (model : Model) (pre post : pydict) (key : string)
         (value : pyvalue) (current_user_id : Z),
    forallb (fun kv => is_column model (fst kv)) pre = true ->
    hasattr model key = false ->
    plain_text key = true ->
    private_name key = false ->
    create_record model (pre ++ (key, value) :: post)%list current_user_id s
    = (Raise (HTTPException 500
                ("Error creating record: '" ++ key
                 ++ "' is an invalid keyword argument for " ++ classname model)),
       mk_session (constraints s) (now s) (database s) []).
Proof.
  intros s model pre post key value u Hpre Hno _ _.
  assert (Hfind : find (fun kv => negb (hasattr model (fst kv)))
                    (pre ++ (key, value) :: post)%list = Some (key, value)).
  { induction pre as [| [k v] rest IH].
    - cbn [app find fst]. now rewrite Hno.
    - cbn [forallb fst] in Hpre. apply andb_prop in Hpre.
      destruct Hpre as [Hk Hrest].
      cbn [app find fst]. rewrite (is_column_hasattr _ _ Hk). cbn [negb].
      now apply IH. }
  unfold create_record, try_except, bind, construct. rewrite Hfind.
  reflexivity.
Qed.

Lemma create_record_unknown_keyword_witness :
  create_record AmenitiesDbModel
    [("name", PStr "Gym"); ("colour", PStr "red"); ("created_by_user", PInt 8)]
    8 declared_session
  = (Raise (HTTPException 500
              ("Error creating record: 'colour' is an invalid keyword "
               ++ "argument for AmenitiesDbModel")),
     declared_session).
Proof.
  exact (create_record_unknown_keyword declared_session AmenitiesDbModel
           [("name", PStr "Gym")] [("created_by_user", PInt 8)]
           "colour" (PStr "red") 8 eq_refl eq_refl eq_refl eq_refl).
Defined.

(** X3.  When the database refuses the INSERT itself, [create_record]
    answers 500 and nothing is written: neither the row nor an audit
    entry, and the session holds no pending work. *)
Theorem create_record_rejected_insert :
  forall (s : Session) (model : Model) (data : pydict) (current_user_id : Z),
    unit_of_work s = [] ->
    forallb (fun kv => hasattr model (fst kv)) data = true ->
    constraints s (fst (flush (now s) [Insert model data] (database s))) = false ->
    exists detail : string,
      create_record model data current_user_id s
      = (Raise (HTTPException 500 detail),
         mk_session (constraints s) (now s) (database s) []).
Proof.
  intros s model data u Hclean Hattrs Hrej.
  cbn [flush apply_pending fst] in Hrej.
  eexists.
  unfold create_record, try_except, bind, construct.
  rewrite (find_none_forallb _ _ Hattrs). cbn [ret].
  unfold db_pend. rewrite Hclean. cbn [app].
  unfold db_commit.
  cbn [now constraints database unit_of_work flush apply_pending app].
  rewrite Hrej. reflexivity.
Qed.

Lemma create_record_rejected_insert_witness :
  exists detail : string,
    create_record AmenitiesDbModel
      [("name", PStr "Pool"); ("created_by_user", PInt 8)] 8 declared_session
    = (Raise (HTTPException 500 detail), declared_session).
Proof.
  exact (create_record_rejected_insert declared_session AmenitiesDbModel
           [("name", PStr "Pool"); ("created_by_user", PInt 8)] 8
           eq_refl eq_refl eq_refl).
Defined.

(** X4.  What [create_record] returned can be read back: in the session
    it leaves, [fetch_record] on the new key answers with the very row
    returned, and [fetch_all_records] lists that row and the rows the table
    had, and no other. *)
Theorem create_then_fetch :
  forall (s : Session) (model : Model) (data : pydict) (current_user_id : Z)
         (j : json),
    unit_of_work s = [] ->
    tablename model <> "audit_logs" ->
    keyed model = true ->
    well_typed model data = true ->
    lookup "id" data = None ->
    json_dumps None (PDict data) = Ok j ->
    let rows := table_rows (database s) (tablename model) in
    let new_record := insert_row (now s) model data rows in
    let st1 := fst (flush (now s) [Insert model data] (database s)) in
    let entry :=
      mk_audit (next_id (map (fun a => PInt (audit_id a))
                           (audit_logs (database s))))
        (tablename model) (getattr new_record "id") current_user_id
        (JObject []) j (now s) in
    let st2 := mk_store (tables st1) (audit_logs (database s) ++ [entry]) in
    constraints s st1 = true ->
    constraints s st2 = true ->
    exists (s' : Session) (all : list row),
      create_record model data current_user_id s = (Ok new_record, s') /\
      fetch_record model [("id", getattr new_record "id")] s'
      = (Ok new_record, s') /\
      fetch_all_records model s' = (Ok all, s') /\
      (forall r, In r all <-> In r rows \/ r = new_record).
Proof.
  intros s model data u j Hclean _ Hkeyed Htyped Hnoid Hdump
         rows new_record st1 entry st2 Hc1 Hc2.
  pose proof (create_record_run s model data u j Hclean
                (well_typed_hasattr _ _ Htyped) Hkeyed Hnoid Hdump) as Hrun.
  cbv zeta in Hrun. fold rows in Hrun. fold new_record in Hrun.
  fold st1 in Hrun. fold entry in Hrun. fold st2 in Hrun.
  rewrite Hc1, Hc2 in Hrun.
  pose proof (insert_row_generated_id (now s) model data rows Hkeyed Hnoid) as Hid.
  fold new_record in Hid.
  destruct (keyed_facts _ Hkeyed) as (Hcol & _ & _).
  eexists. exists (rows ++ [new_record])%list.
  split; [exact Hrun |].
  subst st2 st1. cbn [flush apply_pending fst tables].
  fold rows. fold new_record.
  split; [| split].
  - unfold fetch_record, try_except, bind.
    cbn [build_filters]. rewrite (is_column_hasattr _ _ Hcol).
    unfold filter_clause. rewrite Hcol. cbn [lift ret].
    rewrite query_all_single. cbn [database].
    rewrite table_rows_set_table.
    now rewrite (filter_inserted _ _ Hid).
  - unfold fetch_all_records, query_all. cbn [database forallb].
    rewrite table_rows_set_table. now rewrite filter_true.
  - intros r. rewrite in_app_iff. cbn [In]. intuition.
Qed.

Lemma create_then_fetch_witness :
  exists (new_record : row) (s' : Session),
    create_record RolesDbModel [("name", PStr "auditor")] 7 declared_session
    = (Ok new_record, s') /\
    fetch_record RolesDbModel [("id", PInt 4)] s' = (Ok new_record, s').
Proof.
  destruct (create_then_fetch declared_session RolesDbModel
              [("name", PStr "auditor")] 7 (JObject [("name", JString "auditor")])
              eq_refl ltac:(discriminate) eq_refl eq_refl eq_refl eq_refl
              eq_refl eq_refl)
    as (s' & all & Hrun & Hfetch & _).
  eexists. exists s'. split; [exact Hrun | exact Hfetch].
Defined.

(** ** What [update_record] and [delete_record] leave behind *)

(** X5.  A successful [delete_record] on a row of a model keyed by [id]
    that has no collection of dependent rows: once the snapshot serializes
    and the database accepts the two commits, the table holds exactly the
    rows that do not carry the key, no other table changes, the audit log
    has grown by one entry whose [old_values] is the snapshot of the
    deleted row and whose [new_values] is empty, and [fetch_record] on the
    key answers 404. *)
Theorem delete_record_success :
  forall (s : Session) (model : Model) (record_id : Z) (current_user_id : Z)
         (record : row) (old_json : json),
    unit_of_work s = [] ->
    tablename model <> "audit_logs" ->
    keyed model = true ->
    collections model = [] ->
    hd_error (filter (col_eq "id" (PInt record_id))
                (table_rows (database s) (tablename model))) = Some record ->
    json_dumps (Some json_serial) (PDict (snapshot model record)) = Ok old_json ->
    let st1 := fst (flush (now s) [Delete model (PInt record_id)] (database s)) in
    let entry :=
      mk_audit (next_id (map (fun a => PInt (audit_id a))
                           (audit_logs (database s))))
        (tablename model) (PInt record_id) current_user_id
        old_json (JObject []) (now s) in
    let st2 := mk_store (tables st1) (audit_logs (database s) ++ [entry]) in
    constraints s st1 = true ->
    constraints s st2 = true ->
    exists s' : Session,
      delete_record model record_id current_user_id s
      = (Ok (PDict [("message", PStr "record deleted successfully")]), s') /\
      (forall r, In r (table_rows (database s') (tablename model)) <->
                 In r (table_rows (database s) (tablename model)) /\
                 getattr r "id" <> PInt record_id) /\
      (forall t, t <> tablename model ->
                 table_rows (database s') t = table_rows (database s) t) /\
      audit_logs (database s') = (audit_logs (database s) ++ [entry])%list /\
      fetch_record model [("id", PInt record_id)] s'
      = (Raise (HTTPException 404 "Record not found"), s').
Proof.
  intros s model record_id u record old_json Hclean _ Hkeyed Hnone Hrec Hold
         st1 entry st2 Hc1 Hc2.
  pose proof (delete_record_run s model record_id u record old_json
                Hclean Hrec Hold) as Hrun.
  cbv zeta in Hrun. fold st1 in Hrun. fold entry in Hrun. fold st2 in Hrun.
  rewrite Hc1, Hc2 in Hrun.
  destruct (keyed_facts _ Hkeyed) as (Hcol & _ & _).
  eexists. split; [exact Hrun |].
  subst st2 st1. cbn [flush apply_pending fst]. rewrite Hnone.
  cbn [fold_left database audit_logs tables].
  assert (Hiff : forall r : row,
             negb (pyvalue_eqb (getattr r "id") (PInt record_id)) = true
             <-> getattr r "id" <> PInt record_id).
  { intros r. rewrite negb_true_iff. split.
    - intros Hf Heq. rewrite Heq, pyvalue_eqb_refl in Hf. discriminate.
    - intros Hne. destruct (pyvalue_eqb _ _) eqn:E; [| reflexivity].
      apply pyvalue_eqb_eq in E. contradiction. }
  split; [| split; [| split]].
  - intros r. rewrite table_rows_set_table, filter_In, Hiff. reflexivity.
  - intros t Hne. now apply table_rows_set_table_other.
  - reflexivity.
  - unfold fetch_record, try_except, bind.
    cbn [build_filters]. rewrite (is_column_hasattr _ _ Hcol).
    unfold filter_clause. rewrite Hcol. cbn [lift ret].
    rewrite query_all_single. cbn [database].
    rewrite table_rows_set_table.
    rewrite filter_none; [reflexivity |].
    intros x Hx. apply filter_In in Hx. destruct Hx as [_ Hx].
    unfold col_eq. now apply negb_true_iff in Hx.
Qed.

Lemma delete_record_success_witness :
  exists s' : Session,
    delete_record AmenitiesDbModel 1 8 declared_session
    = (Ok (PDict [("message", PStr "record deleted successfully")]), s') /\
    table_rows (database s') "users" = sample_users /\
    fetch_record AmenitiesDbModel [("id", PInt 1)] s'
    = (Raise (HTTPException 404 "Record not found"), s').
Proof.
  destruct (delete_record_success declared_session AmenitiesDbModel 1 8
              (amenity_row 1 "Pool" "Outdoor" 8)
              (JObject [("id", JNumber 1); ("name", JString "Pool");
                        ("description", JString "Outdoor");
                        ("created_by_user", JNumber 8);
                        ("created_at", JString "2024-01-01T00:00:00");
                        ("updated_at", JString "2024-01-01T00:00:00")])
              eq_refl ltac:(discriminate) eq_refl eq_refl eq_refl eq_refl
              eq_refl eq_refl)
    as (s' & Hrun & _ & Hother & _ & Hfetch).
  exists s'. split; [exact Hrun |]. split; [| exact Hfetch].
  apply (Hother "users"). discriminate.
Defined.

(** X6.  A successful [update_record] is a partial update.  For a row of
    a model keyed by [id] and a typed payload that does not name the key,
    once both payloads serialize and the database accepts the two commits:
    the row returned keeps its key and, columns stamped on update apart,
    holds the value written in every column the payload names and the old
    value in every column it does not name; it is a row of the table, the
    rows with another key stay as they were and the table keeps its number
    of rows. *)
Theorem update_record_partial :
  forall (s : Session) (model : Model) (record_id : Z) (data : pydict)
         (current_user_id : Z) (record : row) (old_json new_json : json),
    unit_of_work s = [] ->
    tablename model <> "audit_logs" ->
    keyed model = true ->
    hd_error (filter (col_eq "id" (PInt record_id))
                (table_rows (database s) (tablename model))) = Some record ->
    well_typed model data = true ->
    lookup "id" data = None ->
    NoDup (map fst data) ->
    json_dumps (Some json_serial) (PDict (snapshot model record)) = Ok old_json ->
    json_dumps (Some json_serial) (PDict data) = Ok new_json ->
    let st1 :=
      fst (flush (now s) [Update model (PInt record_id) data] (database s)) in
    let entry :=
      mk_audit (next_id (map (fun a => PInt (audit_id a))
                           (audit_logs (database s))))
        (tablename model) (PInt record_id) current_user_id
        old_json new_json (now s) in
    let st2 := mk_store (tables st1) (audit_logs (database s) ++ [entry]) in
    constraints s st1 = true ->
    constraints s st2 = true ->
    exists (updated : row) (s' : Session),
      update_record model record_id data current_user_id s = (Ok updated, s') /\
      getattr updated "id" = PInt record_id /\
      (forall k v,
          In (k, v) data ->
          (forall c, In c (columns model) -> c_name c = k ->
                     c_onupdate_now c = false) ->
          getattr updated k = v) /\
      (forall name,
          lookup name data = None ->
          (forall c, In c (columns model) -> c_name c = name ->
                     c_onupdate_now c = false) ->
          getattr updated name = getattr record name) /\
      In updated (table_rows (database s') (tablename model)) /\
      (forall r, In r (table_rows (database s) (tablename model)) ->
                 getattr r "id" <> PInt record_id ->
                 In r (table_rows (database s') (tablename model))) /\
      List.length (table_rows (database s') (tablename model))
      = List.length (table_rows (database s) (tablename model)).
Proof.
  intros s model record_id data u record old_json new_json
         Hclean _ Hkeyed Hrec Htyped Hnoid Hnd Hold Hnew st1 entry st2 Hc1 Hc2.
  pose proof (well_typed_columns _ _ Htyped) as Hcols.
  destruct (update_record_run s model record_id data u record old_json new_json
              Hclean Hkeyed Hrec Hcols Hnd Hold Hnew)
    as (updated & Hin1 & Hupd & Hrun).
  fold st1 in Hin1, Hrun. fold entry in Hrun. fold st2 in Hrun.
  rewrite Hc1, Hc2 in Hrun. specialize (Hupd Hnoid).
  destruct (keyed_facts _ Hkeyed) as (_ & _ & Hplain).
  assert (Hid : getattr record "id" = PInt record_id).
  { apply pyvalue_eqb_int_r. apply (hd_error_filter_holds _ _ _ Hrec). }
  pose proof (hd_error_in _ _ Hrec) as Hin. apply filter_In in Hin.
  destruct Hin as [Hin _].
  exists updated. eexists. split; [exact Hrun |].
  cbn [database]. subst st2. cbn [tables].
  assert (Hrows : forall logs,
             table_rows (mk_store (tables st1) logs) (tablename model)
             = map (fun r => if pyvalue_eqb (getattr r "id") (PInt record_id)
                             then update_row (now s) model data r else r)
                 (table_rows (database s) (tablename model))).
  { intros logs. subst st1. cbn [flush apply_pending fst tables].
    apply table_rows_set_table. }
  rewrite Hrows. rewrite Hupd.
  split; [| split; [| split; [| split; [| split]]]].
  - rewrite update_row_keeps_id by assumption. exact Hid.
  - intros k v Hk Hp. apply update_row_written; try assumption.
    rewrite forallb_forall in Hcols. exact (Hcols (k, v) Hk).
  - intros name Hl Hp. now apply update_row_untouched.
  - apply in_map_iff. exists record. split; [| exact Hin].
    now rewrite Hid, pyvalue_eqb_refl.
  - intros r Hr Hne. apply in_map_iff. exists r. split; [| exact Hr].
    destruct (pyvalue_eqb (getattr r "id") (PInt record_id)) eqn:E;
      [| reflexivity].
    apply pyvalue_eqb_eq in E. contradiction.
  - apply length_map.
Qed.

Lemma update_record_partial_witness :
  exists (updated : row) (s' : Session),
    update_record AmenitiesDbModel 1 [("description", PStr "Heated")] 8
      declared_session = (Ok updated, s') /\
    getattr updated "id" = PInt 1 /\
    getattr updated "description" = PStr "Heated" /\
    getattr updated "name" = PStr "Pool".
Proof.
  assert (Hplain : forall name, name = "name" \/ name = "description" ->
            forall c, In c (columns AmenitiesDbModel) -> c_name c = name ->
                      c_onupdate_now c = false).
  { intros name Hname c Hin Hc. cbn in Hin.
    repeat (destruct Hin as [<- | Hin];
            [reflexivity || (destruct Hname as [-> | ->]; discriminate Hc) |]).
    destruct Hin. }
  destruct (update_record_partial declared_session AmenitiesDbModel 1
              [("description", PStr "Heated")] 8
              (amenity_row 1 "Pool" "Outdoor" 8)
              (JObject [("id", JNumber 1); ("name", JString "Pool");
                        ("description", JString "Outdoor");
                        ("created_by_user", JNumber 8);
                        ("created_at", JString "2024-01-01T00:00:00");
                        ("updated_at", JString "2024-01-01T00:00:00")])
              (JObject [("description", JString "Heated")])
              eq_refl ltac:(discriminate) eq_refl eq_refl eq_refl eq_refl
              (NoDup_cons _ (fun H : In "description" [] => H) (NoDup_nil _))
              eq_refl eq_refl eq_refl eq_refl)
    as (r & s' & Hrun & Hid & Hw & Hu & _).
  exists r, s'. split; [exact Hrun |]. split; [exact Hid |]. split.
  - apply Hw; [now left | exact (Hplain _ (or_intror eq_refl))].
  - rewrite (Hu "name" eq_refl (Hplain _ (or_introl eq_refl))). reflexivity.
Defined.

(** X7.  When the database refuses the UPDATE (of a mapping of columns) or
    the DELETE itself, the call answers 500 and the database is as it was
    before the call: no row changed, no audit entry written, no pending
    work left. *)
Theorem rejected_change_leaves_database :
  forall (s : Session) (model : Model) (record_id : Z) (data : pydict)
         (current_user_id : Z) (record : row) (old_json : json),
    unit_of_work s = [] ->
    hd_error (filter (col_eq "id" (PInt record_id))
                (table_rows (database s) (tablename model))) = Some record ->
    json_dumps (Some json_serial) (PDict (snapshot model record)) = Ok old_json ->
    (forallb (fun kv => is_column model (fst kv)) data = true ->
     constraints s
       (fst (flush (now s) [Update model (PInt record_id) data] (database s)))
     = false ->
     exists detail : string,
       update_record model record_id data current_user_id s
       = (Raise (HTTPException 500 detail),
          mk_session (constraints s) (now s) (database s) []))
    /\
    (constraints s
       (fst (flush (now s) [Delete model (PInt record_id)] (database s)))
     = false ->
     exists detail : string,
       delete_record model record_id current_user_id s
       = (Raise (HTTPException 500 detail),
          mk_session (constraints s) (now s) (database s) [])).
Proof.
  intros s model record_id data u record old_json Hclean Hrec Hold.
  assert (Hid : getattr record "id" = PInt record_id).
  { apply pyvalue_eqb_int_r. apply (hd_error_filter_holds _ _ _ Hrec). }
  split.
  - intros Hcols Hrej.
    destruct (assign_columns_run _ _ Hcols) as (written & Hassign & Hwrites & Hnone).
    eexists.
    unfold update_record, try_except, bind.
    rewrite query_first_single, Hrec.
    unfold canonicalize. rewrite Hold, Hassign. cbn [lift ret].
    rewrite Hwrites, Hnone. cbn [map].
    unfold db_pend, db_pend_all.
    cbn [now constraints database unit_of_work].
    rewrite Hclean, Hid. cbn [app].
    unfold db_commit.
    cbn [now constraints database unit_of_work].
    destruct (flush (now s) [Update model (PInt record_id) data] (database s))
      as [st pks] eqn:Ef.
    cbn [fst] in Hrej. rewrite Hrej. reflexivity.
  - intros Hrej. eexists.
    unfold delete_record, try_except, bind.
    rewrite query_first_single, Hrec.
    unfold canonicalize. rewrite Hold. cbn [lift ret].
    unfold db_pend. rewrite Hclean, Hid. cbn [app].
    unfold db_commit.
    cbn [now constraints database unit_of_work].
    destruct (flush (now s) [Delete model (PInt record_id)] (database s))
      as [st pks] eqn:Ef.
    cbn [fst] in Hrej. rewrite Hrej. reflexivity.
Qed.

Lemma rejected_change_leaves_database_witness :
  (exists detail : string,
      update_record AmenitiesDbModel 1 [("created_by_user", PNone)] 8
        declared_session
      = (Raise (HTTPException 500 detail), declared_session))
  /\
  (exists detail : string,
      delete_record UserDbModel 8 7 declared_session
      = (Raise (HTTPException 500 detail), declared_session)).
Proof.
  split.
  - exact (proj1 (rejected_change_leaves_database declared_session
                    AmenitiesDbModel 1 [("created_by_user", PNone)] 8
                    (amenity_row 1 "Pool" "Outdoor" 8) _
                    eq_refl eq_refl eq_refl) eq_refl eq_refl).
  - exact (proj2 (rejected_change_leaves_database declared_session
                    UserDbModel 8 [] 7 (user_row 8 "adm@x" 2) _
                    eq_refl eq_refl eq_refl) eq_refl).
Defined.

(** X8.  The change and its audit entry are committed apart in
    [update_record] and [delete_record] too: when the database accepts the
    UPDATE (of a mapping of columns, on a model keyed by [id]) or the
    DELETE and then refuses the audit entry, the call answers 500 while
    the row stays updated (deleted) and no audit entry exists. *)
Theorem change_survives_failed_audit :
  forall (s : Session) (model : Model) (record_id : Z) (data : pydict)
         (current_user_id : Z) (record : row) (old_json new_json : json),
    unit_of_work s = [] ->
    tablename model <> "audit_logs" ->
    hd_error (filter (col_eq "id" (PInt record_id))
                (table_rows (database s) (tablename model))) = Some record ->
    json_dumps (Some json_serial) (PDict (snapshot model record)) = Ok old_json ->
    let aid := next_id (map (fun a => PInt (audit_id a))
                          (audit_logs (database s))) in
    let updated :=
      fst (flush (now s) [Update model (PInt record_id) data] (database s)) in
    let deleted :=
      fst (flush (now s) [Delete model (PInt record_id)] (database s)) in
    (keyed model = true ->
     forallb (fun kv => is_column model (fst kv)) data = true ->
     NoDup (map fst data) ->
     json_dumps (Some json_serial) (PDict data) = Ok new_json ->
     constraints s updated = true ->
     constraints s
       (mk_store (tables updated)
          (audit_logs (database s)
           ++ [mk_audit aid (tablename model) (PInt record_id) current_user_id
                 old_json new_json (now s)])) = false ->
     exists detail : string,
       update_record model record_id data current_user_id s
       = (Raise (HTTPException 500 detail),
          mk_session (constraints s) (now s) updated [])
       /\ audit_logs updated = audit_logs (database s))
    /\
    (constraints s deleted = true ->
     constraints s
       (mk_store (tables deleted)
          (audit_logs (database s)
           ++ [mk_audit aid (tablename model) (PInt record_id) current_user_id
                 old_json (JObject []) (now s)])) = false ->
     exists detail : string,
       delete_record model record_id current_user_id s
       = (Raise (HTTPException 500 detail),
          mk_session (constraints s) (now s) deleted [])
       /\ audit_logs deleted = audit_logs (database s)).
Proof.
  intros s model record_id data u record old_json new_json
         Hclean _ Hrec Hold aid updated deleted.
  split.
  - intros Hkeyed Hcols Hnd Hnew Hc1 Hc2.
    destruct (update_record_run s model record_id data u record old_json new_json
                Hclean Hkeyed Hrec Hcols Hnd Hold Hnew)
      as (row' & _ & _ & Hrun).
    fold updated in Hrun. fold aid in Hrun. rewrite Hc1, Hc2 in Hrun.
    eexists. split; [exact Hrun | reflexivity].
  - intros Hc1 Hc2.
    pose proof (delete_record_run s model record_id u record old_json
                  Hclean Hrec Hold) as Hrun.
    cbv zeta in Hrun. fold deleted in Hrun. fold aid in Hrun.
    rewrite Hc1, Hc2 in Hrun.
    eexists. split; [exact Hrun |].
    subst deleted. cbn [flush apply_pending fst audit_logs].
    apply detach_audit_logs.
Qed.

Lemma change_survives_failed_audit_witness :
  (exists detail : string,
      fst (update_record AmenitiesDbModel 1 [("description", PStr "Heated")] 99
             declared_session)
      = Raise (HTTPException 500 detail)
      /\ map (fun r => getattr r "description")
           (table_rows (database (snd (update_record AmenitiesDbModel 1
                                         [("description", PStr "Heated")] 99
                                         declared_session))) "amenities")
         = [PStr "Heated"]
      /\ audit_logs (database (snd (update_record AmenitiesDbModel 1
                                      [("description", PStr "Heated")] 99
                                      declared_session))) = [])
  /\
  (exists detail : string,
      fst (delete_record AmenitiesDbModel 1 99 declared_session)
      = Raise (HTTPException 500 detail)
      /\ table_rows (database (snd (delete_record AmenitiesDbModel 1 99
                                      declared_session))) "amenities" = []
      /\ audit_logs (database (snd (delete_record AmenitiesDbModel 1 99
                                      declared_session))) = []).
Proof.
  destruct (change_survives_failed_audit declared_session AmenitiesDbModel 1
              [("description", PStr "Heated")] 99
              (amenity_row 1 "Pool" "Outdoor" 8)
              (JObject [("id", JNumber 1); ("name", JString "Pool");
                        ("description", JString "Outdoor");
                        ("created_by_user", JNumber 8);
                        ("created_at", JString "2024-01-01T00:00:00");
                        ("updated_at", JString "2024-01-01T00:00:00")])
              (JObject [("description", JString "Heated")])
              eq_refl ltac:(discriminate) eq_refl eq_refl) as [Hu Hd].
  destruct (Hu eq_refl eq_refl
              (NoDup_cons _ (fun H : In "description" [] => H) (NoDup_nil _))
              eq_refl eq_refl eq_refl)
    as (du & Hru & _).
  destruct (Hd eq_refl eq_refl) as (dd & Hrd & _).
  split.
  - exists du. rewrite Hru. repeat split.
  - exists dd. rewrite Hrd. repeat split.
Defined.

(** ** No pending work, no other exception *)

Section Wrapper.

Lemma bind_ok_inv {A B} (m : M A) (k : A -> M B) (s s' : Session) (b : B) :
  bind m k s = (Ok b, s') ->
  exists a s1, m s = (Ok a, s1) /\ k a s1 = (Ok b, s').
Proof.
  unfold bind. destruct (m s) as [[a | e] s1]; [| discriminate].
  intros H. now exists a, s1.
Qed.

Lemma db_commit_ok_clean (s s' : Session) (pks : list pyvalue) :
  db_commit s = (Ok pks, s') -> unit_of_work s' = [].
Proof.
  unfold db_commit. destruct (flush _ _ _) as [st pks'].
  destruct (constraints s st); [| discriminate].
  intros H. inversion H. reflexivity.
Qed.

Lemma add_audit_log_ok_clean (t : string) (rid : pyvalue) (by_ : Z)
  (old new : pyvalue) (s s' : Session) (x : unit) :
  add_audit_log t rid by_ old new s = (Ok x, s') -> unit_of_work s' = [].
Proof.
  unfold add_audit_log. intros H.
  apply bind_ok_inv in H. destruct H as (jo & s1 & _ & H).
  apply bind_ok_inv in H. destruct H as (jn & s2 & _ & H).
  apply bind_ok_inv in H. destruct H as (u1 & s3 & _ & H).
  apply bind_ok_inv in H. destruct H as (pks & s4 & Hc & H).
  inversion H; subst. exact (db_commit_ok_clean _ _ _ Hc).
Qed.

(** The handler shared by the three mutations: roll back, answer 500. *)
Lemma try_except_500 {A} (body : M A) (msg : exn -> string)
  (s s' : Session) (e : exn) :
  try_except body
    (fun e => db_rollback ;; raise (HTTPException 500 (msg e))) s
  = (Raise e, s') ->
  (exists e0, e = HTTPException 500 (msg e0)) /\ unit_of_work s' = [].
Proof.
  unfold try_except. destruct (body s) as [[a | e0] s0]; [discriminate |].
  unfold bind, db_rollback, raise. intros H. inversion H; subst.
  split; [now exists e0 | reflexivity].
Qed.

Lemma try_except_ok {A} (body : M A) (handler : exn -> M A)
  (s s' : Session) (a : A) :
  (forall e s0, exists e', fst (handler e s0) = Raise e') ->
  try_except body handler s = (Ok a, s') -> body s = (Ok a, s').
Proof.
  intros Hh. unfold try_except. destruct (body s) as [[a0 | e0] s0].
  - auto.
  - intros H. destruct (Hh e0 s0) as [e' He']. rewrite H in He'. discriminate.
Qed.

End Wrapper.

(** X9.  Whatever the session, the model and the arguments, the three
    mutations return with no pending work left in the session, and the
    only exception they let out is an [HTTPException] with status 500:
    no 404, no database error and no [TypeError] ever reaches the caller
    as such. *)
Theorem mutations_raise_only_500 :
  forall (s : Session) (model : Model) (record_id : Z) (data : pydict)
         (current_user_id : Z),
    (unit_of_work (snd (create_record model data current_user_id s)) = [] /\
     forall e, fst (create_record model data current_user_id s) = Raise e ->
               exists detail, e = HTTPException 500 detail)
    /\
    (unit_of_work (snd (update_record model record_id data current_user_id s))
     = [] /\
     forall e, fst (update_record model record_id data current_user_id s)
               = Raise e ->
               exists detail, e = HTTPException 500 detail)
    /\
    (unit_of_work (snd (delete_record model record_id current_user_id s)) = [] /\
     forall e, fst (delete_record model record_id current_user_id s) = Raise e ->
               exists detail, e = HTTPException 500 detail).
Proof.
  intros s model record_id data u.
  assert (Hh : forall (A : Type) (msg : exn -> string) (e : exn) (s0 : Session),
             exists e',
               fst ((fun e => db_rollback ;;
                              @raise A (HTTPException 500 (msg e))) e s0)
               = Raise e').
  { intros A msg e s0. eexists. reflexivity. }
  split; [| split].
  - destruct (create_record model data u s) as [[r | e] s'] eqn:E;
      cbn [fst snd].
    + split; [| discriminate].
      unfold create_record in E.
      apply (try_except_ok _ _ _ _ _
               (Hh row (fun e => "Error creating record: " ++ str_of_exn e))) in E.
      apply bind_ok_inv in E. destruct E as (x1 & s1 & _ & E).
      apply bind_ok_inv in E. destruct E as (x2 & s2 & _ & E).
      apply bind_ok_inv in E. destruct E as (x3 & s3 & _ & E).
      apply bind_ok_inv in E. destruct E as (x4 & s4 & _ & E).
      apply bind_ok_inv in E. destruct E as (x5 & s5 & _ & E).
      apply bind_ok_inv in E. destruct E as (x6 & s6 & Ha & E).
      inversion E; subst. exact (add_audit_log_ok_clean _ _ _ _ _ _ _ _ Ha).
    + unfold create_record in E.
      apply (try_except_500 _ (fun e => "Error creating record: " ++ str_of_exn e))
        in E.
      destruct E as [[e0 ->] Hu]. split; [exact Hu |].
      intros e' He'. inversion He'. eexists. reflexivity.
  - destruct (update_record model record_id data u s) as [[r | e] s'] eqn:E;
      cbn [fst snd].
    + split; [| discriminate].
      unfold update_record in E.
      apply (try_except_ok _ _ _ _ _
               (Hh row (fun e => "Error updating record: " ++ str_of_exn e))) in E.
      apply bind_ok_inv in E. destruct E as ([x0 |] & s0 & _ & E);
        [| discriminate E].
      apply bind_ok_inv in E. destruct E as (x1 & s1 & _ & E).
      apply bind_ok_inv in E. destruct E as (x2 & s2 & _ & E).
      apply bind_ok_inv in E. destruct E as (x3 & s3 & _ & E).
      apply bind_ok_inv in E. destruct E as (x4 & s4 & _ & E).
      apply bind_ok_inv in E. destruct E as (x5 & s5 & _ & E).
      apply bind_ok_inv in E. destruct E as (x6 & s6 & _ & E).
      apply bind_ok_inv in E. destruct E as (x7 & s7 & _ & E).
      apply bind_ok_inv in E. destruct E as (x8 & s8 & Ha & E).
      inversion E; subst. exact (add_audit_log_ok_clean _ _ _ _ _ _ _ _ Ha).
    + unfold update_record in E.
      apply (try_except_500 _ (fun e => "Error updating record: " ++ str_of_exn e))
        in E.
      destruct E as [[e0 ->] Hu]. split; [exact Hu |].
      intros e' He'. inversion He'. eexists. reflexivity.
  - destruct (delete_record model record_id u s) as [[r | e] s'] eqn:E;
      cbn [fst snd].
    + split; [| discriminate].
      unfold delete_record in E.
      apply (try_except_ok _ _ _ _ _
               (Hh pyvalue (fun e => "Error deleting record: " ++ str_of_exn e)))
        in E.
      apply bind_ok_inv in E. destruct E as ([x0 |] & s0 & _ & E);
        [| discriminate E].
      apply bind_ok_inv in E. destruct E as (x1 & s1 & _ & E).
      apply bind_ok_inv in E. destruct E as (x2 & s2 & _ & E).
      apply bind_ok_inv in E. destruct E as (x3 & s3 & _ & E).
      apply bind_ok_inv in E. destruct E as (x4 & s4 & Ha & E).
      inversion E; subst. exact (add_audit_log_ok_clean _ _ _ _ _ _ _ _ Ha).
    + unfold delete_record in E.
      apply (try_except_500 _ (fun e => "Error deleting record: " ++ str_of_exn e))
        in E.
      destruct E as [[e0 ->] Hu]. split; [exact Hu |].
      intros e' He'. inversion He'. eexists. reflexivity.
Qed.

Lemma mutations_raise_only_500_witness :
  exists detail,
    HTTPException 500 "Error deleting record: 404: AmenitiesDbModel not found"
    = HTTPException 500 detail.
Proof.
  destruct (mutations_raise_only_500 sample_session AmenitiesDbModel 5 [] 8)
    as (_ & _ & _ & Hd).
  exact (Hd _ eq_refl).
Defined.

(** ** What the serialization idiom returns *)

Section Canonical.

Lemma json_loads_representable :
  forall j, json_representable (json_loads j) = true.
Proof.
  induction j as [| b | n | s | l IHl | m IHm] using json_nested_ind;
    try reflexivity.
  - cbn [json_loads json_representable].
    induction IHl as [| x xs Hx _ IHxs]; [reflexivity |].
    cbn [map forallb]. now rewrite Hx, IHxs.
  - cbn [json_loads json_representable].
    induction IHm as [| [k x] xs Hx _ IHxs]; [reflexivity |].
    cbn [map fst snd] in *. now rewrite Hx, IHxs.
Qed.

End Canonical.

(** X10.  What [json.loads(json.dumps(v, default=json_serial))] returns
    is plain JSON data, with no [datetime] and no foreign object left at
    any depth, and running the idiom on it again changes nothing. *)
Theorem canonicalize_closed :
  forall v w : pyvalue,
    canonicalize v = Ok w ->
    json_representable w = true /\ canonicalize w = Ok w.
Proof.
  intros v w. unfold canonicalize.
  destruct (json_dumps (Some json_serial) v) as [j | e]; [| discriminate].
  intros H. inversion H; subst.
  split; [apply json_loads_representable |].
  now rewrite json_dumps_loads.
Qed.

Lemma canonicalize_closed_witness :
  json_representable (PDict [("created_at", PStr "2024-06-01T12:30:00")]) = true
  /\ canonicalize (PDict [("created_at", PStr "2024-06-01T12:30:00")])
     = Ok (PDict [("created_at", PStr "2024-06-01T12:30:00")]).
Proof.
  exact (canonicalize_closed (PDict [("created_at", PDatetime noon)]) _ eq_refl).
Defined.

(** X11.  [json_serial] never writes two different [datetime] values as
    the same string: equal renderings in the audit log mean equal
    timestamps. *)
Theorem json_serial_injective :
  forall a b : datetime,
    datetime_valid a = true ->
    datetime_valid b = true ->
    json_serial (PDatetime a) = json_serial (PDatetime b) ->
    a = b.
Proof.
  intros a b Ha Hb H. cbn [json_serial] in H.
  assert (Hs : isoformat a = isoformat b) by congruence.
  apply fromisoformat_isoformat in Ha. apply fromisoformat_isoformat in Hb.
  rewrite Hs in Ha. rewrite Ha in Hb. now inversion Hb.
Qed.

Lemma json_serial_injective_witness : noon = noon.
Proof.
  exact (json_serial_injective noon noon eq_refl eq_refl eq_refl).
Defined.

(** ** Tokens and passwords *)

(** X12.  Resolving the caller fails with a 401 and nothing else: every
    exception [get_current_user_from_token] lets out is the credentials
    exception or the expired-token exception, and a token that does not
    parse or whose signature does not verify gets the credentials
    exception whatever its [exp] says. *)
Theorem resolve_caller_failures :
  forall (utcnow : Z) (token : Token) (s : Session),
    (forall e, fst (get_current_user_from_token utcnow token s) = Raise e ->
               e = credentials_exception \/ e = token_expired_exception)
    /\
    (well_formed token && signature_valid token = false ->
     get_current_user_from_token utcnow token s = (Raise credentials_exception, s)).
Proof.
  intros utcnow token s.
  unfold get_current_user_from_token, try_except, bind, lift, jwt_decode, get_user.
  split.
  - destruct (negb (well_formed token) || negb (signature_valid token)).
    { cbn. intros e H. inversion H. now left. }
    destruct (claim_exp token) as [x |].
    + destruct (x <? utcnow).
      { cbn. intros e H. inversion H. now right. }
      cbn [ret]. destruct (claim_sub token) as [email |]; cbn [ret raise].
      * rewrite query_first_single.
        destruct (hd_error _); cbn; intros e H; inversion H. now left.
      * cbn. intros e H. inversion H. now left.
    + cbn [ret]. destruct (claim_sub token) as [email |]; cbn [ret raise].
      * rewrite query_first_single.
        destruct (hd_error _); cbn; intros e H; inversion H. now left.
      * cbn. intros e H. inversion H. now left.
  - intros Hbad.
    assert (Hn : negb (well_formed token) || negb (signature_valid token) = true).
    { destruct (well_formed token), (signature_valid token);
        try discriminate Hbad; reflexivity. }
    rewrite Hn. reflexivity.
Qed.

Lemma resolve_caller_failures_witness :
  get_current_user_from_token 100 (mk_token true false (Some "root@x") (Some 50))
    sample_session
  = (Raise credentials_exception, sample_session)
  /\
  (token_expired_exception = credentials_exception
   \/ token_expired_exception = token_expired_exception).
Proof.
  split.
  - exact (proj2 (resolve_caller_failures 100
                    (mk_token true false (Some "root@x") (Some 50))
                    sample_session) eq_refl).
  - exact (proj1 (resolve_caller_failures 100 (token_for "root@x" 50)
                    sample_session) _ eq_refl).
Defined.

(** X13.  A token issued by [create_access_token] at time [t0] for the
    e-mail of an existing user resolves to that user for thirty minutes:
    up to [t0 + 1800] seconds [get_current_user_from_token] returns the
    user's e-mail and id, and after that it answers with the
    expired-token exception. *)
Theorem issued_token_window :
  forall (s : Session) (t0 utcnow : Z) (email : string) (user : row),
    hd_error (filter (col_eq "email_id" (PStr email))
                (table_rows (database s) "users")) = Some user ->
    (utcnow <= t0 + 1800 ->
     get_current_user_from_token utcnow (create_access_token t0 (PStr email)) s
     = (Ok (mk_user (PStr email) (getattr user "id")), s))
    /\
    (t0 + 1800 < utcnow ->
     get_current_user_from_token utcnow (create_access_token t0 (PStr email)) s
     = (Raise token_expired_exception, s)).
Proof.
  intros s t0 utcnow email user Huser.
  assert (Hmail : getattr user "email_id" = PStr email).
  { apply pyvalue_eqb_eq. apply (hd_error_filter_holds _ _ _ Huser). }
  unfold get_current_user_from_token, try_except, bind, lift, jwt_decode,
    get_user, create_access_token, access_token_expiry_minutes.
  cbn [well_formed signature_valid claim_exp claim_sub negb orb].
  split; intros Ht.
  - assert (Hlt : (t0 + 30 * 60 <? utcnow) = false) by (apply Z.ltb_ge; lia).
    rewrite Hlt. cbn [ret claim_sub].
    rewrite query_first_single.
    change (tablename UserDbModel) with "users".
    rewrite Huser, Hmail. reflexivity.
  - assert (Hlt : (t0 + 30 * 60 <? utcnow) = true) by (apply Z.ltb_lt; lia).
    rewrite Hlt. reflexivity.
Qed.

Lemma issued_token_window_witness :
  get_current_user_from_token 2800 (create_access_token 1000 (PStr "adm@x"))
    sample_session
  = (Ok admin_user, sample_session)
  /\
  get_current_user_from_token 2801 (create_access_token 1000 (PStr "adm@x"))
    sample_session
  = (Raise token_expired_exception, sample_session).
Proof.
  destruct (issued_token_window sample_session 1000 2800 "adm@x"
              (user_row 8 "adm@x" 2) eq_refl) as [Hin _].
  destruct (issued_token_window sample_session 1000 2801 "adm@x"
              (user_row 8 "adm@x" 2) eq_refl) as [_ Hout].
  split; [apply Hin; lia | apply Hout; lia].
Defined.

(** X14.  [authenticate_user] only reads the database; what it raises is
    the credentials exception, the same for an unknown e-mail and for a
    wrong password, or else what the password context raised on the stored
    hash of the user found; and the row it returns is a user row with the
    e-mail asked for whose stored hash verifies against the password
    given. *)
Theorem authenticate_user_outcomes :
  forall (pwd_context : CryptContext) (email password : string) (s : Session),
    snd (authenticate_user pwd_context email password s) = s
    /\
    (forall e, fst (authenticate_user pwd_context email password s) = Raise e ->
               e = credentials_exception
               \/ exists user,
                    In user (table_rows (database s) "users") /\
                    getattr user "email_id" = PStr email /\
                    verify_password pwd_context password (getattr user "password")
                    = Raise e)
    /\
    (forall user,
        fst (authenticate_user pwd_context email password s) = Ok user ->
        In user (table_rows (database s) "users") /\
        getattr user "email_id" = PStr email /\
        verify_password pwd_context password (getattr user "password") = Ok true).
Proof.
  intros ctx email password s.
  unfold authenticate_user, bind, get_user. rewrite query_first_single.
  change (tablename UserDbModel) with "users".
  destruct (hd_error _) as [u |] eqn:Hu.
  - assert (Hin : In u (table_rows (database s) "users")).
    { pose proof (hd_error_in _ _ Hu) as Hy. apply filter_In in Hy. tauto. }
    assert (Hmail : getattr u "email_id" = PStr email).
    { apply pyvalue_eqb_eq. apply (hd_error_filter_holds _ _ _ Hu). }
    destruct (verify_password ctx password (getattr u "password"))
      as [[|] | e0] eqn:Hv; cbn [lift negb ret raise fst snd].
    + split; [reflexivity |]. split; [discriminate |].
      intros user H. inversion H; subst. now repeat split.
    + split; [reflexivity |]. split; [| discriminate].
      intros e H. left. now inversion H.
    + split; [reflexivity |]. split; [| discriminate].
      intros e H. inversion H; subst. right. now exists u.
  - cbn [raise fst snd]. split; [reflexivity |]. split; [| discriminate].
    intros e H. left. now inversion H.
Qed.

Lemma authenticate_user_outcomes_witness :
  (credentials_exception = credentials_exception
   \/ exists user,
        In user (table_rows (database declared_session) "users") /\
        getattr user "email_id" = PStr "adm@x" /\
        verify_password (mk_pwd_context (fun _ p => p) (fun _ _ => Ok false))
          "secret" (getattr user "password")
        = Raise credentials_exception)
  /\ getattr (user_row 8 "adm@x" 2) "email_id" = PStr "adm@x".
Proof.
  split.
  - exact (proj1 (proj2 (authenticate_user_outcomes
                           (mk_pwd_context (fun _ p => p) (fun _ _ => Ok false))
                           "adm@x" "secret" declared_session)) _ eq_refl).
  - exact (proj1 (proj2 (proj2 (proj2 (authenticate_user_outcomes
                           (mk_pwd_context (fun _ p => p) (fun _ _ => Ok true))
                           "adm@x" "secret" declared_session)) _ eq_refl))).
Defined.

(** ** Registration *)

Section Registration.

Variable pwd_context : CryptContext.

Lemma hd_error_none {A} (l : list A) : hd_error l = None -> l = [].
Proof. destruct l; [reflexivity | discriminate]. Qed.

(** The row an INSERT makes of what [register_user] constructs: a
    generated key, the three values given, the declared defaults. *)
Lemma inserted_user (clock : datetime) (email hashed : string)
  (role_id : pyvalue) (rows : list row) :
  insert_row clock UserDbModel
    [("email_id", PStr email); ("password", PStr hashed); ("role_id", role_id)]
    rows
  = [("id", PInt (next_id (map (fun x => getattr x "id") rows)));
     ("email_id", PStr email); ("password", PStr hashed);
     ("verification_code", PNone); ("confirmed", PBool false);
     ("role_id", role_id);
     ("created_at", PDatetime clock); ("updated_at", PDatetime clock)].
Proof. destruct role_id; reflexivity. Qed.

(** [register_user] on an e-mail no user row carries, step by step. *)
Lemma register_user_run (salt : Z) (email password : string)
  (role_id : pyvalue) (s : Session) :
  unit_of_work s = [] ->
  hd_error (filter (col_eq "email_id" (PStr email))
              (table_rows (database s) "users")) = None ->
  let rows := table_rows (database s) "users" in
  let values :=
    [("email_id", PStr email);
     ("password", PStr (get_password_hash pwd_context salt password));
     ("role_id", role_id)] in
  let st1 := fst (flush (now s) [Insert UserDbModel values] (database s)) in
  register_user pwd_context salt email password role_id s
  = if constraints s st1
    then (Ok (PDict [("detail", PStr "User created")]),
          mk_session (constraints s) (now s) st1 [])
    else (Raise (IntegrityError "constraint failed"),
          mk_session (constraints s) (now s) (database s)
            [Insert UserDbModel values]).
Proof.
  intros Hclean Hnone rows values st1. subst st1 values rows.
  cbn [flush apply_pending fst].
  unfold register_user, bind, get_user. rewrite query_first_single.
  change (tablename UserDbModel) with "users". rewrite Hnone.
  change (construct UserDbModel
            [("email_id", PStr email);
             ("password", PStr (get_password_hash pwd_context salt password));
             ("role_id", role_id)])
    with (@ret pydict
            [("email_id", PStr email);
             ("password", PStr (get_password_hash pwd_context salt password));
             ("role_id", role_id)]).
  cbn [ret]. unfold db_pend. rewrite Hclean. cbn [app].
  unfold db_commit.
  cbn [now constraints database unit_of_work flush apply_pending app].
  change (tablename UserDbModel) with "users".
  match goal with
  | |- context [if constraints s ?st then _ else _] =>
      destruct (constraints s st)
  end; reflexivity.
Qed.

End Registration.



(** X16.  Registration, login and the bearer token fit together: once
    [register_user] has succeeded, [login] with the same e-mail and
    password returns a token, provided the password context verifies the
    hash it made; for thirty minutes that token resolves to the new user,
    under the key the registration gave it; and [login] with a password
    the context finds not to match is refused with the credentials
    exception. *)
Theorem register_then_login :
  forall (pwd_context : CryptContext) (salt : Z) (email password : string)
         (role_id : Z) (s : Session) (t0 : Z),
    unit_of_work s = [] ->
    hd_error (filter (col_eq "email_id" (PStr email))
                (table_rows (database s) "users")) = None ->
    constraints s
      (fst (flush (now s)
              [Insert UserDbModel
                 [("email_id", PStr email);
                  ("password", PStr (get_password_hash pwd_context salt password));
                  ("role_id", PInt role_id)]]
              (database s))) = true ->
    pwd_verify pwd_context password
      (PStr (pwd_hash pwd_context salt password)) = Ok true ->
    exists (s' : Session) (new_id : Z),
      register_user pwd_context salt email password (PInt role_id) s
      = (Ok (PDict [("detail", PStr "User created")]), s') /\
      (forall r, In r (table_rows (database s) "users") ->
                 getattr r "id" <> PInt new_id) /\
      login pwd_context t0 email password s'
      = (Ok (create_access_token t0 (PStr email)), s') /\
      (forall utcnow,
          utcnow <= t0 + 1800 ->
          get_current_user_from_token utcnow
            (create_access_token t0 (PStr email)) s'
          = (Ok (mk_user (PStr email) (PInt new_id)), s')) /\
      (forall other,
          pwd_verify pwd_context other
            (PStr (pwd_hash pwd_context salt password)) = Ok false ->
          login pwd_context t0 email other s'
          = (Raise credentials_exception, s')).
Proof.
  intros ctx salt email password role_id s t0 Hclean Hnone Hacc Hverify.
  pose proof (register_user_run ctx salt email password (PInt role_id) s
                Hclean Hnone) as Hrun.
  cbv zeta in Hrun. rewrite Hacc in Hrun.
  eexists. exists (next_id (map (fun x => getattr x "id")
                              (table_rows (database s) "users"))).
  split; [exact Hrun |].
  split.
  { intros r Hin Heq. pose proof (next_id_fresh _ _ Hin) as Hf.
    rewrite Heq, pyvalue_eqb_refl in Hf. discriminate. }
  set (new_user :=
         [("id", PInt (next_id (map (fun x => getattr x "id")
                                  (table_rows (database s) "users"))));
          ("email_id", PStr email);
          ("password", PStr (pwd_hash ctx salt password));
          ("verification_code", PNone); ("confirmed", PBool false);
          ("role_id", PInt role_id);
          ("created_at", PDatetime (now s));
          ("updated_at", PDatetime (now s))]).
  assert (Hfound :
    forall s1,
      table_rows (database s1) "users"
      = (table_rows (database s) "users" ++ [new_user])%list ->
      hd_error (filter (col_eq "email_id" (PStr email))
                  (table_rows (database s1) "users")) = Some new_user).
  { intros s1 ->. rewrite filter_app, (hd_error_none _ Hnone).
    cbn [app filter]. unfold col_eq at 1. unfold getattr.
    cbn [new_user lookup String.eqb Ascii.eqb Bool.eqb].
    cbn [pyvalue_eqb]. rewrite String.eqb_refl. reflexivity. }
  match goal with
  | |- context [login _ _ _ _ ?s1] =>
      assert (Hrows : table_rows (database s1) "users"
                      = (table_rows (database s) "users" ++ [new_user])%list)
        by (cbn [flush apply_pending fst database];
            change (tablename UserDbModel) with "users";
            now rewrite table_rows_set_table, inserted_user);
      specialize (Hfound s1 Hrows)
  end.
  split; [| split].
  - unfold login, authenticate_user, bind, get_user.
    rewrite query_first_single.
    change (tablename UserDbModel) with "users". rewrite Hfound.
    unfold verify_password.
    change (getattr new_user "password")
      with (PStr (pwd_hash ctx salt password)).
    rewrite Hverify. reflexivity.
  - intros utcnow Hu.
    unfold get_current_user_from_token, try_except, bind, lift, jwt_decode,
      get_user, create_access_token, access_token_expiry_minutes.
    cbn [well_formed signature_valid claim_exp claim_sub negb orb].
    assert (Hlt : (t0 + 30 * 60 <? utcnow) = false) by (apply Z.ltb_ge; lia).
    rewrite Hlt. cbn [ret claim_sub].
    rewrite query_first_single.
    change (tablename UserDbModel) with "users".
    rewrite Hfound. reflexivity.
  - intros other Hother.
    unfold login, authenticate_user, bind, get_user.
    rewrite query_first_single.
    change (tablename UserDbModel) with "users". rewrite Hfound.
    unfold verify_password.
    change (getattr new_user "password")
      with (PStr (pwd_hash ctx salt password)).
    rewrite Hother. reflexivity.
Qed.

Lemma register_then_login_witness :
  exists s' : Session,
    register_user
      (mk_pwd_context (fun _ p => "$2b$" ++ p)
         (fun p h => Ok (pyvalue_eqb h (PStr ("$2b$" ++ p)))))
      0 "new@x" "secret" (PInt 3) declared_session
    = (Ok (PDict [("detail", PStr "User created")]), s') /\
    login
      (mk_pwd_context (fun _ p => "$2b$" ++ p)
         (fun p h => Ok (pyvalue_eqb h (PStr ("$2b$" ++ p)))))
      1000 "new@x" "secret" s'
    = (Ok (create_access_token 1000 (PStr "new@x")), s') /\
    (exists new_id,
        get_current_user_from_token 2000
          (create_access_token 1000 (PStr "new@x")) s'
        = (Ok (mk_user (PStr "new@x") (PInt new_id)), s')) /\
    login
      (mk_pwd_context (fun _ p => "$2b$" ++ p)
         (fun p h => Ok (pyvalue_eqb h (PStr ("$2b$" ++ p)))))
      1000 "new@x" "guess" s'
    = (Raise credentials_exception, s').
Proof.
  destruct (register_then_login
              (mk_pwd_context (fun _ p => "$2b$" ++ p)
                 (fun p h => Ok (pyvalue_eqb h (PStr ("$2b$" ++ p)))))
              0 "new@x" "secret" 3 declared_session 1000
              eq_refl eq_refl eq_refl eq_refl)
    as (s' & new_id & Hrun & _ & Hlogin & Hres & Hbad).
  exists s'. split; [exact Hrun |]. split; [exact Hlogin |].
  split; [exists new_id; apply Hres; lia | apply Hbad; reflexivity].
Defined.

(** ** The gates among themselves *)

Section GateRelations.

Lemma pyvalue_eqb_sym (a b : pyvalue) : pyvalue_eqb a b = pyvalue_eqb b a.
Proof.
  destruct (pyvalue_eqb a b) eqn:Eab.
  - apply pyvalue_eqb_eq in Eab. subst b. symmetry. apply pyvalue_eqb_refl.
  - destruct (pyvalue_eqb b a) eqn:Eba; [| reflexivity].
    apply pyvalue_eqb_eq in Eba. subst b.
    rewrite pyvalue_eqb_refl in Eab. discriminate.
Qed.

Lemma query_one_or_none_reads_only (m : Model) (p : row -> bool) (s : Session) :
  snd (query_one_or_none m [p] s) = s.
Proof.
  rewrite query_one_or_none_single.
  destruct (filter p _) as [| r [| r' l]]; reflexivity.
Qed.

(** The shape shared by [super_admin_required], [admin_required] and
    [is_super_admin]: two lookups, two attribute reads, a comparison. *)
Lemma role_check_reads_only {A} (name : string) (uid : pyvalue)
  (decide_ : pyvalue -> pyvalue -> M A) (s : Session) :
  (forall a b s0, snd (decide_ a b s0) = s0) ->
  snd ((role <- query_one_or_none RolesDbModel [col_eq "name" (PStr name)] ;;
        user_in_db <- query_one_or_none UserDbModel [col_eq "id" uid] ;;
        role_id <- attr_of user_in_db "role_id" ;;
        wanted <- attr_of role "id" ;;
        decide_ role_id wanted) s) = s.
Proof.
  intros Hd. unfold bind. rewrite !query_one_or_none_single.
  destruct (filter (col_eq "name" (PStr name)) _) as [| r [| r' l]];
    try reflexivity;
    rewrite !query_one_or_none_single;
    destruct (filter (col_eq "id" uid) _) as [| u [| u' l']];
    cbn [attr_of ret raise]; try reflexivity.
  apply Hd.
Qed.

End GateRelations.

Section GatesReadOnly.

Lemma get_role_ids_reads_only (s : Session) : snd (get_role_ids s) = s.
Proof.
  unfold get_role_ids, bind. rewrite !query_one_or_none_single.
  destruct (filter (col_eq "name" (PStr "admin")) _) as [| ra [| ? ?]];
    try reflexivity.
  rewrite !query_one_or_none_single.
  destruct (filter (col_eq "name" (PStr "superAdmin")) _) as [| rs [| ? ?]];
    try reflexivity.
  rewrite !query_one_or_none_single.
  destruct (filter (col_eq "name" (PStr "endUser")) _) as [| re [| ? ?]];
    reflexivity.
Qed.

Lemma combined_gate_reads_only (current_user : UserUpdate) (s : Session) :
  snd (super_admin_or_admin_required current_user s) = s.
Proof.
  unfold super_admin_or_admin_required, bind.
  pose proof (get_role_ids_reads_only s) as Hs.
  destruct (get_role_ids s) as [[[[a sa] eu] | e] s1]; cbn [snd] in Hs; subst s1;
    [| reflexivity].
  rewrite query_one_or_none_single.
  destruct (filter (col_eq "id" (user_id current_user)) _) as [| u [| u' l']];
    cbn [attr_of ret raise]; try reflexivity.
  destruct (in_set _ _); reflexivity.
Qed.

Lemma is_super_admin_reads_only (current_user : UserUpdate) (s : Session) :
  snd (is_super_admin current_user s) = s.
Proof.
  apply (role_check_reads_only "superAdmin" (user_id current_user)
           (fun role_id wanted =>
              if pyvalue_eqb role_id wanted then ret true else ret false)).
  intros a b s0. destruct (pyvalue_eqb _ _); reflexivity.
Qed.

End GatesReadOnly.

(** X17.  The gates only read: whatever the caller and whatever the
    state of the role and user tables, [super_admin_required],
    [admin_required], [super_admin_or_admin_required], [is_super_admin]
    and [get_role_ids] leave the session, pending work included, exactly
    as they found it, whether they admit, refuse or fail. *)
Theorem gates_read_only :
  forall (current_user : UserUpdate) (s : Session),
    snd (super_admin_required current_user s) = s /\
    snd (admin_required current_user s) = s /\
    snd (super_admin_or_admin_required current_user s) = s /\
    snd (is_super_admin current_user s) = s /\
    snd (get_role_ids s) = s.
Proof.
  intros cu s. repeat split.
  - apply (role_check_reads_only "superAdmin" (user_id cu)
             (fun role_id wanted =>
                if negb (pyvalue_eqb role_id wanted)
                then raise (HTTPException 403
                              "Forbidden - Super Admin access required.")
                else ret cu)).
    intros a b s0. destruct (negb _); reflexivity.
  - apply (role_check_reads_only "admin" (user_id cu)
             (fun role_id wanted =>
                if negb (pyvalue_eqb role_id wanted)
                then raise (HTTPException 403 "Forbidden - Admin access required.")
                else ret cu)).
    intros a b s0. destruct (negb _); reflexivity.
  - apply combined_gate_reads_only.
  - apply is_super_admin_reads_only.
  - apply get_role_ids_reads_only.
Qed.

(** X18.  With the three well-known roles configured, the combined gate
    admits exactly the callers one of the two single gates admits:
    [super_admin_or_admin_required] returns the caller if and only if
    [super_admin_required] or [admin_required] does. *)
Theorem combined_gate_is_union :
  forall (current_user : UserUpdate) (s : Session)
         (ids : pyvalue * pyvalue * pyvalue),
    fst (get_role_ids s) = Ok ids ->
    (fst (super_admin_or_admin_required current_user s) = Ok current_user
     <->
     fst (super_admin_required current_user s) = Ok current_user \/
     fst (admin_required current_user s) = Ok current_user).
Proof.
  intros cu s ids Hids.
  destruct (get_role_ids_ok s ids Hids)
    as (ra & rs & re & Ha & Hs & He & Hrun & ->).
  unfold super_admin_or_admin_required, super_admin_required, admin_required,
    bind.
  rewrite Hrun, !query_one_or_none_single.
  change (tablename RolesDbModel) with "roles". rewrite Ha, Hs.
  rewrite !query_one_or_none_single.
  destruct (filter (col_eq "id" (user_id cu)) _) as [| u [| u' l']];
    cbn [attr_of ret raise fst];
    try (split; [discriminate | intros [H | H]; discriminate H]).
  unfold in_set. cbn [existsb].
  rewrite (pyvalue_eqb_sym (getattr ra "id")),
          (pyvalue_eqb_sym (getattr rs "id")), orb_false_r.
  destruct (pyvalue_eqb (getattr u "role_id") (getattr ra "id")),
           (pyvalue_eqb (getattr u "role_id") (getattr rs "id"));
    cbn [negb orb ret raise fst]; split; auto;
    try discriminate; intros [H | H]; discriminate H.
Qed.

Lemma combined_gate_is_union_witness :
  fst (super_admin_or_admin_required admin_user sample_session) = Ok admin_user
  /\ fst (super_admin_or_admin_required root_user sample_session) = Ok root_user.
Proof.
  split.
  - apply (proj2 (combined_gate_is_union admin_user sample_session
                    (PInt 2, PInt 1, PInt 3) eq_refl)).
    right. reflexivity.
  - apply (proj2 (combined_gate_is_union root_user sample_session
                    (PInt 2, PInt 1, PInt 3) eq_refl)).
    left. reflexivity.
Defined.

(** ** The routes *)

(** X19.  The role-deletion route deletes nothing, for anybody: whatever
    the token, the role id and the state of the database, the request
    ends in an exception and the session is exactly as it was; when the
    role exists the exception is the [TypeError] of the call to
    [delete_record] without its [current_user_id]. *)
Theorem delete_role_never_deletes :
  forall (utcnow : Z) (token : Token) (role_id : Z) (s : Session),
    snd (delete_role utcnow token role_id s) = s /\
    (exists e, fst (delete_role utcnow token role_id s) = Raise e) /\
    (forall role,
        filter (col_eq "id" (PInt role_id)) (table_rows (database s) "roles")
        = [role] ->
        delete_role_handler role_id s
        = (Raise (TypeError
                    "delete_record() missing 1 required positional argument: 'current_user_id'"),
           s)).
Proof.
  intros utcnow token role_id s.
  assert (Hh : snd (delete_role_handler role_id s) = s /\
               exists e, fst (delete_role_handler role_id s) = Raise e).
  { unfold delete_role_handler, bind. rewrite query_one_or_none_single.
    destruct (filter _ _) as [| r [| r' l]]; cbn; eauto. }
  split; [| split].
  - unfold delete_role, bind.
    pose proof (get_current_user_reads_only utcnow token s) as Hu.
    destruct (get_current_user_from_token utcnow token s) as [[cu | e] s1];
      cbn [snd] in Hu; subst s1; [| reflexivity].
    pose proof (is_super_admin_reads_only cu s) as Hg.
    destruct (is_super_admin cu s) as [[b | e] s1]; cbn [snd] in Hg; subst s1;
      [| reflexivity].
    apply Hh.
  - unfold delete_role, bind.
    pose proof (get_current_user_reads_only utcnow token s) as Hu.
    destruct (get_current_user_from_token utcnow token s) as [[cu | e] s1];
      cbn [snd] in Hu; subst s1; [| eexists; reflexivity].
    pose proof (is_super_admin_reads_only cu s) as Hg.
    destruct (is_super_admin cu s) as [[b | e] s1]; cbn [snd] in Hg; subst s1;
      [| eexists; reflexivity].
    apply Hh.
  - intros role Hrole.
    unfold delete_role_handler, bind. rewrite query_one_or_none_single.
    change (tablename RolesDbModel) with "roles". rewrite Hrole. reflexivity.
Qed.

Lemma delete_role_never_deletes_witness :
  delete_role_handler 2 sample_session
  = (Raise (TypeError
              "delete_record() missing 1 required positional argument: 'current_user_id'"),
     sample_session).
Proof.
  exact (proj2 (proj2 (delete_role_never_deletes 100 (token_for "root@x" 200) 2
                         sample_session))
           (role_row 2 "admin") eq_refl).
Defined.

(** X20.  The amenity routes look the row up before they call the CRUD
    function: for an id no amenity carries, [update_amenity] and
    [delete_amenity] answer 404 "Amenity not found" and leave the session
    as it was, where [update_record] and [delete_record] called directly
    would answer 500. *)
Theorem amenity_routes_missing_id :
  forall (s : Session) (amenity_id : Z) (name description : string)
         (current_user_id : Z),
    filter (col_eq "id" (PInt amenity_id)) (table_rows (database s) "amenities")
    = [] ->
    update_amenity amenity_id name description current_user_id s
    = (Raise (HTTPException 404 "Amenity not found"), s)
    /\
    delete_amenity amenity_id current_user_id s
    = (Raise (HTTPException 404 "Amenity not found"), s)
    /\
    (exists detail,
        fst (update_record AmenitiesDbModel amenity_id
               [("name", PStr name); ("description", PStr description)]
               current_user_id s)
        = Raise (HTTPException 500 detail)).
Proof.
  intros s amenity_id name description u Hnone.
  split; [| split].
  - unfold update_amenity, bind. rewrite query_one_or_none_single.
    change (tablename AmenitiesDbModel) with "amenities". now rewrite Hnone.
  - unfold delete_amenity, bind. rewrite query_one_or_none_single.
    change (tablename AmenitiesDbModel) with "amenities". now rewrite Hnone.
  - unfold update_record, try_except, bind. rewrite query_first_single.
    change (tablename AmenitiesDbModel) with "amenities". rewrite Hnone.
    eexists. reflexivity.
Qed.

Lemma amenity_routes_missing_id_witness :
  update_amenity 5 "Gym" "Indoor" 8 sample_session
  = (Raise (HTTPException 404 "Amenity not found"), sample_session)
  /\
  delete_amenity 5 8 sample_session
  = (Raise (HTTPException 404 "Amenity not found"), sample_session).
Proof.
  destruct (amenity_routes_missing_id sample_session 5 "Gym" "Indoor" 8 eq_refl)
    as (Hu & Hd & _).
  split; assumption.
Defined.

Section RouteRuns.

(** The rows an INSERT makes of what the two creating routes pass on. *)
Lemma inserted_amenity (clock : datetime) (name description : string)
  (current_user_id : Z) (rows : list row) :
  insert_row clock AmenitiesDbModel
    [("name", PStr name); ("description", PStr description);
     ("created_by_user", PInt current_user_id)] rows
  = [("id", PInt (next_id (map (fun x => getattr x "id") rows)));
     ("name", PStr name); ("description", PStr description);
     ("created_by_user", PInt current_user_id);
     ("created_at", PDatetime clock); ("updated_at", PDatetime clock)].
Proof. reflexivity. Qed.

Lemma inserted_role (clock : datetime) (name : string) (rows : list row) :
  insert_row clock RolesDbModel [("name", PStr name)] rows
  = [("id", PInt (next_id (map (fun x => getattr x "id") rows)));
     ("name", PStr name); ("description", PNone);
     ("created_at", PDatetime clock); ("updated_at", PDatetime clock)].
Proof. reflexivity. Qed.

(** Two different rows that both match leave [one_or_none] no choice. *)
Lemma filter_two {A} (p : A -> bool) (l : list A) (x y : A) :
  In x l -> In y l -> x <> y -> p x = true -> p y = true ->
  exists a b rest, filter p l = a :: b :: rest.
Proof.
  intros Hx Hy Hne Hpx Hpy.
  assert (Fx : In x (filter p l)) by (apply filter_In; auto).
  assert (Fy : In y (filter p l)) by (apply filter_In; auto).
  destruct (filter p l) as [| a [| b rest]].
  - destruct Fx.
  - destruct Fx as [<- | []]. destruct Fy as [<- | []]. now contradiction Hne.
  - now exists a, b, rest.
Qed.

Lemma next_id_not_in (rows : list row) (r : row) :
  In r rows ->
  getattr r "id" <> PInt (next_id (map (fun x => getattr x "id") rows)).
Proof.
  intros Hin Heq. pose proof (next_id_fresh _ _ Hin) as Hf.
  rewrite Heq, pyvalue_eqb_refl in Hf. discriminate.
Qed.

End RouteRuns.

(** X21.  [create_amenity] keeps amenity names unique: for a name no
    amenity carries, once the database accepts the two commits of
    [create_record], it stores one row, under a key no amenity had, with
    the name, the description and the caller as [created_by_user], answers
    with that key, and logs the payload under the caller's id; creating
    the same name again, by whomever and with whatever description, is
    answered 400 and changes nothing. *)
Theorem create_amenity_once :
  forall (s : Session) (name description : string) (current_user_id : Z),
    unit_of_work s = [] ->
    filter (col_eq "name" (PStr name)) (table_rows (database s) "amenities")
    = [] ->
    let data := [("name", PStr name); ("description", PStr description);
                 ("created_by_user", PInt current_user_id)] in
    let new_amenity :=
      insert_row (now s) AmenitiesDbModel data
        (table_rows (database s) "amenities") in
    let st1 := fst (flush (now s) [Insert AmenitiesDbModel data] (database s)) in
    let entry :=
      mk_audit (next_id (map (fun a => PInt (audit_id a))
                           (audit_logs (database s))))
        "amenities" (getattr new_amenity "id") current_user_id (JObject [])
        (JObject [("name", JString name); ("description", JString description);
                  ("created_by_user", JNumber current_user_id)])
        (now s) in
    constraints s st1 = true ->
    constraints s (mk_store (tables st1) (audit_logs (database s) ++ [entry]))
    = true ->
    exists (s' : Session) (new_id : Z),
      create_amenity name description current_user_id s
      = (Ok (PDict [("message", PStr "Amenity added successfully");
                    ("id", PInt new_id)]), s') /\
      (forall r, In r (table_rows (database s) "amenities") ->
                 getattr r "id" <> PInt new_id) /\
      table_rows (database s') "amenities"
      = (table_rows (database s) "amenities"
         ++ [[("id", PInt new_id); ("name", PStr name);
              ("description", PStr description);
              ("created_by_user", PInt current_user_id);
              ("created_at", PDatetime (now s));
              ("updated_at", PDatetime (now s))]])%list /\
      audit_logs (database s') = (audit_logs (database s) ++ [entry])%list /\
      record_id entry = PInt new_id /\
      (forall description' current_user_id',
          create_amenity name description' current_user_id' s'
          = (Raise (HTTPException 400 "This amenity already exists"), s')).
Proof.
  intros s name description u Hclean Hnone data new_amenity st1 entry Hc1 Hc2.
  pose proof (create_record_run s AmenitiesDbModel data u
                (JObject [("name", JString name);
                          ("description", JString description);
                          ("created_by_user", JNumber u)])
                Hclean eq_refl eq_refl eq_refl eq_refl) as Hrun.
  cbv zeta in Hrun.
  change (tablename AmenitiesDbModel) with "amenities" in Hrun.
  fold new_amenity in Hrun. fold st1 in Hrun. fold entry in Hrun.
  rewrite Hc1, Hc2 in Hrun.
  assert (Hrow : new_amenity
                 = [("id", PInt (next_id (map (fun x => getattr x "id")
                                            (table_rows (database s) "amenities"))));
                    ("name", PStr name); ("description", PStr description);
                    ("created_by_user", PInt u);
                    ("created_at", PDatetime (now s));
                    ("updated_at", PDatetime (now s))])
    by apply inserted_amenity.
  eexists. exists (next_id (map (fun x => getattr x "id")
                              (table_rows (database s) "amenities"))).
  split; [| split; [| split; [| split; [| split]]]].
  - unfold create_amenity, check_if_amenity_already_exists, bind.
    rewrite query_one_or_none_single.
    change (tablename AmenitiesDbModel) with "amenities". rewrite Hnone.
    cbn [ret negb]. fold data. rewrite Hrun. cbn [ret].
    rewrite Hrow. reflexivity.
  - intros r Hin. now apply next_id_not_in.
  - cbn [database tables]. subst st1. cbn [flush apply_pending fst tables].
    change (tablename AmenitiesDbModel) with "amenities".
    rewrite table_rows_set_table. fold new_amenity. now rewrite Hrow.
  - reflexivity.
  - subst entry. cbn [record_id]. now rewrite Hrow.
  - intros description' u'.
    unfold create_amenity, check_if_amenity_already_exists, bind.
    rewrite query_one_or_none_single.
    change (tablename AmenitiesDbModel) with "amenities".
    cbn [database tables]. subst st1. cbn [flush apply_pending fst tables].
    change (tablename AmenitiesDbModel) with "amenities".
    rewrite table_rows_set_table, filter_app, Hnone.
    fold new_amenity. rewrite Hrow.
    cbn [app filter]. unfold col_eq at 1. unfold getattr.
    cbn [lookup String.eqb Ascii.eqb Bool.eqb].
    cbn [pyvalue_eqb]. rewrite String.eqb_refl. reflexivity.
Qed.

Lemma create_amenity_once_witness :
  exists (s' : Session) (new_id : Z),
    create_amenity "Gym" "Indoor" 8 declared_session
    = (Ok (PDict [("message", PStr "Amenity added successfully");
                  ("id", PInt new_id)]), s') /\
    create_amenity "Gym" "Rooftop" 7 s'
    = (Raise (HTTPException 400 "This amenity already exists"), s').
Proof.
  destruct (create_amenity_once declared_session "Gym" "Indoor" 8
              eq_refl eq_refl eq_refl eq_refl)
    as (s' & new_id & Hrun & _ & _ & _ & _ & Hagain).
  exists s', new_id. split; [exact Hrun | apply Hagain].
Defined.

(** X22.  [add_a_new_role] keeps role names unique: for a name no role
    carries, once the database accepts the two commits of [create_record],
    it stores one role row, under a key no role had, with that name and no
    description, and adding the same name again is answered 409 and
    changes nothing.  (The request body gives the name as a [str].) *)
Theorem add_a_new_role_once :
  forall (s : Session) (role_name : string) (current_user_id : Z),
    unit_of_work s = [] ->
    filter (col_eq "name" (PStr role_name)) (table_rows (database s) "roles")
    = [] ->
    let data := [("name", PStr role_name)] in
    let new_role :=
      insert_row (now s) RolesDbModel data (table_rows (database s) "roles") in
    let st1 := fst (flush (now s) [Insert RolesDbModel data] (database s)) in
    let entry :=
      mk_audit (next_id (map (fun a => PInt (audit_id a))
                           (audit_logs (database s))))
        "roles" (getattr new_role "id") current_user_id (JObject [])
        (JObject [("name", JString role_name)]) (now s) in
    constraints s st1 = true ->
    constraints s (mk_store (tables st1) (audit_logs (database s) ++ [entry]))
    = true ->
    exists (s' : Session) (new_id : Z),
      add_a_new_role role_name current_user_id s
      = (Ok (PDict [("message",
                     PStr ("Role " ++ role_name ++ " added successfully"))]),
         s') /\
      (forall r, In r (table_rows (database s) "roles") ->
                 getattr r "id" <> PInt new_id) /\
      table_rows (database s') "roles"
      = (table_rows (database s) "roles"
         ++ [[("id", PInt new_id);
              ("name", PStr role_name); ("description", PNone);
              ("created_at", PDatetime (now s));
              ("updated_at", PDatetime (now s))]])%list /\
      (forall current_user_id',
          add_a_new_role role_name current_user_id' s'
          = (Raise (HTTPException 409 "Role already exists"), s')).
Proof.
  intros s role_name u Hclean Hnone data new_role st1 entry Hc1 Hc2.
  pose proof (create_record_run s RolesDbModel data u
                (JObject [("name", JString role_name)])
                Hclean eq_refl eq_refl eq_refl eq_refl) as Hrun.
  cbv zeta in Hrun.
  change (tablename RolesDbModel) with "roles" in Hrun.
  fold new_role in Hrun. fold st1 in Hrun. fold entry in Hrun.
  rewrite Hc1, Hc2 in Hrun.
  assert (Hrow : new_role
                 = [("id", PInt (next_id (map (fun x => getattr x "id")
                                            (table_rows (database s) "roles"))));
                    ("name", PStr role_name); ("description", PNone);
                    ("created_at", PDatetime (now s));
                    ("updated_at", PDatetime (now s))])
    by apply inserted_role.
  eexists. exists (next_id (map (fun x => getattr x "id")
                              (table_rows (database s) "roles"))).
  split; [| split; [| split]].
  - unfold add_a_new_role, bind. rewrite query_one_or_none_single.
    change (tablename RolesDbModel) with "roles". rewrite Hnone.
    fold data. rewrite Hrun. reflexivity.
  - intros r Hin. now apply next_id_not_in.
  - cbn [database tables]. subst st1. cbn [flush apply_pending fst tables].
    change (tablename RolesDbModel) with "roles".
    rewrite table_rows_set_table. fold new_role. now rewrite Hrow.
  - intros u'. unfold add_a_new_role, bind. rewrite query_one_or_none_single.
    change (tablename RolesDbModel) with "roles".
    cbn [database tables]. subst st1. cbn [flush apply_pending fst tables].
    change (tablename RolesDbModel) with "roles".
    rewrite table_rows_set_table, filter_app, Hnone.
    fold new_role. rewrite Hrow.
    cbn [app filter]. unfold col_eq at 1. unfold getattr.
    cbn [lookup String.eqb Ascii.eqb Bool.eqb].
    cbn [pyvalue_eqb]. rewrite String.eqb_refl. reflexivity.
Qed.

Lemma add_a_new_role_once_witness :
  exists s' : Session,
    add_a_new_role "auditor" 7 declared_session
    = (Ok (PDict [("message", PStr "Role auditor added successfully")]), s') /\
    add_a_new_role "auditor" 8 s'
    = (Raise (HTTPException 409 "Role already exists"), s').
Proof.
  destruct (add_a_new_role_once declared_session "auditor" 7
              eq_refl eq_refl eq_refl eq_refl)
    as (s' & new_id & Hrun & _ & _ & Hagain).
  exists s'. split; [exact Hrun | apply Hagain].
Defined.

(** X23.  [update_role] compares the new name with the old name of the
    same role only: renaming a role to the name another role carries is
    never answered 409 "Role already exists"; the rename goes to the
    database as an UPDATE that would leave two roles with that name, and
    when the database refuses it ([name] is declared unique) the route
    answers 500 and nothing is changed. *)
Theorem update_role_duplicates_name :
  forall (s : Session) (role_id : Z) (role_name : string) (current_user_id : Z)
         (saved other : row) (old_json : json),
    unit_of_work s = [] ->
    filter (col_eq "id" (PInt role_id)) (table_rows (database s) "roles")
    = [saved] ->
    pyvalue_eqb (getattr saved "name") (PStr role_name) = false ->
    In other (table_rows (database s) "roles") ->
    getattr other "name" = PStr role_name ->
    json_dumps (Some json_serial) (PDict (snapshot RolesDbModel saved))
    = Ok old_json ->
    let st1 :=
      fst (flush (now s)
             [Update RolesDbModel (PInt role_id) [("name", PStr role_name)]]
             (database s)) in
    (forall detail : string,
        fst (update_role role_id role_name current_user_id s)
        <> Raise (HTTPException 409 detail))
    /\
    (exists a b rest,
        filter (col_eq "name" (PStr role_name)) (table_rows st1 "roles")
        = a :: b :: rest)
    /\
    (constraints s st1 = false ->
     exists detail : string,
       update_role role_id role_name current_user_id s
       = (Raise (HTTPException 500 detail),
          mk_session (constraints s) (now s) (database s) [])).
Proof.
  intros s role_id role_name u saved other old_json
         Hclean Hsaved Hname Hother Honame Hold st1.
  assert (Hrec : hd_error (filter (col_eq "id" (PInt role_id))
                             (table_rows (database s) (tablename RolesDbModel)))
                 = Some saved).
  { change (tablename RolesDbModel) with "roles". now rewrite Hsaved. }
  destruct (singleton_filter_elim _ _ _ Hsaved) as [Hsin Hsid].
  assert (Hid : getattr saved "id" = PInt role_id)
    by now apply pyvalue_eqb_int_r.
  assert (Hoid : pyvalue_eqb (getattr other "id") (PInt role_id) = false).
  { destruct (pyvalue_eqb (getattr other "id") (PInt role_id)) eqn:E;
      [| reflexivity].
    pose proof (singleton_filter_in _ _ _ _ Hsaved Hother E) as ->.
    rewrite Honame, pyvalue_eqb_refl in Hname. discriminate. }
  assert (Hnd : NoDup (map fst [("name", PStr role_name)]))
    by (constructor; [intros [] | constructor]).
  destruct (keyed_facts RolesDbModel eq_refl) as (_ & _ & Hplain).
  destruct (update_record_run s RolesDbModel role_id [("name", PStr role_name)]
              u saved old_json (JObject [("name", JString role_name)])
              Hclean eq_refl Hrec eq_refl Hnd Hold eq_refl)
    as (updated & _ & _ & Hrun).
  fold st1 in Hrun.
  assert (Hroute :
    update_role role_id role_name u s
    = (x <- update_record RolesDbModel role_id [("name", PStr role_name)] u ;;
       ret (PDict [("message", PStr "Role updated successfully");
                   ("id", getattr x "id")])) s).
  { unfold update_role, bind at 1. rewrite query_one_or_none_single.
    change (tablename RolesDbModel) with "roles". now rewrite Hsaved, Hname. }
  split; [| split].
  - intros detail. rewrite Hroute. unfold bind. rewrite Hrun.
    destruct (constraints s st1); [destruct (constraints s _) |];
      cbn; discriminate.
  - subst st1. cbn [flush apply_pending fst].
    change (tablename RolesDbModel) with "roles".
    rewrite table_rows_set_table.
    set (new := update_row (now s) RolesDbModel [("name", PStr role_name)] saved).
    assert (Hupid : getattr new "id" = PInt role_id).
    { unfold new. rewrite update_row_keeps_id; [exact Hid | reflexivity |].
      exact Hplain. }
    apply (filter_two _ _ new other).
    + apply in_map_iff. exists saved. split; [| exact Hsin].
      now rewrite Hid, pyvalue_eqb_refl.
    + apply in_map_iff. exists other. split; [| exact Hother].
      now rewrite Hoid.
    + intros Heq. rewrite <- Heq, Hupid, pyvalue_eqb_refl in Hoid.
      discriminate.
    + unfold col_eq, new.
      rewrite (update_row_written (now s) RolesDbModel
                 [("name", PStr role_name)] saved "name" (PStr role_name)).
      * apply pyvalue_eqb_refl.
      * exact Hnd.
      * now left.
      * reflexivity.
      * intros c Hin Hc. cbn in Hin.
        repeat (destruct Hin as [<- | Hin]; [reflexivity || discriminate Hc |]).
        destruct Hin.
    + unfold col_eq. rewrite Honame. apply pyvalue_eqb_refl.
  - intros Hrej. rewrite Hrej in Hrun. eexists.
    rewrite Hroute. unfold bind. rewrite Hrun. reflexivity.
Qed.

Lemma update_role_duplicates_name_witness :
  exists detail : string,
    update_role 3 "admin" 7 declared_session
    = (Raise (HTTPException 500 detail), declared_session).
Proof.
  exact (proj2 (proj2 (update_role_duplicates_name declared_session 3 "admin" 7
                         (role_row 3 "endUser") (role_row 2 "admin")
                         (JObject [("id", JNumber 3); ("name", JString "endUser");
                                   ("description", JNull);
                                   ("created_at", JString "2024-01-01T00:00:00");
                                   ("updated_at", JString "2024-01-01T00:00:00")])
                         eq_refl eq_refl eq_refl (or_intror (or_introl eq_refl))
                         eq_refl eq_refl)) eq_refl).
Defined.



(** ** Reading *)

Section Reading.

(** What stops the loop of [fetch_record] is its own 400 or an exception
    of the ORM, never another [HTTPException]. *)
Lemma build_filters_raises (db : store) (m : Model) (filter_params : pydict)
  (e : exn) :
  build_filters db m filter_params = Raise e ->
  (exists detail, e = HTTPException 400 detail) \/
  (forall status detail, e <> HTTPException status detail).
Proof.
  induction filter_params as [| [attr value] rest IH]; [discriminate |].
  cbn [build_filters]. destruct (hasattr m attr).
  - destruct (filter_clause db m attr value) as [p | e0] eqn:Hclause.
    + destruct (build_filters db m rest) as [ps | e1]; [discriminate |].
      intros H. inversion H; subst. now apply IH.
    + intros H. inversion H; subst e0. right.
      unfold filter_clause in Hclause.
      destruct (is_column m attr); [discriminate Hclause |].
      destruct (lookup attr (class_attrs m)) as [[| r | | c] |];
        try discriminate Hclause.
      * destruct value, r; try discriminate Hclause;
          inversion Hclause; intros status detail; discriminate.
      * inversion Hclause; intros status detail; discriminate.
  - intros H. inversion H. left. eexists. reflexivity.
Qed.

End Reading.

(** X25.  [fetch_record] only reads, and it fails with an
    [HTTPException] only, of status 400 (a key the class lacks), 404 (no
    row), 300 (more than one row) or 500 (anything else that went wrong);
    when it succeeds, the row returned is a row of the table. *)
Theorem fetch_record_closed :
  forall (model : Model) (filter_params : pydict) (s : Session),
    snd (fetch_record model filter_params s) = s /\
    (forall e, fst (fetch_record model filter_params s) = Raise e ->
               exists status detail,
                 e = HTTPException status detail /\
                 (status = 400 \/ status = 404 \/ status = 300 \/ status = 500)) /\
    (forall r, fst (fetch_record model filter_params s) = Ok r ->
               In r (table_rows (database s) (tablename model))).
Proof.
  intros model filter_params s.
  unfold fetch_record, try_except, bind.
  destruct (build_filters (database s) model filter_params) as [ps | e0] eqn:E;
    cbn [lift ret raise].
  - unfold query_all.
    destruct (filter _ _) as [| r [| r' l]] eqn:Ef; cbn [ret raise fst snd].
    + split; [reflexivity |]. split; [| discriminate].
      intros e H. inversion H. exists 404, "Record not found". auto.
    + split; [reflexivity |]. split; [discriminate |].
      intros r0 H. inversion H; subst.
      assert (Hin : In r0 (filter (fun r => forallb (fun p => p r) ps)
                             (table_rows (database s) (tablename model))))
        by (rewrite Ef; now left).
      apply filter_In in Hin. tauto.
    + split; [reflexivity |]. split; [| discriminate].
      intros e H. inversion H. exists 300, "Multiple records found". auto.
  - destruct (build_filters_raises _ _ _ _ E) as [[d ->] | Hne];
      cbn [raise fst snd].
    + split; [reflexivity |]. split; [| discriminate].
      intros e H. inversion H. exists 400, d. auto.
    + destruct e0 as [c d | | | | | | | | |];
        try (exfalso; now apply (Hne c d));
        cbn [raise fst snd];
        (split; [reflexivity |]; split; [| discriminate];
         intros e H; inversion H; eexists 500, _; auto 6).
Qed.

Lemma fetch_record_closed_witness :
  In (amenity_row 1 "Pool" "Outdoor" 8) (table_rows sample_store "amenities")
  /\
  exists status detail,
    HTTPException 400 "Invalid filter parameter: colour"
    = HTTPException status detail /\
    (status = 400 \/ status = 404 \/ status = 300 \/ status = 500).
Proof.
  split.
  - exact (proj2 (proj2 (fetch_record_closed AmenitiesDbModel
                           [("name", PStr "Pool")] sample_session))
             _ eq_refl).
  - exact (proj1 (proj2 (fetch_record_closed AmenitiesDbModel
                           [("colour", PStr "blue")] sample_session))
             _ eq_refl).
Defined.

(** ** The audit log only grows *)

Ltac finish_with_audit lem :=
  match goal with
  | |- context [add_audit_log ?t ?r ?b ?o ?n (mk_session ?c ?k ?st [])] =>
      let l := fresh "l" in
      let Hl := fresh "Hl" in
      let Hlen := fresh "Hlen" in
      destruct (lem t r b o n c k st) as (l & Hl & Hlen);
      exists l; split; [exact Hl | exact Hlen]
  end.

Ltac close_case :=
  cbn [snd database audit_logs tables];
  first [ exists []; split; [now rewrite app_nil_r | cbn; lia]
        | eexists [_]; split; [reflexivity | cbn; lia] ].

Section AppendOnly.

Lemma detach_one_audit_logs (clock : datetime) (pk : pyvalue) (st : store)
  (child : string * string) :
  audit_logs (detach clock pk st child) = audit_logs st.
Proof. unfold detach. now destruct (lookup (fst child) (tables st)). Qed.

(** Flushing them leaves the audit log as it is. *)
Lemma flush_audit_logs (clock : datetime) (ops : list pending) (st : store) :
  Forall writes_rows ops ->
  audit_logs (fst (flush clock ops st)) = audit_logs st.
Proof.
  revert st. induction ops as [| op ops IH]; intros st Hall; [reflexivity |].
  inversion Hall as [| ? ? Hop Hrest]; subst.
  cbn [flush].
  destruct (apply_pending clock st op) as [st1 pks1] eqn:E1.
  specialize (IH st1 Hrest).
  destruct (flush clock ops st1) as [st2 pks2]. cbn [fst] in *.
  rewrite IH.
  destruct op; cbn [apply_pending] in E1; inversion E1; subst;
    cbn [audit_logs]; try reflexivity.
  - apply detach_audit_logs.
  - apply detach_one_audit_logs.
  - destruct Hop.
Qed.

(** What [add_audit_log] leaves behind, from a session without pending
    work: the log as it was or one entry longer. *)
Lemma add_audit_log_appends (t : string) (rid : pyvalue) (by_ : Z)
  (old new : pyvalue) (c : store -> bool) (clock : datetime) (st : store) :
  exists l,
    audit_logs (database (snd (add_audit_log t rid by_ old new
                                 (mk_session c clock st []))))
    = (audit_logs st ++ l)%list /\ (List.length l <= 1)%nat.
Proof.
  unfold add_audit_log, bind.
  destruct (json_dumps None old) as [jo | e]; cbn [lift ret raise];
    [| close_case].
  destruct (json_dumps None new) as [jn | e]; cbn [lift ret raise];
    [| close_case].
  unfold db_pend, db_commit.
  cbn [now constraints database unit_of_work app flush apply_pending].
  destruct (c _); close_case.
Qed.

(** The handler of the three mutations keeps the database the body
    left. *)
Lemma try_except_database {A} (body : M A) (msg : exn -> string) (s : Session) :
  database (snd (try_except body
                   (fun e => db_rollback ;; raise (HTTPException 500 (msg e))) s))
  = database (snd (body s)).
Proof.
  unfold try_except. destruct (body s) as [[a | e] s1]; reflexivity.
Qed.

Lemma bind_ret_snd {A B} (m : M A) (b : B) (s : Session) :
  snd (bind m (fun _ => ret b) s) = snd (m s).
Proof.
  unfold bind. destruct (m s) as [[a | e] s1]; reflexivity.
Qed.

Lemma create_record_appends (s : Session) (model : Model) (data : pydict)
  (current_user_id : Z) :
  unit_of_work s = [] ->
  exists l,
    audit_logs (database (snd (create_record model data current_user_id s)))
    = (audit_logs (database s) ++ l)%list /\ (List.length l <= 1)%nat.
Proof.
  intros Hclean. unfold create_record.
  rewrite (try_except_database _
             (fun e => "Error creating record: " ++ str_of_exn e)).
  unfold bind at 1. unfold construct.
  destruct (find _ data) as [kv |]; cbn [ret raise]; [close_case |].
  unfold bind at 1. unfold db_pend. rewrite Hclean. cbn [app].
  unfold bind at 1. unfold db_commit.
  cbn [now constraints database unit_of_work flush apply_pending app].
  match goal with
  | |- context [if constraints s ?st then _ else _] =>
      destruct (constraints s st)
  end; [| close_case].
  unfold bind at 1. unfold db_refresh, bind at 1.
  rewrite query_first_single. cbn [database].
  destruct (hd_error _) as [x |]; cbn [ret raise]; [| close_case].
  unfold bind at 1. unfold read_attr.
  destruct (hasattr model "id"); cbn [ret raise]; [| close_case].
  rewrite bind_ret_snd.
  finish_with_audit add_audit_log_appends.
Qed.

Lemma update_record_appends (s : Session) (model : Model) (record_id : Z)
  (data : pydict) (current_user_id : Z) :
  unit_of_work s = [] ->
  exists l,
    audit_logs (database (snd (update_record model record_id data
                                 current_user_id s)))
    = (audit_logs (database s) ++ l)%list /\ (List.length l <= 1)%nat.
Proof.
  intros Hclean. unfold update_record.
  rewrite (try_except_database _
             (fun e => "Error updating record: " ++ str_of_exn e)).
  unfold bind at 1. rewrite query_first_single.
  destruct (hd_error _) as [record |]; cbn [raise]; [| close_case].
  unfold bind at 1.
  destruct (canonicalize (PDict (snapshot model record))) as [old | e];
    cbn [lift ret raise]; [| close_case].
  unfold bind at 1.
  destruct (assign model data) as [written | e];
    cbn [lift ret raise]; [| close_case].
  unfold bind at 1. unfold db_pend. rewrite Hclean. cbn [app].
  unfold bind at 1. unfold db_pend_all.
  cbn [now constraints database unit_of_work].
  unfold bind at 1. unfold db_commit.
  cbn [now constraints database unit_of_work].
  match goal with
  | |- context [flush (now s) ?ops (database s)] =>
      assert (Haudit : audit_logs (fst (flush (now s) ops (database s)))
                       = audit_logs (database s));
      [ apply flush_audit_logs; apply Forall_app; split;
        [ repeat constructor
        | apply Forall_forall; intros op Hop; apply in_map_iff in Hop;
          destruct Hop as (c & <- & _); exact I ]
      | destruct (flush (now s) ops (database s)) as [st1 pks] ]
  end.
  cbn [fst] in Haudit. rewrite <- Haudit.
  destruct (constraints s st1); [| rewrite Haudit; close_case].
  unfold bind at 1. unfold db_refresh, bind at 1.
  rewrite query_first_single. cbn [database].
  destruct (hd_error _) as [x |]; cbn [ret raise]; [| close_case].
  unfold bind at 1.
  destruct (canonicalize (PDict data)) as [new | e];
    cbn [lift ret raise]; [| close_case].
  rewrite bind_ret_snd.
  finish_with_audit add_audit_log_appends.
Qed.

Lemma delete_record_appends (s : Session) (model : Model) (record_id : Z)
  (current_user_id : Z) :
  unit_of_work s = [] ->
  exists l,
    audit_logs (database (snd (delete_record model record_id current_user_id s)))
    = (audit_logs (database s) ++ l)%list /\ (List.length l <= 1)%nat.
Proof.
  intros Hclean. unfold delete_record.
  rewrite (try_except_database _
             (fun e => "Error deleting record: " ++ str_of_exn e)).
  unfold bind at 1. rewrite query_first_single.
  destruct (hd_error _) as [record |]; cbn [raise]; [| close_case].
  unfold bind at 1.
  destruct (canonicalize (PDict (snapshot model record))) as [old | e];
    cbn [lift ret raise]; [| close_case].
  unfold bind at 1. unfold db_pend. rewrite Hclean. cbn [app].
  unfold bind at 1. unfold db_commit.
  cbn [now constraints database unit_of_work].
  match goal with
  | |- context [flush (now s) ?ops (database s)] =>
      assert (Haudit : audit_logs (fst (flush (now s) ops (database s)))
                       = audit_logs (database s))
        by (apply flush_audit_logs; repeat constructor);
      destruct (flush (now s) ops (database s)) as [st1 pks]
  end.
  cbn [fst] in Haudit. rewrite <- Haudit.
  destruct (constraints s st1); [| rewrite Haudit; close_case].
  rewrite bind_ret_snd.
  finish_with_audit add_audit_log_appends.
Qed.

End AppendOnly.

(** X26.  The audit log is append-only under the three mutations on the
    other tables: from a session without pending work, whatever the model
    (of a table other than [audit_logs]), the arguments and the outcome,
    the log after the call is the log before it, followed by at most one
    new entry; no entry is changed or removed. *)
Theorem audit_log_append_only :
  forall (s : Session) (model : Model) (record_id : Z) (data : pydict)
         (current_user_id : Z),
    unit_of_work s = [] ->
    tablename model <> "audit_logs" ->
    (exists l,
        audit_logs (database (snd (create_record model data current_user_id s)))
        = (audit_logs (database s) ++ l)%list /\ (List.length l <= 1)%nat)
    /\
    (exists l,
        audit_logs (database (snd (update_record model record_id data
                                     current_user_id s)))
        = (audit_logs (database s) ++ l)%list /\ (List.length l <= 1)%nat)
    /\
    (exists l,
        audit_logs (database (snd (delete_record model record_id
                                     current_user_id s)))
        = (audit_logs (database s) ++ l)%list /\ (List.length l <= 1)%nat).
Proof.
  intros s model record_id data u Hclean _.
  split; [| split].
  - now apply create_record_appends.
  - now apply update_record_appends.
  - now apply delete_record_appends.
Qed.

Lemma audit_log_append_only_witness :
  exists l,
    audit_logs (database (snd (delete_record AmenitiesDbModel 1 8
                                 declared_session)))
    = (audit_logs sample_store ++ l)%list /\ (List.length l <= 1)%nat.
Proof.
  exact (proj2 (proj2 (audit_log_append_only declared_session AmenitiesDbModel 1
                         [] 8 eq_refl ltac:(discriminate)))).
Defined.
